(** * kite-mcp-server: the market analysis and trade-signal engine

    A shallow embedding of [mcp/ai_analysis_engine.go] and of the
    risk-reward, confidence and position-sizing helpers of the strategy tools
    file, followed by the properties of the engine that were checked on it.

    Numbers.  Go's [float64] is IEEE 754 binary64 and is embedded as Rocq's
    primitive [float], whose operations are the same correctly rounded
    binary64 operations (one NaN, signed zeros, infinities).  Every Go
    floating-point operator is one rounded operation here; the fused
    multiply-add that the Go specification allows on some targets is not
    modelled (amd64 does not fuse).  Go's [int] holds lengths, indices, the
    position size and the priority; it is embedded as [Z] (none of these
    computations leaves the 64-bit range except the float-to-int conversion,
    which is written out in [int_of_float]).

    Slices are lists.  Every index expression of the embedded functions is
    guarded by a length test in the source, so no access is out of range and
    [index] never returns its default. *)

From Stdlib Require Import ZArith List String Bool Floats Lia.
From Stdlib Require Import Sorting.Sorted Sorting.Permutation Zpower.
Import ListNotations.

Set Warnings "-inexact-float".

Local Open Scope Z_scope.
Local Open Scope string_scope.
Local Open Scope float_scope.

(* ===================================================================== *)
(** ** Go runtime and library primitives                                  *)
(* ===================================================================== *)

(** [math.IsNaN] *)
Definition IsNaN (x : float) : bool := negb (x =? x).

(** [math.Abs] *)
Definition Abs (x : float) : float := abs x.

(** [math.Sqrt] (correctly rounded, as the hardware instruction) *)
Definition Sqrt (x : float) : float := sqrt x.

(** Sign bit of a float, read from its specification value. *)
Definition Signbit (x : float) : bool :=
  match Prim2SF x with
  | S754_zero s | S754_infinity s | S754_finite s _ _ => s
  | S754_nan => false
  end.

(** [math.Max]: [+Inf] wins, then NaN, then the sign of zeros, then [>]. *)
Definition Max (x y : float) : float :=
  if (x =? infinity) || (y =? infinity) then infinity
  else if IsNaN x || IsNaN y then nan
  else if (x =? 0) && (x =? y) then (if Signbit x then y else x)
  else if y <? x then x else y.

(** [float64(n)] for an [int] [n]: the nearest binary64. *)
Definition float64 (n : Z) : float :=
  SF2Prim (binary_normalize prec emax n 0%Z false).

(** The integer part of a finite float (truncation toward zero). *)
Definition trunc_SF (f : spec_float) : option Z :=
  match f with
  | S754_zero _ => Some 0%Z
  | S754_finite s m e =>
      let mag := Z.shiftl (Zpos m) e in
      Some (if s then (- mag)%Z else mag)
  | S754_infinity _ | S754_nan => None
  end.

Definition minInt64 : Z := (- 2 ^ 63)%Z.

(** [int(x)] for a [float64] [x].  Go truncates toward zero; when the value
    does not fit (or is NaN or infinite) the result is implementation
    defined, and amd64 delivers the smallest 64-bit integer. *)
Definition int_of_float (x : float) : Z :=
  match trunc_SF (Prim2SF x) with
  | Some z => if ((minInt64 <=? z) && (z <? 2 ^ 63))%Z then z else minInt64
  | None => minInt64
  end.

(** [math.Round]: nearest integer, halves away from zero; zeros, infinities
    and NaN are returned unchanged. *)
Definition Round (x : float) : float :=
  match Prim2SF x with
  | S754_finite s m e =>
      if (0 <=? e)%Z then x
      else
        let twice := Z.shiftl (Zpos m) (e + 1) in  (* floor (2 * |x|) *)
        let mag := ((twice + 1) / 2)%Z in
        if s then - float64 mag else float64 mag
  | _ => x
  end.

(** The order of [sort.Float64s]: [<] with NaN before every number. *)
Definition float64_less (x y : float) : bool :=
  (x <? y) || (IsNaN x && negb (IsNaN y)).

Fixpoint insert_sorted (x : float) (l : list float) : list float :=
  match l with
  | [] => [x]
  | y :: l' => if float64_less x y then x :: l else y :: insert_sorted x l'
  end.

(** [sort.Float64s], as an insertion sort.  The library's sort is not
    stable, which can only be observed on zeros of different sign. *)
Definition Float64s (l : list float) : list float :=
  fold_right insert_sorted [] l.

(** *** Slices and loops *)

Definition len {A} (l : list A) : Z := Z.of_nat (List.length l).

(** [l[i]] *)
Definition index (l : list float) (i : Z) : float := nth (Z.to_nat i) l 0.

(** [l[lo:hi]] *)
Definition slice {A} (l : list A) (lo hi : Z) : list A :=
  firstn (Z.to_nat (hi - lo)) (skipn (Z.to_nat lo) l).

(** The values taken by [i] in [for i := lo; i < hi; i++]. *)
Definition range (lo hi : Z) : list Z :=
  map (fun k => (lo + Z.of_nat k)%Z) (seq 0 (Z.to_nat (hi - lo))).

(** [for i := lo; i < hi; i++ { s = body i s }] *)
Definition for_loop {S} (lo hi : Z) (body : Z -> S -> S) (s : S) : S :=
  fold_left (fun s i => body i s) (range lo hi) s.

(** [for _, x := range l { s = body x s }] *)
Definition for_range {A S} (l : list A) (body : A -> S -> S) (s : S) : S :=
  fold_left (fun s x => body x s) l s.

(** [min] and [max] on [int], the helpers of the engine file. *)
Definition min (a b : Z) : Z := if (a <? b)%Z then a else b.
Definition max (a b : Z) : Z := if (a >? b)%Z then a else b.

(** A string built by [fmt.Sprintf] from a format with one [float64] verb is
    kept as the format and its argument; a literal string is itself. *)
Inductive message : Type :=
| Lit (s : string)
| Sprintf (format : string) (arg : float).

(* ===================================================================== *)
(** ** Data model ([ai_analysis_engine.go], lines 10-131)                 *)
(* ===================================================================== *)

(** The field [MACD] of [MACDValues] is named [MACD_] here, because
    [TechnicalIndicators] has a field [MACD] as well. *)
Record MACDValues : Type := {
  MACD_ : float;
  Signal : float;
  Histogram : float;
  Crossover : string
}.

Record StochasticValues : Type := {
  K : float;
  D : float;
  Oversold : bool;
  Overbought : bool
}.

Record BollingerValues : Type := {
  Upper : float;
  Middle : float;
  Lower : float;
  Width : float
}.

Record VolumeProfileData : Type := {
  POC : float;
  VAH : float;
  VAL : float;
  VolumeIncrease : bool;
  AccumulationDist : float
}.

Record TechnicalIndicators : Type := {
  Support : list float;
  Resistance : list float;
  Trend : string;
  TrendStrength : float;
  SMA20 : float;
  SMA50 : float;
  SMA200 : float;
  EMA9 : float;
  EMA21 : float;
  VWAP : float;
  RSI : float;
  RSIDivergence : bool;
  MACD : MACDValues;
  Stochastic : StochasticValues;
  BollingerBands : BollingerValues;
  ATR : float;
  VolumeProfile : VolumeProfileData;
  CandlePattern : string;
  ChartPattern : string;
  BullishScore : float;
  BearishScore : float
}.

Record FundamentalData : Type := {
  PE : float;
  PB : float;
  DebtToEquity : float;
  ROE : float;
  QuarterlyGrowth : float;
  IndustryPE : float;
  RelativeStrength : float;
  FundamentalScore : float
}.

Record SentimentData : Type := {
  DeliveryPercent : float;
  BulkDeals : Z;
  FIIActivity : string;
  OptionsPCR : float;
  OpenInterest : float;
  SentimentScore : float
}.

Record RiskRewardAnalysis : Type := {
  EntryPrice : float;
  StopLoss : float;
  Target1 : float;
  Target2 : float;
  Target3 : float;
  RiskAmount : float;
  RewardAmount : float;
  RiskRewardRatio : float;
  PositionSize : Z;
  MaxLoss : float;
  MaxProfit : float
}.

Record TradeSignal : Type := {
  Action : string;
  Strength : string;
  Timeframe : string;
  Strategy : string;
  Reasons : list message;
  Warnings : list message;
  ExpectedReturn : float;
  HoldingPeriod : string;
  Priority : Z
}.

(** The field [TradeSignal] of [MarketAnalysis] is named [TradeSignal_]
    here (the record type has that name); [TimeAnalyzed] is the clock
    reading passed in by the caller. *)
Record MarketAnalysis : Type := {
  Symbol : string;
  Technical : TechnicalIndicators;
  Fundamental : FundamentalData;
  Sentiment : SentimentData;
  RiskReward : RiskRewardAnalysis;
  TradeSignal_ : TradeSignal;
  Confidence : float;
  TimeAnalyzed : Z
}.

(** *** Go zero values ([T{}]) *)

Definition zeroMACDValues : MACDValues :=
  {| MACD_ := 0; Signal := 0; Histogram := 0; Crossover := "" |}.

Definition zeroStochasticValues : StochasticValues :=
  {| K := 0; D := 0; Oversold := false; Overbought := false |}.

Definition zeroBollingerValues : BollingerValues :=
  {| Upper := 0; Middle := 0; Lower := 0; Width := 0 |}.

Definition zeroVolumeProfileData : VolumeProfileData :=
  {| POC := 0; VAH := 0; VAL := 0; VolumeIncrease := false;
     AccumulationDist := 0 |}.

Definition zeroTechnicalIndicators : TechnicalIndicators :=
  {| Support := []; Resistance := []; Trend := ""; TrendStrength := 0;
     SMA20 := 0; SMA50 := 0; SMA200 := 0; EMA9 := 0; EMA21 := 0; VWAP := 0;
     RSI := 0; RSIDivergence := false; MACD := zeroMACDValues;
     Stochastic := zeroStochasticValues;
     BollingerBands := zeroBollingerValues; ATR := 0;
     VolumeProfile := zeroVolumeProfileData;
     CandlePattern := ""; ChartPattern := "";
     BullishScore := 0; BearishScore := 0 |}.

Definition zeroFundamentalData : FundamentalData :=
  {| PE := 0; PB := 0; DebtToEquity := 0; ROE := 0; QuarterlyGrowth := 0;
     IndustryPE := 0; RelativeStrength := 0; FundamentalScore := 0 |}.

Definition zeroSentimentData : SentimentData :=
  {| DeliveryPercent := 0; BulkDeals := 0; FIIActivity := "";
     OptionsPCR := 0; OpenInterest := 0; SentimentScore := 0 |}.

Definition zeroRiskRewardAnalysis : RiskRewardAnalysis :=
  {| EntryPrice := 0; StopLoss := 0; Target1 := 0; Target2 := 0;
     Target3 := 0; RiskAmount := 0; RewardAmount := 0; RiskRewardRatio := 0;
     PositionSize := 0; MaxLoss := 0; MaxProfit := 0 |}.

Definition zeroTradeSignal : TradeSignal :=
  {| Action := ""; Strength := ""; Timeframe := ""; Strategy := "";
     Reasons := []; Warnings := []; ExpectedReturn := 0;
     HoldingPeriod := ""; Priority := 0 |}.

(* ===================================================================== *)
(** ** Indicator library ([ai_analysis_engine.go], lines 189-434)         *)
(* ===================================================================== *)

Definition calculateSMA (prices : list float) (period : Z) : float :=
  if (len prices <? period)%Z then 0
  else
    let sum :=
      for_loop (len prices - period) (len prices)
        (fun i sum => sum + index prices i) 0 in
    sum / float64 period.

Definition calculateEMA (prices : list float) (period : Z) : float :=
  if (len prices <? period)%Z then 0
  else
    let multiplier := 2 / float64 (period + 1) in
    let ema := calculateSMA (slice prices 0 period) period in
    for_loop period (len prices)
      (fun i ema => (index prices i - ema) * multiplier + ema) ema.

Definition calculateRSI (prices : list float) (period : Z) : float :=
  if (len prices <? period + 1)%Z then 50
  else
    let '(gains, losses) :=
      for_loop (len prices - period) (len prices)
        (fun i '(gains, losses) =>
           let change := index prices i - index prices (i - 1) in
           if 0 <? change then (gains + change, losses)
           else (gains, losses + Abs change))
        (0, 0) in
    let avgGain := gains / float64 period in
    let avgLoss := losses / float64 period in
    if avgLoss =? 0 then 100
    else
      let rs := avgGain / avgLoss in
      100 - (100 / (1 + rs)).

Definition detectRSIDivergence (prices : list float) (rsi : float) : bool :=
  if (len prices <? 20)%Z then false
  else
    let recentPrices := slice prices (len prices - 20) (len prices) in
    let '(priceMin, priceMinIdx) :=
      for_loop 0 (len recentPrices)
        (fun i '(priceMin, priceMinIdx) =>
           let p := index recentPrices i in
           if p <? priceMin then (p, i) else (priceMin, priceMinIdx))
        (index recentPrices 0, 0%Z) in
    if (priceMinIdx >? 10)%Z && (rsi <? 40) then true else false.

Definition calculateMACD (prices : list float) : MACDValues :=
  if (len prices <? 26)%Z then zeroMACDValues
  else
    let ema12 := calculateEMA prices 12 in
    let ema26 := calculateEMA prices 26 in
    let macd := ema12 - ema26 in
    let signal := calculateEMA [macd] 9 in
    let histogram := macd - signal in
    let crossover :=
      if (0 <? histogram) && (signal * 0.01 <? histogram) then "bullish"
      else if (histogram <? 0) && (histogram <? signal * -0.01) then "bearish"
      else "none" in
    {| MACD_ := macd; Signal := signal; Histogram := histogram;
       Crossover := crossover |}.

Definition calculateStochastic (prices : list float) (period kSmooth dSmooth : Z)
  : StochasticValues :=
  if (len prices <? period)%Z then zeroStochasticValues
  else
    let recentPrices := slice prices (len prices - period) (len prices) in
    let '(lowest, highest) :=
      for_range recentPrices
        (fun p '(lowest, highest) =>
           let lowest := if p <? lowest then p else lowest in
           let highest := if highest <? p then p else highest in
           (lowest, highest))
        (index recentPrices 0, index recentPrices 0) in
    let current := index prices (len prices - 1) in
    let k := 100 * ((current - lowest) / (highest - lowest)) in
    let d := k in
    {| K := k; D := d; Oversold := k <? 20; Overbought := 80 <? k |}.

Definition calculateBollingerBands (prices : list float) (period : Z)
  (stdDev : float) : BollingerValues :=
  if (len prices <? period)%Z then zeroBollingerValues
  else
    let sma := calculateSMA prices period in
    let variance :=
      for_loop (len prices - period) (len prices)
        (fun i variance =>
           let diff := index prices i - sma in
           variance + diff * diff) 0 in
    let std := Sqrt (variance / float64 period) in
    {| Upper := sma + (std * stdDev);
       Middle := sma;
       Lower := sma - (std * stdDev);
       Width := (std * stdDev * 2) / sma * 100 |}.

Definition calculateATR (prices : list float) (period : Z) : float :=
  if (len prices <? period + 1)%Z then 0
  else
    let trValues :=
      for_loop (len prices - period) (len prices)
        (fun i trValues =>
           if (i =? 0)%Z then trValues
           else
             let high := index prices i in
             let low := index prices i * 0.98 in
             let prevClose := index prices (i - 1) in
             let tr :=
               Max (high - low)
                   (Max (Abs (high - prevClose)) (Abs (low - prevClose))) in
             (trValues ++ [tr])%list)
        [] in
    let sum := for_range trValues (fun tr sum => sum + tr) 0 in
    sum / float64 (len trValues).

Definition calculateVWAP (prices volumes : list float) : float :=
  if (len prices =? 0)%Z || (len volumes =? 0)%Z
     || negb (len prices =? len volumes)%Z then 0
  else
    let '(totalPV, totalVolume) :=
      for_loop 0 (len prices)
        (fun i '(totalPV, totalVolume) =>
           (totalPV + index prices i * index volumes i,
            totalVolume + index volumes i))
        (0, 0) in
    if totalVolume =? 0 then 0 else totalPV / totalVolume.

Definition findSupportResistance (prices : list float)
  : list float * list float :=
  if (len prices <? 20)%Z then ([], [])
  else
    let '(support, resistance) :=
      for_loop 10 (len prices - 10)
        (fun i '(support, resistance) =>
           let '(isSupport, isResistance) :=
             for_loop (i - 5) (i + 5 + 1)
               (fun j '(isSupport, isResistance) =>
                  let isSupport :=
                    if negb (j =? i)%Z && (index prices j <? index prices i)
                    then false else isSupport in
                  let isResistance :=
                    if negb (j =? i)%Z && (index prices i <? index prices j)
                    then false else isResistance in
                  (isSupport, isResistance))
               (true, true) in
           let support :=
             if isSupport && (len support <? 3)%Z
             then (support ++ [index prices i])%list else support in
           let resistance :=
             if isResistance && (len resistance <? 3)%Z
             then (resistance ++ [index prices i])%list else resistance in
           (support, resistance))
        ([], []) in
    (Float64s support, Float64s resistance).

(* ===================================================================== *)
(** ** Trend, patterns and volume profile (lines 436-610)                 *)
(* ===================================================================== *)

Definition determineTrend (prices : list float)
  (indicators : TechnicalIndicators) : string * float :=
  if (len prices <? 50)%Z then ("neutral", 0)
  else
    let current := index prices (len prices - 1) in
    let trendPoints := 0 in
    let trendPoints :=
      if (SMA20 indicators <? current)
         && (SMA50 indicators <? SMA20 indicators)
         && (SMA200 indicators <? SMA50 indicators)
      then trendPoints + 3
      else if (current <? SMA20 indicators)
              && (SMA20 indicators <? SMA50 indicators)
              && (SMA50 indicators <? SMA200 indicators)
      then trendPoints - 3
      else trendPoints in
    let recent20 :=
      calculateSMA (slice prices (len prices - 20) (len prices)) 20 in
    let older20 :=
      calculateSMA (slice prices (len prices - 40) (len prices - 20)) 20 in
    let trendPoints :=
      if older20 <? recent20 then trendPoints + 2 else trendPoints - 2 in
    let trendPoints :=
      if 0 <? Histogram (MACD indicators)
      then trendPoints + 1 else trendPoints - 1 in
    let strength := Abs trendPoints / 6 * 100 in
    let trend :=
      if 2 <? trendPoints then "bullish"
      else if trendPoints <? -2 then "bearish"
      else "neutral" in
    (trend, strength).

Definition detectCandlePattern (prices : list float) : string :=
  if (len prices <? 5)%Z then "none"
  else
    let recent := slice prices (len prices - 3) (len prices) in
    let r0 := index recent 0 in
    let r1 := index recent 1 in
    let r2 := index recent 2 in
    if (r0 <? r1) && (r1 <? r2) && (r1 * 1.01 <? r2) then "bullish_engulfing"
    else if (r1 <? r0) && (r2 <? r1) && (r2 <? r1 * 0.99)
    then "bearish_engulfing"
    else if Abs (r2 - r1) <? r1 * 0.001 then "doji"
    else "none".

(** The values taken by [i] in [for i := 0; i < hi; i += step]. *)
Definition range_step (hi step : Z) : list Z :=
  map (fun k => (step * Z.of_nat k)%Z)
      (seq 0 (Z.to_nat ((hi + step - 1) / step))).

Definition detectChartPattern (prices : list float) : string :=
  if (len prices <? 50)%Z then "none"
  else
    let recent50 := slice prices (len prices - 50) (len prices) in
    let '(highs, lows) :=
      for_range (range_step (len recent50) 5)
        (fun i '(highs, lows) =>
           let segment := slice recent50 i (min (i + 5) (len recent50)) in
           let '(high, low) :=
             for_range segment
               (fun p '(high, low) =>
                  let high := if high <? p then p else high in
                  let low := if p <? low then p else low in
                  (high, low))
               (index segment 0, index segment 0) in
           ((highs ++ [high])%list, (lows ++ [low])%list))
        ([], []) in
    if (len highs >=? 3)%Z && (len lows >=? 3)%Z then
      let highsDescending :=
        index highs (len highs - 1) <? index highs 0 in
      let lowsAscending :=
        index lows 0 <? index lows (len lows - 1) in
      if highsDescending && lowsAscending then "triangle"
      else if negb highsDescending && negb lowsAscending then "channel"
      else "none"
    else "none".

(** [map[float64]float64], as the list of its entries in the order the keys
    were first stored.  Keys are compared with [==], so a NaN key never
    matches an existing entry. *)
Definition float_map : Type := list (float * float).

(** [m[k] += v] *)
Fixpoint map_add (m : float_map) (k v : float) : float_map :=
  match m with
  | [] => [(k, 0 + v)]
  | (k', v') :: m' =>
      if k' =? k then (k', v' + v) :: m' else (k', v') :: map_add m' k v
  end.

(** Go leaves the order of [range] over a map unspecified; the entries are
    visited here in the order of first insertion.  The order matters for the
    point of control only when two price levels tie on volume. *)
Definition calculateVolumeProfile (prices volumes : list float)
  : VolumeProfileData :=
  if (len prices =? 0)%Z || (len volumes =? 0)%Z then zeroVolumeProfileData
  else
    let priceVolume :=
      for_loop 0 (min (len prices) (len volumes))
        (fun i priceVolume =>
           let roundedPrice := Round (index prices i * 2) / 2 in
           map_add priceVolume roundedPrice (index volumes i))
        [] in
    let '(poc, maxVolume) :=
      for_range priceVolume
        (fun '(price, vol) '(poc, maxVolume) =>
           if maxVolume <? vol then (price, vol) else (poc, maxVolume))
        (0, 0) in
    let totalVolume := for_range volumes (fun vol total => total + vol) 0 in
    let vah := poc * 1.01 in
    let val := poc * 0.99 in
    let recentVolume :=
      calculateSMA (slice volumes (max 0 (len volumes - 10)) (len volumes))
                   (min 10 (len volumes)) in
    let olderVolume :=
      calculateSMA (slice volumes (max 0 (len volumes - 20))
                                  (max 0 (len volumes - 10)))
                   (min 10 (len volumes)) in
    let volumeIncrease := olderVolume * 1.2 <? recentVolume in
    let ad :=
      if (len prices >? 1)%Z && (len volumes >? 0)%Z then
        let moneyFlow :=
          ((index prices (len prices - 1) - index prices (len prices - 2))
           / index prices (len prices - 2))
          * index volumes (len volumes - 1) in
        moneyFlow / totalVolume * 100
      else 0 in
    {| POC := poc; VAH := vah; VAL := val;
       VolumeIncrease := volumeIncrease; AccumulationDist := ad |}.

(* ===================================================================== *)
(** ** Composite scores (lines 612-758)                                   *)
(* ===================================================================== *)

Definition calculateBullishScore (indicators : TechnicalIndicators) : float :=
  let score := 0 in
  let factors := 0 in
  (* Trend (weight: 25%) *)
  let '(score, factors) :=
    if (Trend indicators =? "bullish")%string
    then (score + 25 * (TrendStrength indicators / 100), factors + 25)
    else (score, factors + 25) in
  (* RSI (weight: 15%) *)
  let '(score, factors) :=
    if (30 <? RSI indicators) && (RSI indicators <? 70)
    then (score + 15 * ((RSI indicators - 30) / 40), factors + 15)
    else if RSI indicators <=? 30 then (score + 15, factors + 15)
    else (score, factors + 15) in
  (* MACD (weight: 20%) *)
  let '(score, factors) :=
    if (Crossover (MACD indicators) =? "bullish")%string
    then (score + 20, factors + 20)
    else if 0 <? Histogram (MACD indicators) then (score + 10, factors + 20)
    else (score, factors + 20) in
  (* Stochastic (weight: 10%) *)
  let '(score, factors) :=
    if Oversold (Stochastic indicators) then (score + 10, factors + 10)
    else if (20 <? K (Stochastic indicators))
            && (K (Stochastic indicators) <? 80)
    then (score + 5, factors + 10)
    else (score, factors + 10) in
  (* Volume (weight: 15%) *)
  let '(score, factors) :=
    if VolumeIncrease (VolumeProfile indicators)
       && (0 <? AccumulationDist (VolumeProfile indicators))
    then (score + 15, factors + 15)
    else if 0 <? AccumulationDist (VolumeProfile indicators)
    then (score + 7.5, factors + 15)
    else (score, factors + 15) in
  (* Patterns (weight: 15%) *)
  let '(score, factors) :=
    if (CandlePattern indicators =? "bullish_engulfing")%string
    then (score + 15, factors + 15)
    else if (ChartPattern indicators =? "triangle")%string
            || (ChartPattern indicators =? "channel")%string
    then (score + 7.5, factors + 15)
    else (score, factors + 15) in
  if factors =? 0 then 50 else (score / factors) * 100.

Definition calculateBearishScore (indicators : TechnicalIndicators) : float :=
  let score := 0 in
  let factors := 0 in
  (* Trend (weight: 25%) *)
  let '(score, factors) :=
    if (Trend indicators =? "bearish")%string
    then (score + 25 * (TrendStrength indicators / 100), factors + 25)
    else (score, factors + 25) in
  (* RSI (weight: 15%) *)
  let '(score, factors) :=
    if 70 <? RSI indicators then (score + 15, factors + 15)
    else if (50 <? RSI indicators) && (RSI indicators <=? 70)
    then (score + 15 * ((70 - RSI indicators) / 20), factors + 15)
    else (score, factors + 15) in
  (* MACD (weight: 20%) *)
  let '(score, factors) :=
    if (Crossover (MACD indicators) =? "bearish")%string
    then (score + 20, factors + 20)
    else if Histogram (MACD indicators) <? 0 then (score + 10, factors + 20)
    else (score, factors + 20) in
  (* Stochastic (weight: 10%) *)
  let '(score, factors) :=
    if Overbought (Stochastic indicators) then (score + 10, factors + 10)
    else if 50 <? K (Stochastic indicators) then (score + 5, factors + 10)
    else (score, factors + 10) in
  (* Volume (weight: 15%) *)
  let '(score, factors) :=
    if VolumeIncrease (VolumeProfile indicators)
       && (AccumulationDist (VolumeProfile indicators) <? 0)
    then (score + 15, factors + 15)
    else if AccumulationDist (VolumeProfile indicators) <? 0
    then (score + 7.5, factors + 15)
    else (score, factors + 15) in
  (* Patterns (weight: 15%) *)
  let '(score, factors) :=
    if (CandlePattern indicators =? "bearish_engulfing")%string
    then (score + 15, factors + 15)
    else if (CandlePattern indicators =? "doji")%string
            && (Trend indicators =? "bearish")%string
    then (score + 7.5, factors + 15)
    else (score, factors + 15) in
  if factors =? 0 then 50 else (score / factors) * 100.

(* ===================================================================== *)
(** ** [CalculateTechnicalIndicators] (lines 134-185)                     *)
(* ===================================================================== *)

(** Assignments to single fields of [indicators]. *)

Definition set_Trend (i : TechnicalIndicators) (t : string) (s : float)
  : TechnicalIndicators :=
  let 'Build_TechnicalIndicators sup res _ _ s20 s50 s200 e9 e21 vw rsi dv
        macd sto bb atr vp cp chp bu be := i in
  Build_TechnicalIndicators sup res t s s20 s50 s200 e9 e21 vw rsi dv
        macd sto bb atr vp cp chp bu be.

Definition set_VWAP (i : TechnicalIndicators) (v : float)
  : TechnicalIndicators :=
  let 'Build_TechnicalIndicators sup res t s s20 s50 s200 e9 e21 _ rsi dv
        macd sto bb atr vp cp chp bu be := i in
  Build_TechnicalIndicators sup res t s s20 s50 s200 e9 e21 v rsi dv
        macd sto bb atr vp cp chp bu be.

Definition set_VolumeProfile (i : TechnicalIndicators) (v : VolumeProfileData)
  : TechnicalIndicators :=
  let 'Build_TechnicalIndicators sup res t s s20 s50 s200 e9 e21 vw rsi dv
        macd sto bb atr _ cp chp bu be := i in
  Build_TechnicalIndicators sup res t s s20 s50 s200 e9 e21 vw rsi dv
        macd sto bb atr v cp chp bu be.

Definition set_CandlePattern (i : TechnicalIndicators) (v : string)
  : TechnicalIndicators :=
  let 'Build_TechnicalIndicators sup res t s s20 s50 s200 e9 e21 vw rsi dv
        macd sto bb atr vp _ chp bu be := i in
  Build_TechnicalIndicators sup res t s s20 s50 s200 e9 e21 vw rsi dv
        macd sto bb atr vp v chp bu be.

Definition set_ChartPattern (i : TechnicalIndicators) (v : string)
  : TechnicalIndicators :=
  let 'Build_TechnicalIndicators sup res t s s20 s50 s200 e9 e21 vw rsi dv
        macd sto bb atr vp cp _ bu be := i in
  Build_TechnicalIndicators sup res t s s20 s50 s200 e9 e21 vw rsi dv
        macd sto bb atr vp cp v bu be.

Definition set_BullishScore (i : TechnicalIndicators) (v : float)
  : TechnicalIndicators :=
  let 'Build_TechnicalIndicators sup res t s s20 s50 s200 e9 e21 vw rsi dv
        macd sto bb atr vp cp chp _ be := i in
  Build_TechnicalIndicators sup res t s s20 s50 s200 e9 e21 vw rsi dv
        macd sto bb atr vp cp chp v be.

Definition set_BearishScore (i : TechnicalIndicators) (v : float)
  : TechnicalIndicators :=
  let 'Build_TechnicalIndicators sup res t s s20 s50 s200 e9 e21 vw rsi dv
        macd sto bb atr vp cp chp bu _ := i in
  Build_TechnicalIndicators sup res t s s20 s50 s200 e9 e21 vw rsi dv
        macd sto bb atr vp cp chp bu v.

Definition CalculateTechnicalIndicators (prices volumes : list float)
  : TechnicalIndicators :=
  if (len prices <? 200)%Z then zeroTechnicalIndicators
  else
    let rsi := calculateRSI prices 14 in
    let '(support, resistance) := findSupportResistance prices in
    (* the fields assigned by lines 142-168; the others still zero *)
    let indicators :=
      {| Support := support; Resistance := resistance;
         Trend := ""; TrendStrength := 0;
         SMA20 := calculateSMA prices 20;
         SMA50 := calculateSMA prices 50;
         SMA200 := calculateSMA prices 200;
         EMA9 := calculateEMA prices 9;
         EMA21 := calculateEMA prices 21;
         VWAP := calculateVWAP prices volumes;
         RSI := rsi;
         RSIDivergence := detectRSIDivergence prices rsi;
         MACD := calculateMACD prices;
         Stochastic := calculateStochastic prices 14 3 3;
         BollingerBands := calculateBollingerBands prices 20 2;
         ATR := calculateATR prices 14;
         VolumeProfile := zeroVolumeProfileData;
         CandlePattern := ""; ChartPattern := "";
         BullishScore := 0; BearishScore := 0 |} in
    let '(trend, strength) := determineTrend prices indicators in
    let indicators := set_Trend indicators trend strength in
    let indicators := set_CandlePattern indicators (detectCandlePattern prices) in
    let indicators := set_ChartPattern indicators (detectChartPattern prices) in
    let indicators :=
      set_VolumeProfile indicators (calculateVolumeProfile prices volumes) in
    let indicators :=
      set_BullishScore indicators (calculateBullishScore indicators) in
    let indicators :=
      set_BearishScore indicators (calculateBearishScore indicators) in
    indicators.

(* ===================================================================== *)
(** ** Signal generator (lines 775-942)                                   *)
(* ===================================================================== *)

Definition determineTimeframe (analysis : MarketAnalysis) : string :=
  if ATR (Technical analysis) <? EntryPrice (RiskReward analysis) * 0.01
  then "intraday"
  else if 70 <? TrendStrength (Technical analysis) then "positional"
  else "swing".

Definition determineStrategy (analysis : MarketAnalysis) (signal : TradeSignal)
  : string :=
  if negb (Action signal =? "BUY")%string then "Wait for better entry"
  else
    let strategies : list string := [] in
    let strategies :=
      if RSI (Technical analysis) <? 30
      then (strategies ++ ["Oversold bounce play"])%list else strategies in
    let strategies :=
      if (Crossover (MACD (Technical analysis)) =? "bullish")%string
      then (strategies ++ ["MACD momentum trade"])%list else strategies in
    let strategies :=
      if (Trend (Technical analysis) =? "bullish")%string
         && (60 <? TrendStrength (Technical analysis))
      then (strategies ++ ["Trend following"])%list else strategies in
    let strategies :=
      if (len (Support (Technical analysis)) >? 0)%Z then
        let currentPrice := EntryPrice (RiskReward analysis) in
        if existsb (fun support =>
                      Abs (currentPrice - support) / support <? 0.02)
                   (Support (Technical analysis))
        then (strategies ++ ["Support level bounce"])%list else strategies
      else strategies in
    let strategies :=
      if (ChartPattern (Technical analysis) =? "triangle")%string
      then (strategies ++ ["Triangle breakout"])%list else strategies in
    match strategies with
    | [] => "General momentum trade"
    | primary :: _ => primary
    end.

Definition estimateHoldingPeriod (timeframe : string) : string :=
  if (timeframe =? "intraday")%string then "1-2 days"
  else if (timeframe =? "swing")%string then "3-10 days"
  else if (timeframe =? "positional")%string then "2-4 weeks"
  else "5-7 days".

Definition calculatePriority (signal : TradeSignal) (analysis : MarketAnalysis)
  : Z :=
  let priority := 5%Z in
  let priority :=
    if (Strength signal =? "strong")%string then (priority + 2)%Z
    else if (Strength signal =? "moderate")%string then (priority + 1)%Z
    else priority in
  let priority :=
    if 80 <? Confidence analysis then (priority + 2)%Z
    else if 70 <? Confidence analysis then (priority + 1)%Z
    else priority in
  let priority :=
    if 3 <? RiskRewardRatio (RiskReward analysis) then (priority + 1)%Z
    else priority in
  let priority :=
    if (len (Warnings signal) >? 2)%Z then (priority - 2)%Z
    else if (len (Warnings signal) >? 0)%Z then (priority - 1)%Z
    else priority in
  if (priority >? 10)%Z then 10%Z
  else if (priority <? 1)%Z then 1%Z
  else priority.

Definition GenerateTradeSignal (analysis : MarketAnalysis)
  (riskTolerance : string) : TradeSignal :=
  let bullishScore := BullishScore (Technical analysis) in
  let bearishScore := BearishScore (Technical analysis) in
  let confidence := Confidence analysis in
  (* the fields left by the decision chain of lines 790-820 *)
  let '(action, strength, timeframe, reasons, warnings) :=
    if (70 <? bullishScore) && (75 <? confidence) then
      let reasons := [Sprintf "Strong bullish score: %.1f%%" bullishScore] in
      let reasons :=
        if RSI (Technical analysis) <? 40
        then (reasons ++ [Lit "RSI oversold - good entry point"])%list
        else reasons in
      let reasons :=
        if (Crossover (MACD (Technical analysis)) =? "bullish")%string
        then (reasons ++ [Lit "MACD bullish crossover"])%list
        else reasons in
      let reasons :=
        if (Trend (Technical analysis) =? "bullish")%string
        then (reasons ++ [Sprintf "Bullish trend with %.1f%% strength"
                            (TrendStrength (Technical analysis))])%list
        else reasons in
      ("BUY", "strong", determineTimeframe analysis, reasons, [])
    else if (60 <? bullishScore) && (65 <? confidence) then
      ("BUY", "moderate", determineTimeframe analysis,
       [Sprintf "Moderate bullish score: %.1f%%" bullishScore], [])
    else if (70 <? bearishScore) && (75 <? confidence) then
      ("SELL", "strong", "",
       [Sprintf "Strong bearish score: %.1f%%" bearishScore],
       if 70 <? RSI (Technical analysis)
       then [Lit "RSI overbought - potential reversal"] else [])
    else ("HOLD", "weak", "", [], []) in
  let warnings :=
    if 5 <? Width (BollingerBands (Technical analysis))
    then (warnings ++ [Lit "High volatility detected"])%list
    else warnings in
  let warnings :=
    if RiskRewardRatio (RiskReward analysis) <? 2
    then (warnings ++ [Lit "Risk-reward ratio below optimal (< 1:2)"])%list
    else warnings in
  let signal :=
    {| Action := action; Strength := strength; Timeframe := timeframe;
       Strategy := ""; Reasons := reasons; Warnings := warnings;
       ExpectedReturn := 0; HoldingPeriod := ""; Priority := 0 |} in
  let strategy := determineStrategy analysis signal in
  let '(expectedReturn, holdingPeriod) :=
    if (action =? "BUY")%string then
      (((Target1 (RiskReward analysis) - EntryPrice (RiskReward analysis))
        / EntryPrice (RiskReward analysis)) * 100,
       estimateHoldingPeriod timeframe)
    else (0, "") in
  let signal :=
    {| Action := action; Strength := strength; Timeframe := timeframe;
       Strategy := strategy; Reasons := reasons; Warnings := warnings;
       ExpectedReturn := expectedReturn; HoldingPeriod := holdingPeriod;
       Priority := 0 |} in
  {| Action := action; Strength := strength; Timeframe := timeframe;
     Strategy := strategy; Reasons := reasons; Warnings := warnings;
     ExpectedReturn := expectedReturn; HoldingPeriod := holdingPeriod;
     Priority := calculatePriority signal analysis |}.

(* ===================================================================== *)
(** ** Strategy tools: risk-reward, confidence, position sizing           *)
(* ===================================================================== *)

(** The market-data client's types that the tools read (the field [OHLC] of
    a quote is named [OHLC_]). *)
Module kiteconnect.

Record OHLC : Type := {
  Open : float;
  High : float;
  Low : float;
  Close : float
}.

Record Quote : Type := {
  InstrumentToken : Z;
  LastPrice : float;
  AveragePrice : float;
  Volume : Z;
  NetChange : float;
  OI : float;
  LowerCircuitLimit : float;
  UpperCircuitLimit : float;
  OHLC_ : OHLC
}.

(** One candle of [GetHistoricalData]; only its fields [Close] and [Volume]
    are read (named [CandleClose] and [CandleVolume] here). *)
Record HistoricalData : Type := {
  CandleClose : float;
  CandleVolume : Z
}.

End kiteconnect.

(** The quote as the handler hands it to the analysis: the fields of the
    anonymous struct that the handler fills in (the others stay zero and are
    not read). *)
Record QuoteData : Type := {
  InstrumentToken : Z;
  LastPrice : float;
  AveragePrice : float;
  Volume : Z;
  NetChange : float;
  OI : float;
  LowerCircuitLimit : float;
  UpperCircuitLimit : float;
  Tradingsymbol : string;
  High : float;
  Low : float;
  Open : float;
  VolumeTraded : Z
}.

Definition getDefaultRiskPercent (riskTolerance : string) : float :=
  if (riskTolerance =? "conservative")%string then 1
  else if (riskTolerance =? "moderate")%string then 2
  else if (riskTolerance =? "aggressive")%string then 3
  else if (riskTolerance =? "poverty-escape")%string then 4
  else 2.

Definition calculateRiskReward (currentPrice : float)
  (technical : TechnicalIndicators) (capital maxRiskPercent : float)
  : RiskRewardAnalysis :=
  (* stop-loss from the support levels and the ATR *)
  let stopLoss :=
    if (len (Support technical) >? 0)%Z
    then index (Support technical) (len (Support technical) - 1) * 0.99
    else currentPrice * 0.98 in
  let stopLoss :=
    if 0 <? ATR technical then
      let atrStop := currentPrice - (ATR technical * 1.5) in
      if stopLoss <? atrStop then atrStop else stopLoss
    else stopLoss in
  (* targets from the risk and the resistance levels *)
  let riskAmount := currentPrice - stopLoss in
  let target1 := currentPrice + (riskAmount * 2) in
  let target2 := currentPrice + (riskAmount * 3) in
  let target3 := currentPrice + (riskAmount * 5) in
  let '(target1, target2, target3) :=
    if (len (Resistance technical) >? 0)%Z then
      for_loop 0 (len (Resistance technical))
        (fun i '(target1, target2, target3) =>
           let resistance := index (Resistance technical) i in
           if (i =? 0)%Z && (resistance <? target1)
           then (resistance * 0.995, target2, target3)
           else if (i =? 1)%Z && (resistance <? target2)
           then (target1, resistance * 0.995, target3)
           else if (i =? 2)%Z && (resistance <? target3)
           then (target1, target2, resistance * 0.995)
           else (target1, target2, target3))
        (target1, target2, target3)
    else (target1, target2, target3) in
  (* position size *)
  let maxLossAmount := capital * (maxRiskPercent / 100) in
  let riskPerShare := currentPrice - stopLoss in
  let positionSize :=
    if 0 <? riskPerShare then int_of_float (maxLossAmount / riskPerShare)
    else 0%Z in
  (* risk and reward amounts *)
  let rewardAmount := target1 - currentPrice in
  let riskRewardRatio :=
    if 0 <? riskPerShare then rewardAmount / riskPerShare else 0 in
  {| EntryPrice := currentPrice;
     StopLoss := stopLoss;
     Target1 := target1; Target2 := target2; Target3 := target3;
     RiskAmount := riskPerShare;
     RewardAmount := rewardAmount;
     RiskRewardRatio := riskRewardRatio;
     PositionSize := positionSize;
     MaxLoss := riskPerShare * float64 positionSize;
     MaxProfit := (target3 - currentPrice) * float64 positionSize |}.

Definition calculateConfidence (analysis : MarketAnalysis) : float :=
  let confidence := 50 in
  let confidence :=
    if 70 <? BullishScore (Technical analysis) then confidence + 15
    else if 60 <? BullishScore (Technical analysis) then confidence + 10
    else confidence in
  let confidence :=
    if (Trend (Technical analysis) =? "bullish")%string
       && (60 <? TrendStrength (Technical analysis))
    then confidence + 10 else confidence in
  let confidence :=
    if 3 <? RiskRewardRatio (RiskReward analysis) then confidence + 10
    else if 2 <? RiskRewardRatio (RiskReward analysis) then confidence + 5
    else confidence in
  let confidence :=
    if 70 <? FundamentalScore (Fundamental analysis) then confidence + 10
    else confidence in
  let confidence :=
    if 70 <? SentimentScore (Sentiment analysis) then confidence + 5
    else confidence in
  if 100 <? confidence then 100 else confidence.

Definition performComprehensiveAnalysis (quoteData : QuoteData)
  (historicalData : list kiteconnect.HistoricalData)
  (timeframe riskTolerance : string) (capital maxRiskPercent : float)
  (now : Z) : MarketAnalysis :=
  (* price and volume series of the candles *)
  let prices := map kiteconnect.CandleClose historicalData in
  let volumes :=
    map (fun candle => float64 (kiteconnect.CandleVolume candle))
        historicalData in
  let technical :=
    if (len prices >? 0)%Z then CalculateTechnicalIndicators prices volumes
    else zeroTechnicalIndicators in
  let technical := set_VWAP technical (AveragePrice quoteData) in
  let fundamental :=
    {| PE := 20.5; PB := 3.2; DebtToEquity := 0.5; ROE := 15.5;
       QuarterlyGrowth := 8.5; IndustryPE := 22; RelativeStrength := 65;
       FundamentalScore := 70 |} in
  let sentiment :=
    {| DeliveryPercent := 45.5; BulkDeals := 0; FIIActivity := "neutral";
       OptionsPCR := 0.9; OpenInterest := OI quoteData;
       SentimentScore := 60 |} in
  let riskReward :=
    calculateRiskReward (LastPrice quoteData) technical capital
                        maxRiskPercent in
  (* the signal is generated before the confidence is assigned *)
  let analysis :=
    {| Symbol := Tradingsymbol quoteData; Technical := technical;
       Fundamental := fundamental; Sentiment := sentiment;
       RiskReward := riskReward; TradeSignal_ := zeroTradeSignal;
       Confidence := 0; TimeAnalyzed := now |} in
  let signal := GenerateTradeSignal analysis riskTolerance in
  let analysis :=
    {| Symbol := Tradingsymbol quoteData; Technical := technical;
       Fundamental := fundamental; Sentiment := sentiment;
       RiskReward := riskReward; TradeSignal_ := signal;
       Confidence := 0; TimeAnalyzed := now |} in
  {| Symbol := Tradingsymbol quoteData; Technical := technical;
     Fundamental := fundamental; Sentiment := sentiment;
     RiskReward := riskReward; TradeSignal_ := signal;
     Confidence := calculateConfidence analysis; TimeAnalyzed := now |}.

(** The numbers behind the response of [calculateOptimalPosition]; the
    source renders them (and a recommendation sentence) as strings of a
    map. *)
Record PositionData : Type := {
  recommended_position_size : Z;
  investment_amount : float;
  risk_amount : float;
  risk_percentage : float;
  target_1 : float;
  target_2 : float;
  target_3 : float;
  profit_1 : float;
  profit_2 : float;
  profit_3 : float;
  kelly_criterion_suggestion : float
}.

Definition calculateOptimalPosition (capital entryPrice stopLoss : float)
  (strategy : string) (confidence : float) (povertyEscapeMode : bool)
  : PositionData :=
  let baseRisk :=
    if (strategy =? "scalping")%string then 0.5
    else if (strategy =? "intraday")%string then 1
    else if (strategy =? "swing")%string then 2
    else if (strategy =? "positional")%string then 3
    else 2 in
  let baseRisk :=
    if povertyEscapeMode then
      let baseRisk :=
        if capital <? 50000 then baseRisk * 2
        else if capital <? 100000 then baseRisk * 1.5
        else baseRisk in
      if 80 <? confidence then baseRisk * 1.2
      else if confidence <? 60 then baseRisk * 0.8
      else baseRisk
    else baseRisk in
  let baseRisk := if 5 <? baseRisk then 5 else baseRisk in
  (* position size *)
  let riskAmount := capital * (baseRisk / 100) in
  let riskPerShare := Abs (entryPrice - stopLoss) in
  let positionSize :=
    if 0 <? riskPerShare then int_of_float (riskAmount / riskPerShare)
    else 0%Z in
  let investmentAmount := float64 positionSize * entryPrice in
  (* at most 33% of the capital in a single position *)
  let '(positionSize, investmentAmount, riskAmount) :=
    if capital * 0.33 <? investmentAmount then
      let positionSize := int_of_float ((capital * 0.33) / entryPrice) in
      (positionSize, float64 positionSize * entryPrice,
       float64 positionSize * riskPerShare)
    else (positionSize, investmentAmount, riskAmount) in
  let target1 := entryPrice + (riskPerShare * 2) in
  let target2 := entryPrice + (riskPerShare * 3) in
  let target3 := entryPrice + (riskPerShare * 5) in
  let profit1 := float64 positionSize * (target1 - entryPrice) in
  let profit2 := float64 positionSize * (target2 - entryPrice) in
  let profit3 := float64 positionSize * (target3 - entryPrice) in
  (* quarter Kelly *)
  let winRate := confidence / 100 in
  let avgWin := (target2 - entryPrice) / entryPrice in
  let avgLoss := (entryPrice - stopLoss) / entryPrice in
  let kellyPercent :=
    if 0 <? avgLoss then
      ((winRate * avgWin) - ((1 - winRate) * avgLoss)) / avgWin * 100 * 0.25
    else 0 in
  {| recommended_position_size := positionSize;
     investment_amount := investmentAmount;
     risk_amount := riskAmount;
     risk_percentage := baseRisk;
     target_1 := target1; target_2 := target2; target_3 := target3;
     profit_1 := profit1; profit_2 := profit2; profit_3 := profit3;
     kelly_criterion_suggestion := kellyPercent |}.

(* ===================================================================== *)
(** ** The [analyze_trade_opportunity] handler (lines 52-149)             *)
(* ===================================================================== *)

(** What [GetQuote(instrument)] and the lookup [quotes[instrument]] give. *)
Inductive QuoteLookup : Type :=
| GetQuoteFailed
| NoQuote
| QuoteFound (quote : kiteconnect.Quote).

(** The tool result: an error text, or the marshalled report, which renders
    the fields of the analysis. *)
Inductive CallToolResult : Type :=
| ToolResultError (text : string)
| ToolResultResponse (analysis : MarketAnalysis).

(** The body of the handler once the presence of [symbol] and [capital] has
    been checked and the arguments have been read: the function passed to
    [WithSession].  The replies of the market-data client are arguments. *)
Definition analyzeTradeOpportunity (symbol exchange timeframe
  riskTolerance : string) (capital maxRiskPercent : float)
  (lookup : QuoteLookup) (historicalData : list kiteconnect.HistoricalData)
  (now : Z) : CallToolResult :=
  let instrument := exchange ++ ":" ++ symbol in
  match lookup with
  | GetQuoteFailed =>
      ToolResultError ("Failed to get quote for " ++ instrument)
  | NoQuote => ToolResultError ("No data available for " ++ instrument)
  | QuoteFound quote =>
      let quoteData :=
        {| InstrumentToken := kiteconnect.InstrumentToken quote;
           LastPrice := kiteconnect.LastPrice quote;
           AveragePrice := kiteconnect.AveragePrice quote;
           Volume := kiteconnect.Volume quote;
           NetChange := kiteconnect.NetChange quote;
           OI := kiteconnect.OI quote;
           LowerCircuitLimit := kiteconnect.LowerCircuitLimit quote;
           UpperCircuitLimit := kiteconnect.UpperCircuitLimit quote;
           Tradingsymbol := symbol;
           High := kiteconnect.High (kiteconnect.OHLC_ quote);
           Low := kiteconnect.Low (kiteconnect.OHLC_ quote);
           Open := kiteconnect.Open (kiteconnect.OHLC_ quote);
           VolumeTraded := kiteconnect.Volume quote |} in
      ToolResultResponse
        (performComprehensiveAnalysis quoteData historicalData timeframe
           riskTolerance capital maxRiskPercent now)
  end.

From Stdlib Require Import DecimalString.

(* ===================================================================== *)
(** ** Strategy tools: recommendation texts                               *)
(* ===================================================================== *)

(** The end of line, written [\n] in the source. *)
Definition newline : string := String (Ascii.ascii_of_nat 10) EmptyString.

(** An argument of [fmt.Sprintf]: [ArgUpper s] is [strings.ToUpper(s)], and
    [ArgMessage m] a string that an earlier [fmt.Sprintf] built. *)
Inductive fmt_arg : Type :=
| ArgInt (n : Z)
| ArgFloat (x : float)
| ArgString (s : string)
| ArgUpper (s : string)
| ArgMessage (m : message).

(** A piece of text: a literal, or the result of [fmt.Sprintf], kept as the
    format and its arguments. *)
Inductive formatted : Type :=
| Text (s : string)
| Format (format : string) (args : list fmt_arg).

(** [generateRecommendation] (lines 752-784): the pieces written to the
    string builder, in order; the returned string is their concatenation. *)
Definition generateRecommendation (analysis : MarketAnalysis)
  : list formatted :=
  if negb (Action (TradeSignal_ analysis) =? "BUY")%string then
    [Text "Wait for better entry opportunity. Current setup does not meet minimum criteria."]
  else
    let riskReward := RiskReward analysis in
    let rec :=
      [Format ("ðŸ“ˆ %s SIGNAL - %s" ++ newline ++ newline)
         [ArgUpper (Strength (TradeSignal_ analysis));
          ArgString (Symbol analysis)];
       Format ("Strategy: %s" ++ newline)
         [ArgString (Strategy (TradeSignal_ analysis))];
       Format ("Confidence: %.1f%%" ++ newline)
         [ArgFloat (Confidence analysis)];
       Format ("Entry: â‚¹%.2f" ++ newline)
         [ArgFloat (EntryPrice riskReward)];
       Format ("Stop-Loss: â‚¹%.2f (%.1f%%)" ++ newline)
         [ArgFloat (StopLoss riskReward);
          ArgFloat (Abs (StopLoss riskReward - EntryPrice riskReward)
                    / EntryPrice riskReward * 100)];
       Format ("Target 1: â‚¹%.2f (+%.1f%%)" ++ newline)
         [ArgFloat (Target1 riskReward);
          ArgFloat ((Target1 riskReward - EntryPrice riskReward)
                    / EntryPrice riskReward * 100)];
       Format ("Position Size: %d shares" ++ newline)
         [ArgInt (PositionSize riskReward)];
       Format ("Risk-Reward: 1:%.1f" ++ newline ++ newline)
         [ArgFloat (RiskRewardRatio riskReward)];
       Text ("âœ… Entry Conditions Met:" ++ newline)] in
    let rec :=
      for_range (Reasons (TradeSignal_ analysis))
        (fun reason rec =>
           (rec ++ [Format ("â€¢ %s" ++ newline) [ArgMessage reason]])%list)
        rec in
    if (len (Warnings (TradeSignal_ analysis)) >? 0)%Z then
      let rec :=
        (rec ++ [Text (newline ++ "âš ï¸ Risk Factors:" ++ newline)])%list in
      for_range (Warnings (TradeSignal_ analysis))
        (fun warning rec =>
           (rec ++ [Format ("â€¢ %s" ++ newline) [ArgMessage warning]])%list)
        rec
    else rec.

(** [generatePositionRecommendation] (lines 1011-1021).  The first format
    has the two verbs [%d] and [%%] before its text [.1f], so that its
    second argument is left over. *)
Definition generatePositionRecommendation (positionSize : Z)
  (riskPercent : float) (povertyEscapeMode : bool) : formatted :=
  let conservative :=
    Format "CONSERVATIVE POSITION: %d shares. Low risk approach with %.1f%% capital at risk."
      [ArgInt positionSize; ArgFloat riskPercent] in
  if povertyEscapeMode then
    if 4 <=? riskPercent then
      Format "AGGRESSIVE POSITION: %d shares. This is a high-conviction trade with %% .1f%% capital at risk. Only proceed if analysis strongly supports entry."
        [ArgInt positionSize; ArgFloat riskPercent]
    else if 2 <=? riskPercent then
      Format "MODERATE POSITION: %d shares. Balanced risk-reward suitable for wealth building with %.1f%% capital at risk."
        [ArgInt positionSize; ArgFloat riskPercent]
    else conservative
  else conservative.

(* ===================================================================== *)
(** ** The [get_wealth_builder_signals] scan (lines 178-253, 786-900)     *)
(* ===================================================================== *)

Definition getStockListForScan (scanType : string) : list string :=
  if (scanType =? "momentum")%string then
    ["NSE:RELIANCE"; "NSE:TCS"; "NSE:INFY"; "NSE:HDFC"; "NSE:ICICIBANK"]
  else if (scanType =? "breakout")%string then
    ["NSE:ADANIENT"; "NSE:ADANIPORTS"; "NSE:TATAMOTORS"; "NSE:BHARTIARTL";
     "NSE:ITC"]
  else if (scanType =? "oversold_bounce")%string then
    ["NSE:WIPRO"; "NSE:TECHM"; "NSE:MARUTI"; "NSE:BAJFINANCE"; "NSE:SBIN"]
  else if (scanType =? "high_volume")%string then
    ["NSE:TATASTEEL"; "NSE:HINDALCO"; "NSE:VEDL"; "NSE:JSWSTEEL";
     "NSE:COALINDIA"]
  else
    ["NSE:NIFTY50"; "NSE:BANKNIFTY"; "NSE:RELIANCE"; "NSE:TCS"; "NSE:HDFC"].

(** The anonymous struct that the scan hands to [generateQuickSignal]. *)
Module QuickSignal.

Record quoteData : Type := {
  Tradingsymbol : string;
  LastPrice : float;
  NetChange : float;
  Volume : Z;
  VolumeTraded : Z;
  High : float;
  UpperCircuitLimit : float
}.

End QuickSignal.

Definition generateQuickSignal (quoteData : QuickSignal.quoteData)
  (scanType : string) (minReturn : float) (riskTolerance : string)
  : TradeSignal :=
  let lastPrice := QuickSignal.LastPrice quoteData in
  let volume := QuickSignal.Volume quoteData in
  let volumeTraded := QuickSignal.VolumeTraded quoteData in
  let percentChange := QuickSignal.NetChange quoteData / lastPrice * 100 in
  (* the fields left by the switch of lines 861-891 *)
  let hold : string * string * float * Z * list message :=
    ("HOLD", "weak", 0, 1%Z, []) in
  let '(action, strength, expectedReturn, priority, reasons) :=
    if (scanType =? "momentum")%string then
      if (2 <? percentChange) && (volume >? volumeTraded)%Z then
        ("BUY", "moderate", 15, 7%Z,
         [Sprintf "Strong momentum: +%.2f%%" percentChange;
          Lit "Volume above average"])
      else hold
    else if (scanType =? "oversold_bounce")%string then
      if percentChange <? -3 then
        ("BUY", "moderate", 12, 6%Z,
         [Lit "Oversold condition for potential bounce"])
      else hold
    else if (scanType =? "breakout")%string then
      if (QuickSignal.High quoteData <? lastPrice)
         && (float64 volumeTraded * 1.5 <? float64 volume) then
        ("BUY", "strong", 20, 8%Z,
         [Lit "Breaking previous high"; Lit "High volume confirmation"])
      else hold
    else hold in
  let warnings : list message := [] in
  let warnings :=
    if QuickSignal.UpperCircuitLimit quoteData * 0.95 <? lastPrice
    then (warnings ++ [Lit "Near upper circuit"])%list else warnings in
  let warnings :=
    if float64 volume <? float64 volumeTraded * 0.5
    then (warnings ++ [Lit "Low volume - poor liquidity"])%list
    else warnings in
  {| Action := action; Strength := strength; Timeframe := "swing";
     Strategy := scanType ++ " strategy"; Reasons := reasons;
     Warnings := warnings; ExpectedReturn := expectedReturn;
     HoldingPeriod := "3-5 days"; Priority := priority |}.

(** [fmt.Sprintf("%d", n)] *)
Definition decimal (n : Z) : string := NilZero.string_of_int (Z.to_int n).

(** One element of an insertion sort sinking into the sorted elements before
    it, which are listed from the nearest one. *)
Fixpoint sink {A} (less : A -> A -> bool) (x : A) (before : list A)
  : list A :=
  match before with
  | [] => [x]
  | y :: before' =>
      if less x y then y :: sink less x before' else x :: before
  end.

(** [sort.Slice] on a slice of at most six elements, which every version of
    the library sorts by insertion. *)
Definition sortSlice {A} (less : A -> A -> bool) (l : list A) : list A :=
  rev (fold_left (fun before x => sink less x before) l []).

Section Scan.

Variable getQuote : string -> QuoteLookup.
Variables (scanType : string) (minReturn : float) (maxSignals : Z)
          (riskTolerance : string).

(** The loop over the stock list (lines 195-237): a symbol without a quote
    is skipped, and the loop ends once [maxSignals] signals are kept. *)
Fixpoint scanStocks (stockList : list string) (signals : list TradeSignal)
  : list TradeSignal :=
  match stockList with
  | [] => signals
  | symbol :: stockList =>
      match getQuote symbol with
      | GetQuoteFailed | NoQuote => scanStocks stockList signals
      | QuoteFound quote =>
          let quoteData :=
            {| QuickSignal.Tradingsymbol :=
                 decimal (kiteconnect.InstrumentToken quote);
               QuickSignal.LastPrice := kiteconnect.LastPrice quote;
               QuickSignal.NetChange := kiteconnect.NetChange quote;
               QuickSignal.Volume := kiteconnect.Volume quote;
               QuickSignal.VolumeTraded :=
                 Z.quot (kiteconnect.Volume quote) 2;
               QuickSignal.High :=
                 kiteconnect.High (kiteconnect.OHLC_ quote);
               QuickSignal.UpperCircuitLimit :=
                 kiteconnect.UpperCircuitLimit quote |} in
          let signal :=
            generateQuickSignal quoteData scanType minReturn riskTolerance in
          let signals :=
            if (minReturn <=? ExpectedReturn signal)
               && (Action signal =? "BUY")%string
            then (signals ++ [signal])%list else signals in
          if (len signals >=? maxSignals)%Z then signals
          else scanStocks stockList signals
      end
  end.

(** The signals of the response of [get_wealth_builder_signals]. *)
Definition getWealthBuilderSignals : list TradeSignal :=
  let stockList := getStockListForScan scanType in
  let signals := scanStocks stockList [] in
  sortSlice (fun a b => (Priority a >? Priority b)%Z) signals.

End Scan.

(* ===================================================================== *)
(** ** Wealth-builder tools ([wealth_builder.go], lines 526-1067)         *)
(* ===================================================================== *)

(** [math.Min]: [-Inf] wins, then NaN, then the sign of zeros, then [<]. *)
Definition Min (x y : float) : float :=
  if (x =? neg_infinity) || (y =? neg_infinity) then neg_infinity
  else if IsNaN x || IsNaN y then nan
  else if (x =? 0) && (x =? y) then (if Signbit x then x else y)
  else if x <? y then x else y.

(** *** Momentum scan *)

Module MomentumStock.

Record t : Type := {
  Symbol : string;
  Exchange : string;
  LastPrice : float;
  PriceChange : float;
  VolumeMultiple : float;
  Score : float;
  Signals : list message;
  EntryLevel : float;
  StopLoss : float;
  Target : float
}.

End MomentumStock.

(** The anonymous struct that the scan hands to [calculateMomentumScore]. *)
Module MomentumScan.

Record quoteData : Type := {
  Tradingsymbol : string;
  LastPrice : float;
  NetChange : float;
  Volume : Z;
  VolumeTraded : Z;
  High : float;
  Low : float;
  Open : float;
  AveragePrice : float
}.

End MomentumScan.

Definition getMomentumScanList (sector : string) : list string :=
  if (sector =? "banking")%string then
    ["NSE:HDFC"; "NSE:ICICIBANK"; "NSE:AXISBANK"; "NSE:KOTAKBANK"; "NSE:SBIN"]
  else if (sector =? "it")%string then
    ["NSE:TCS"; "NSE:INFY"; "NSE:WIPRO"; "NSE:HCLTECH"; "NSE:TECHM"]
  else if (sector =? "pharma")%string then
    ["NSE:SUNPHARMA"; "NSE:DRREDDY"; "NSE:CIPLA"; "NSE:DIVISLAB";
     "NSE:BIOCON"]
  else if (sector =? "metals")%string then
    ["NSE:TATASTEEL"; "NSE:JSWSTEEL"; "NSE:HINDALCO"; "NSE:VEDL";
     "NSE:NATIONALUM"]
  else
    ["NSE:RELIANCE"; "NSE:TCS"; "NSE:HDFC"; "NSE:INFY"; "NSE:ICICIBANK";
     "NSE:BHARTIARTL"; "NSE:ITC"; "NSE:KOTAKBANK"; "NSE:LT"; "NSE:AXISBANK"].

Definition calculateMomentumScore (quoteData : MomentumScan.quoteData)
  (minVolumeSurge minPriceChange : float) : MomentumStock.t :=
  let lastPrice := MomentumScan.LastPrice quoteData in
  let averagePrice := MomentumScan.AveragePrice quoteData in
  let priceChange := (MomentumScan.NetChange quoteData / lastPrice) * 100 in
  let volumeMultiple :=
    if (MomentumScan.VolumeTraded quoteData >? 0)%Z
    then float64 (MomentumScan.Volume quoteData)
         / float64 (MomentumScan.VolumeTraded quoteData)
    else 0 in
  let score := 50 in
  let signals : list message := [] in
  (* price momentum *)
  let '(score, signals) :=
    if minPriceChange <? priceChange
    then (score + priceChange * 2,
          (signals ++ [Sprintf "Price surge: +%.2f%%" priceChange])%list)
    else (score, signals) in
  (* volume momentum *)
  let '(score, signals) :=
    if minVolumeSurge / 100 <? volumeMultiple
    then (score + 20,
          (signals ++ [Sprintf "Volume surge: %.1fx average" volumeMultiple])%list)
    else (score, signals) in
  (* breaking high *)
  let '(score, signals) :=
    if MomentumScan.High quoteData * 0.98 <=? lastPrice
    then (score + 15, (signals ++ [Lit "Near day's high"])%list)
    else (score, signals) in
  (* strong buying pressure *)
  let '(score, signals) :=
    if (averagePrice <? lastPrice)
       && (MomentumScan.Open quoteData <? averagePrice)
    then (score + 10, (signals ++ [Lit "Strong buying pressure"])%list)
    else (score, signals) in
  {| MomentumStock.Symbol := MomentumScan.Tradingsymbol quoteData;
     MomentumStock.Exchange := "NSE";
     MomentumStock.LastPrice := lastPrice;
     MomentumStock.PriceChange := priceChange;
     MomentumStock.VolumeMultiple := volumeMultiple;
     MomentumStock.Score := Min score 100;
     MomentumStock.Signals := signals;
     MomentumStock.EntryLevel := lastPrice * 1.005;
     MomentumStock.StopLoss := MomentumScan.Low quoteData * 0.99;
     MomentumStock.Target := lastPrice * 1.05 |}.

(** *** Sector analysis *)

Module SectorAnalysis.

Record t : Type := {
  Sector : string;
  StrengthScore : float;
  PriceChange : float;
  VolumeChange : float;
  TopStocks : list string;
  Recommendation : string
}.

End SectorAnalysis.

(** The anonymous struct that the sector scan hands to [analyzeSector]. *)
Module SectorScan.

Record quoteData : Type := {
  LastPrice : float;
  NetChange : float;
  AveragePrice : float;
  Volume : Z;
  VolumeTraded : Z;
  High : float;
  Low : float;
  Open : float
}.

End SectorScan.

Definition calculateRelativeStrength (quoteData : SectorScan.quoteData)
  : float :=
  let rs := 50 in
  let changePercent :=
    (SectorScan.NetChange quoteData / SectorScan.LastPrice quoteData) * 100 in
  let rs :=
    if 2 <? changePercent then rs + 20
    else if 0 <? changePercent then rs + 10
    else if changePercent <? -2 then rs - 20
    else rs in
  let rs :=
    if SectorScan.AveragePrice quoteData <? SectorScan.LastPrice quoteData
    then rs + 15 else rs in
  let rs :=
    if (SectorScan.Volume quoteData >? SectorScan.VolumeTraded quoteData)%Z
    then rs + 15 else rs in
  Min (Max rs 0) 100.

Definition calculateSectorMomentum (quoteData : SectorScan.quoteData)
  : float :=
  let momentum := 50 in
  let priceChange :=
    (SectorScan.NetChange quoteData / SectorScan.LastPrice quoteData) * 100 in
  let momentum := momentum + priceChange * 5 in
  let momentum :=
    if SectorScan.High quoteData <=? SectorScan.LastPrice quoteData
    then momentum + 20 else momentum in
  Min (Max momentum 0) 100.

Definition estimateInstitutionalFlow (quoteData : SectorScan.quoteData)
  : float :=
  let flow := 50 in
  let flow :=
    if (float64 (SectorScan.VolumeTraded quoteData) * 1.5
        <? float64 (SectorScan.Volume quoteData))
       && (0 <? SectorScan.NetChange quoteData)
    then flow + 30 else flow in
  let flow :=
    if (SectorScan.High quoteData - SectorScan.Low quoteData
        <? SectorScan.LastPrice quoteData * 0.02)
       && (SectorScan.Volume quoteData >? SectorScan.VolumeTraded quoteData)%Z
    then flow + 20 else flow in
  Min (Max flow 0) 100.

Definition checkSectorBreakout (quoteData : SectorScan.quoteData) : float :=
  let breakout := 0 in
  let breakout :=
    if SectorScan.High quoteData <=? SectorScan.LastPrice quoteData
    then breakout + 50 else breakout in
  let breakout :=
    if float64 (SectorScan.VolumeTraded quoteData) * 1.5
       <? float64 (SectorScan.Volume quoteData)
    then breakout + 30 else breakout in
  let breakout :=
    if (SectorScan.Open quoteData <? SectorScan.LastPrice quoteData)
       && (SectorScan.AveragePrice quoteData <? SectorScan.LastPrice quoteData)
    then breakout + 20 else breakout in
  Min breakout 100.

Definition analyzeSector (name : string) (quoteData : SectorScan.quoteData)
  (analysisType : string) (lookbackDays : Z) : SectorAnalysis.t :=
  let strengthScore :=
    if (analysisType =? "relative_strength")%string
    then calculateRelativeStrength quoteData
    else if (analysisType =? "momentum")%string
    then calculateSectorMomentum quoteData
    else if (analysisType =? "institutional_flow")%string
    then estimateInstitutionalFlow quoteData
    else if (analysisType =? "breakout")%string
    then checkSectorBreakout quoteData
    else 0 in
  let recommendation :=
    if 70 <? strengthScore
    then "Strong BUY - Sector showing excellent strength"
    else if 60 <? strengthScore then "BUY - Positive sector momentum"
    else if 40 <? strengthScore then "HOLD - Neutral sector performance"
    else "AVOID - Weak sector, look elsewhere" in
  {| SectorAnalysis.Sector := name;
     SectorAnalysis.StrengthScore := strengthScore;
     SectorAnalysis.PriceChange :=
       (SectorScan.NetChange quoteData / SectorScan.LastPrice quoteData)
       * 100;
     SectorAnalysis.VolumeChange := 0;
     SectorAnalysis.TopStocks := [];
     SectorAnalysis.Recommendation := recommendation |}.

Definition zeroSectorAnalysis : SectorAnalysis.t :=
  {| SectorAnalysis.Sector := ""; SectorAnalysis.StrengthScore := 0;
     SectorAnalysis.PriceChange := 0; SectorAnalysis.VolumeChange := 0;
     SectorAnalysis.TopStocks := []; SectorAnalysis.Recommendation := "" |}.

(** [sectors[i]] *)
Definition sector_at (sectors : list SectorAnalysis.t) (i : Z)
  : SectorAnalysis.t :=
  nth (Z.to_nat i) sectors zeroSectorAnalysis.

(** The map returned by [identifySectorRotation]. *)
Record Rotation : Type := {
  rotating_from : string;
  rotating_to : string;
  strength : string
}.

Definition identifySectorRotation (sectors : list SectorAnalysis.t)
  : Rotation :=
  if (len sectors <? 2)%Z then
    {| rotating_from := "none"; rotating_to := "none"; strength := "weak" |}
  else
    let first := sector_at sectors 0 in
    let last := sector_at sectors (len sectors - 1) in
    let spread :=
      SectorAnalysis.StrengthScore first - SectorAnalysis.StrengthScore last in
    {| rotating_from := SectorAnalysis.Sector last;
       rotating_to := SectorAnalysis.Sector first;
       strength :=
         if 30 <? spread then "strong"
         else if spread <? 10 then "weak"
         else "moderate" |}.

(** An entry of the lists returned by [getTopSectors] and [getWeakSectors];
    the last field is keyed [recommendation] in the former and [warning] in
    the latter. *)
Record SectorEntry : Type := {
  entry_sector : string;
  entry_strength : message;
  entry_price_change : message;
  entry_advice : string
}.

Definition getTopSectors (sectors : list SectorAnalysis.t) (count : Z)
  : list SectorEntry :=
  for_loop 0 (min count (len sectors))
    (fun i top =>
       (top ++ [{| entry_sector := SectorAnalysis.Sector (sector_at sectors i);
                   entry_strength :=
                     Sprintf "%.1f"
                       (SectorAnalysis.StrengthScore (sector_at sectors i));
                   entry_price_change :=
                     Sprintf "%.2f%%"
                       (SectorAnalysis.PriceChange (sector_at sectors i));
                   entry_advice :=
                     SectorAnalysis.Recommendation (sector_at sectors i) |}])%list)
    [].

Definition getWeakSectors (sectors : list SectorAnalysis.t) (count : Z)
  : list SectorEntry :=
  let start := (len sectors - count)%Z in
  let start := if (start <? 0)%Z then 0%Z else start in
  for_loop start (len sectors)
    (fun i weak =>
       (weak ++ [{| entry_sector := SectorAnalysis.Sector (sector_at sectors i);
                    entry_strength :=
                      Sprintf "%.1f"
                        (SectorAnalysis.StrengthScore (sector_at sectors i));
                    entry_price_change :=
                      Sprintf "%.2f%%"
                        (SectorAnalysis.PriceChange (sector_at sectors i));
                    entry_advice := "Avoid or exit positions" |}])%list)
    [].

(** *** Position monitoring *)

(** The fields of [kiteconnect.Holding] and [kiteconnect.Position] that the
    tools read. *)
Module Holding.

Record t : Type := {
  Tradingsymbol : string;
  Quantity : Z;
  AveragePrice : float;
  LastPrice : float;
  PnL : float;
  DayChangePercentage : float
}.

End Holding.

Module Position.

Record t : Type := {
  Tradingsymbol : string;
  Exchange : string;
  Product : string;
  Quantity : Z;
  AveragePrice : float;
  LastPrice : float;
  PnL : float;
  BuyPrice : float;
  BuyQuantity : Z;
  SellPrice : float;
  SellQuantity : Z
}.

End Position.

Module PositionStatus.

Record t : Type := {
  Symbol : string;
  Quantity : Z;
  AvgPrice : float;
  CurrentPrice : float;
  PnL : float;
  PnLPercent : float;
  Invested : float;
  CurrentValue : float;
  DayChange : float;
  Alerts : list message;
  Action : string
}.

End PositionStatus.

Module PositionMonitoring.

Record t : Type := {
  Timestamp : Z;
  Positions : list PositionStatus.t;
  TotalPnL : float;
  TotalInvested : float;
  TotalReturn : float;
  RiskAlerts : list message;
  Recommendations : list string
}.

End PositionMonitoring.

Definition analyzePosition (holding : Holding.t) (alertOnRisk : bool)
  : PositionStatus.t :=
  let invested :=
    Holding.AveragePrice holding * float64 (Holding.Quantity holding) in
  let pnlPercent :=
    if 0 <? invested then (Holding.PnL holding / invested) * 100 else 0 in
  let dayChange := Holding.DayChangePercentage holding in
  let alerts : list message := [] in
  let action := "" in
  let '(alerts, action) :=
    if alertOnRisk then
      let '(alerts, action) :=
        if pnlPercent <? -5
        then ((alerts ++ [Sprintf "⚠️ Loss exceeds 5%%: %.2f%%" pnlPercent])%list,
              "Consider exit or averaging")
        else (alerts, action) in
      let '(alerts, action) :=
        if 15 <? pnlPercent
        then ((alerts ++ [Sprintf "✅ Good profit: %.2f%%, consider partial booking"
                            pnlPercent])%list,
              "Book partial profits")
        else (alerts, action) in
      let alerts :=
        if 5 <? Abs dayChange
        then (alerts ++ [Sprintf "📊 High volatility today: %.2f%%" dayChange])%list
        else alerts in
      (alerts, action)
    else (alerts, action) in
  let action :=
    if (action =? "")%string then
      if 0 <? pnlPercent then "Hold with trailing stop" else "Monitor closely"
    else action in
  {| PositionStatus.Symbol := Holding.Tradingsymbol holding;
     PositionStatus.Quantity := Holding.Quantity holding;
     PositionStatus.AvgPrice := Holding.AveragePrice holding;
     PositionStatus.CurrentPrice := Holding.LastPrice holding;
     PositionStatus.PnL := Holding.PnL holding;
     PositionStatus.PnLPercent := pnlPercent;
     PositionStatus.Invested := invested;
     PositionStatus.CurrentValue :=
       Holding.LastPrice holding * float64 (Holding.Quantity holding);
     PositionStatus.DayChange := dayChange;
     PositionStatus.Alerts := alerts;
     PositionStatus.Action := action |}.

Definition analyzeIntradayPosition (position : Position.t)
  (alertOnRisk : bool) : PositionStatus.t :=
  let invested :=
    if (Position.Quantity position >? 0)%Z
    then Position.BuyPrice position * float64 (Position.BuyQuantity position)
    else Position.SellPrice position
         * float64 (Position.SellQuantity position) in
  let pnlPercent :=
    if 0 <? invested then (Position.PnL position / invested) * 100 else 0 in
  let alerts : list message := [] in
  let action := "" in
  let '(alerts, action) :=
    if alertOnRisk then
      if pnlPercent <? -2
      then ((alerts ++ [Sprintf "⚠️ Intraday loss: %.2f%%" pnlPercent])%list,
            "Exit immediately")
      else if 3 <? pnlPercent
      then ((alerts ++ [Sprintf "✅ Good intraday profit: %.2f%%" pnlPercent])%list,
            "Trail stop-loss or book")
      else (alerts, "Monitor with strict stop")
    else (alerts, action) in
  {| PositionStatus.Symbol := Position.Tradingsymbol position;
     PositionStatus.Quantity := Position.Quantity position;
     PositionStatus.AvgPrice := Position.AveragePrice position;
     PositionStatus.CurrentPrice := Position.LastPrice position;
     PositionStatus.PnL := Position.PnL position;
     PositionStatus.PnLPercent := pnlPercent;
     PositionStatus.Invested := invested;
     PositionStatus.CurrentValue :=
       Position.LastPrice position * float64 (Position.Quantity position);
     PositionStatus.DayChange := 0;
     PositionStatus.Alerts := alerts;
     PositionStatus.Action := action |}.

Definition generateMonitoringRecommendations
  (monitoring : PositionMonitoring.t) : list string :=
  let totalReturn := PositionMonitoring.TotalReturn monitoring in
  let positions := PositionMonitoring.Positions monitoring in
  let recommendations : list string := [] in
  let recommendations :=
    if totalReturn <? -5
    then (recommendations
          ++ ["🔴 Portfolio down >5% - Review positions and consider risk reduction"])%list
    else if 10 <? totalReturn
    then (recommendations
          ++ ["🟢 Excellent returns - Consider booking partial profits"])%list
    else recommendations in
  let '(winnersCount, losersCount) :=
    for_range positions
      (fun pos '(winnersCount, losersCount) =>
         if 0 <? PositionStatus.PnLPercent pos
         then ((winnersCount + 1)%Z, losersCount)
         else (winnersCount, (losersCount + 1)%Z))
      (0%Z, 0%Z) in
  let recommendations :=
    if float64 (len positions) * 0.7 <? float64 winnersCount
    then (recommendations
          ++ ["📈 Strong portfolio performance - Trail stop-losses on winners"])%list
    else recommendations in
  let recommendations :=
    if float64 (len positions) * 0.5 <? float64 losersCount
    then (recommendations
          ++ ["📉 Many losing positions - Review and cut losses on weak stocks"])%list
    else recommendations in
  let recommendations :=
    if (len (PositionMonitoring.RiskAlerts monitoring) >? 3)%Z
    then (recommendations
          ++ ["⚠️ Multiple risk alerts - Reduce position sizes or exit weak positions"])%list
    else recommendations in
  recommendations.

(** The monitoring data of the [monitor_positions] handler (lines 266-316).
    [holdings] and [positions] are the replies of [GetHoldings] and
    [GetPositions] (the net positions), [None] when the call failed. *)
Definition monitorPositions (includeHoldings includePositions
  alertOnRisk : bool) (holdings : option (list Holding.t))
  (positions : option (list Position.t)) (now : Z) : PositionMonitoring.t :=
  let state : list PositionStatus.t * float * float * list message :=
    ([], 0, 0, []) in
  let state :=
    match includeHoldings, holdings with
    | true, Some holdings =>
        for_range holdings
          (fun holding '(statuses, totalPnL, totalInvested, riskAlerts) =>
             let status := analyzePosition holding alertOnRisk in
             ((statuses ++ [status])%list,
              totalPnL + PositionStatus.PnL status,
              totalInvested + PositionStatus.Invested status,
              if (len (PositionStatus.Alerts status) >? 0)%Z
              then (riskAlerts ++ PositionStatus.Alerts status)%list
              else riskAlerts))
          state
    | _, _ => state
    end in
  let state :=
    match includePositions, positions with
    | true, Some positions =>
        for_range positions
          (fun position '(statuses, totalPnL, totalInvested, riskAlerts) =>
             let status := analyzeIntradayPosition position alertOnRisk in
             ((statuses ++ [status])%list,
              totalPnL + PositionStatus.PnL status,
              totalInvested,
              if (len (PositionStatus.Alerts status) >? 0)%Z
              then (riskAlerts ++ PositionStatus.Alerts status)%list
              else riskAlerts))
          state
    | _, _ => state
    end in
  let '(statuses, totalPnL, totalInvested, riskAlerts) := state in
  let totalReturn :=
    if 0 <? totalInvested then (totalPnL / totalInvested) * 100 else 0 in
  let monitoringData :=
    {| PositionMonitoring.Timestamp := now;
       PositionMonitoring.Positions := statuses;
       PositionMonitoring.TotalPnL := totalPnL;
       PositionMonitoring.TotalInvested := totalInvested;
       PositionMonitoring.TotalReturn := totalReturn;
       PositionMonitoring.RiskAlerts := riskAlerts;
       PositionMonitoring.Recommendations := [] |} in
  {| PositionMonitoring.Timestamp := now;
     PositionMonitoring.Positions := statuses;
     PositionMonitoring.TotalPnL := totalPnL;
     PositionMonitoring.TotalInvested := totalInvested;
     PositionMonitoring.TotalReturn := totalReturn;
     PositionMonitoring.RiskAlerts := riskAlerts;
     PositionMonitoring.Recommendations :=
       generateMonitoringRecommendations monitoringData |}.

(** *** Emergency exit *)

Module EmergencyExitOrder.

Record t : Type := {
  Symbol : string;
  Exchange : string;
  Quantity : Z;
  TransactionType : string;
  Product : string;
  OrderType : string;
  Price : float;
  Reason : message;
  ExpectedLoss : float
}.

End EmergencyExitOrder.

(** [map[string][]string], as the list of its entries. *)
Fixpoint lookup (m : list (string * list string)) (k : string)
  : option (list string) :=
  match m with
  | [] => None
  | (k', v) :: m' => if (k' =? k)%string then Some v else lookup m' k
  end.




(* ===================================================================== *)
(** ** Definitions used to state the properties                           *)
(* ===================================================================== *)

(** *** The order of binary64 values *)

(** A rank in [Z * Z * Z], compared lexicographically, that puts NaN first
    and then the numbers in increasing order (the two zeros share a rank). *)
Definition key (f : spec_float) : Z * Z * Z :=
  match f with
  | S754_nan => (-3, 0, 0)%Z
  | S754_infinity true => (-2, 0, 0)%Z
  | S754_finite true m e => (-1, - e, - Zpos m)%Z
  | S754_zero _ => (0, 0, 0)%Z
  | S754_finite false m e => (1, e, Zpos m)%Z
  | S754_infinity false => (2, 0, 0)%Z
  end.

Definition fkey (x : float) : Z * Z * Z := key (Prim2SF x).

Definition lex_lt (a b : Z * Z * Z) : Prop :=
  let '(c1, e1, m1) := a in
  let '(c2, e2, m2) := b in
  (c1 < c2 \/ (c1 = c2 /\ (e1 < e2 \/ (e1 = e2 /\ m1 < m2))))%Z.

Definition is_number (a : Z * Z * Z) : Prop := (-3 < fst (fst a))%Z.

(** [x] does not come after [y] in the order of [sort.Float64s]. *)
Definition not_after (x y : float) : Prop := float64_less y x = false.

(** *** The stop-loss candidates of [calculateRiskReward] *)

(** The stop derived from the support slice: 1% under its last element, or
    2% under the entry when the slice is empty. *)
Definition supportStop (currentPrice : float) (technical : TechnicalIndicators)
  : float :=
  match Support technical with
  | [] => currentPrice * 0.98
  | _ :: _ => last (Support technical) 0 * 0.99
  end.

(** The stop implied by the average true range. *)
Definition atrStop (currentPrice : float) (technical : TechnicalIndicators)
  : float :=
  currentPrice - (ATR technical * 1.5).

(** Finite, positive and not subnormal: at least [2 ^ -1021]. *)
Definition normalPositive (x : float) : bool :=
  (0x1p-1021 <=? x) && (x <? infinity).

(** The entry price is a normal positive number and no support level is
    above it: either no level was detected, or the highest one is a normal
    positive number at most equal to the entry price. *)
Definition entryCoversSupport (currentPrice : float)
  (technical : TechnicalIndicators) : Prop :=
  match Support technical with
  | [] => normalPositive currentPrice = true
  | _ :: _ =>
      normalPositive (last (Support technical) 0) = true
      /\ (last (Support technical) 0 <=? currentPrice) = true
  end.

(** The smallest element of a slice of support levels. *)
Definition lowest (levels : list float) : float :=
  match levels with
  | [] => 0
  | s :: rest => fold_left (fun m x => if x <? m then x else m) rest s
  end.

(** The stop-loss as the specification words it: from the lowest known
    support level, replaced by the ATR stop when that one is higher. *)
Definition specifiedStopLoss (currentPrice : float)
  (technical : TechnicalIndicators) : float :=
  let base :=
    match Support technical with
    | [] => 0.98 * currentPrice
    | _ :: _ => 0.99 * lowest (Support technical)
    end in
  if (0 <? ATR technical) && (base <? atrStop currentPrice technical)
  then atrStop currentPrice technical else base.

(** *** Targets *)

(** A raw target capped by its resistance level, when there is one below. *)
Definition capped (raw : float) (resistance : option float) : float :=
  match resistance with
  | Some r => if r <? raw then r * 0.995 else raw
  | None => raw
  end.

(** One turn of the loop over the resistance levels (lines 618-626 of the
    strategy tools), the body of the loop in [calculateRiskReward]. *)
Definition adjustTargets (resistances : list float) (i : Z)
  (targets : float * float * float) : float * float * float :=
  let '(target1, target2, target3) := targets in
  let resistance := index resistances i in
  if (i =? 0)%Z && (resistance <? target1)
  then (resistance * 0.995, target2, target3)
  else if (i =? 1)%Z && (resistance <? target2)
  then (target1, resistance * 0.995, target3)
  else if (i =? 2)%Z && (resistance <? target3)
  then (target1, target2, resistance * 0.995)
  else (target1, target2, target3).

(** *** The decision table of the signal generator, as specified *)

Definition decisionTable (bullishScore bearishScore confidence : float)
  : string * string :=
  if (70 <? bullishScore) && (75 <? confidence) then ("BUY", "strong")
  else if (60 <? bullishScore) && (65 <? confidence) then ("BUY", "moderate")
  else if (70 <? bearishScore) && (75 <? confidence) then ("SELL", "strong")
  else ("HOLD", "weak").

(** *** Sample inputs *)

(** A flat market: 200 closes at 100 with a constant volume. *)
Definition flatPrices : list float := repeat 100 200.
Definition flatVolumes : list float := repeat 1000 200.

(** A saw-tooth of period 20 and amplitude 10 whose floor rises from 90 to
    99.5 after the first 40 closes; its local minima are 90, 90, 99.5, ... *)
Definition sawtooth (i : nat) : float :=
  let k := (i mod 20)%nat in
  let base := if (i <? 40)%nat then 90 else 99.5 in
  base + float64 (Z.of_nat (if (k <? 10)%nat then 10 - k else k - 10)).

Definition sawtoothPrices : list float := map sawtooth (seq 0 220).
Definition sawtoothVolumes : list float := repeat 1000 220.

(** The closes 1, 2, ..., 26. *)
Definition risingPrices : list float :=
  map (fun k => float64 (Z.of_nat k)) (seq 1 26).

Definition sampleQuote (lastPrice : float) : kiteconnect.Quote :=
  {| kiteconnect.InstrumentToken := 408065;
     kiteconnect.LastPrice := lastPrice;
     kiteconnect.AveragePrice := lastPrice;
     kiteconnect.Volume := 1000;
     kiteconnect.NetChange := 0;
     kiteconnect.OI := 0;
     kiteconnect.LowerCircuitLimit := 0;
     kiteconnect.UpperCircuitLimit := 0;
     kiteconnect.OHLC_ :=
       {| kiteconnect.Open := lastPrice; kiteconnect.High := lastPrice;
          kiteconnect.Low := lastPrice; kiteconnect.Close := lastPrice |} |}.

(** The candles whose closes are [prices], each with volume 1000. *)
Definition candles (prices : list float) : list kiteconnect.HistoricalData :=
  map (fun p => {| kiteconnect.CandleClose := p;
                   kiteconnect.CandleVolume := 1000 |}) prices.

(** Indicators that carry only support levels, resistance levels and an
    average true range. *)
Definition sampleTechnical (support resistance : list float) (atr : float)
  : TechnicalIndicators :=
  {| Support := support; Resistance := resistance;
     Trend := ""; TrendStrength := 0;
     SMA20 := 0; SMA50 := 0; SMA200 := 0; EMA9 := 0; EMA21 := 0; VWAP := 0;
     RSI := 0; RSIDivergence := false; MACD := zeroMACDValues;
     Stochastic := zeroStochasticValues;
     BollingerBands := zeroBollingerValues; ATR := atr;
     VolumeProfile := zeroVolumeProfileData;
     CandlePattern := ""; ChartPattern := "";
     BullishScore := 0; BearishScore := 0 |}.

(** *** Definitions used to state further properties *)

(** A float that is neither NaN nor infinite. *)
Definition finite (x : float) : bool := abs x <? infinity.


(** A signal that the scan of [get_wealth_builder_signals] keeps: a BUY
    whose expected return reaches the minimum, with the return and the
    priority of the scan type. *)
Definition acceptedSignal (scanType : string) (minReturn : float)
  (signal : TradeSignal) : Prop :=
  Action signal = "BUY"
  /\ (minReturn <=? ExpectedReturn signal) = true
  /\ ((scanType = "momentum" /\ ExpectedReturn signal = 15
       /\ Priority signal = 7%Z)
      \/ (scanType = "oversold_bounce" /\ ExpectedReturn signal = 12
          /\ Priority signal = 6%Z)
      \/ (scanType = "breakout" /\ ExpectedReturn signal = 20
          /\ Priority signal = 8%Z)).

(** A rising market: 220 candles whose closes go from 100 to 318 by steps
    of 1 and end on 325, with a volume of 1000 that doubles over the last
    ten candles; and the quote at their end. *)
Definition risingHistory : list kiteconnect.HistoricalData :=
  map (fun i : nat =>
         {| kiteconnect.CandleClose :=
              if (i <? 219)%nat then float64 (100 + Z.of_nat i) else 325;
            kiteconnect.CandleVolume :=
              if (i <? 210)%nat then 1000%Z else 2000%Z |})
      (seq 0 220).

Definition risingQuote : QuoteData :=
  {| InstrumentToken := 408065; LastPrice := 325; AveragePrice := 322;
     Volume := 2000; NetChange := 7; OI := 0; LowerCircuitLimit := 290;
     UpperCircuitLimit := 350; Tradingsymbol := "INFY"; High := 325;
     Low := 318; Open := 318; VolumeTraded := 2000 |}.

(* ===================================================================== *)
(** ** Facts about the primitives                                         *)
(* ===================================================================== *)

Ltac cmp_cases :=
  repeat match goal with
    | |- context [Z.compare ?a ?b] => destruct (Z.compare_spec a b)
    | |- context [Pos.compare_cont Eq ?a ?b] =>
        change (Pos.compare_cont Eq a b) with (Pos.compare a b);
        destruct (Pos.compare_spec a b)
    end.

Lemma SFltb_key (a b : spec_float) :
  SFltb a b = true <->
  is_number (key a) /\ is_number (key b) /\ lex_lt (key a) (key b).
Proof.
  unfold SFltb, is_number, lex_lt.
  destruct a as [sa|sa| |sa ma ea], b as [sb|sb| |sb mb eb];
    try destruct sa; try destruct sb; cbn; cmp_cases; cbn;
    split; intros; try discriminate; try reflexivity; try lia.
Qed.

Lemma SFeqb_refl_key (a : spec_float) :
  SFeqb a a = true <-> is_number (key a).
Proof.
  unfold SFeqb, is_number.
  destruct a as [sa|sa| |sa ma ea]; try destruct sa; cbn;
    rewrite ?Z.compare_refl;
    change (Pos.compare_cont Eq ?p ?p) with (Pos.compare p p);
    rewrite ?Pos.compare_refl; cbn;
    split; intros; try discriminate; try reflexivity; try lia.
Qed.

Lemma SFleb_key (a b : spec_float) :
  SFleb a b = true <->
  is_number (key a) /\ is_number (key b) /\ ~ lex_lt (key b) (key a).
Proof.
  unfold SFleb, is_number, lex_lt.
  destruct a as [sa|sa| |sa ma ea], b as [sb|sb| |sb mb eb];
    try destruct sa; try destruct sb; cbn; cmp_cases; cbn;
    split; intros; try discriminate; try reflexivity; try lia.
Qed.

Lemma ltb_key (x y : float) :
  (x <? y) = true <->
  is_number (fkey x) /\ is_number (fkey y) /\ lex_lt (fkey x) (fkey y).
Proof. rewrite ltb_spec. apply SFltb_key. Qed.

Lemma leb_key (x y : float) :
  (x <=? y) = true <->
  is_number (fkey x) /\ is_number (fkey y) /\ ~ lex_lt (fkey y) (fkey x).
Proof. rewrite leb_spec. apply SFleb_key. Qed.

Lemma IsNaN_key (x : float) : IsNaN x = false <-> is_number (fkey x).
Proof.
  unfold IsNaN. rewrite eqb_spec, negb_false_iff. apply SFeqb_refl_key.
Qed.

Lemma key_least (a : spec_float) :
  is_number (key a) \/ key a = (-3, 0, 0)%Z.
Proof.
  unfold is_number.
  destruct a as [sa|sa| |sa ma ea]; try destruct sa; cbn; auto; left; lia.
Qed.

(** The order of [sort.Float64s] is the lexicographic order of the ranks. *)
Lemma float64_less_key (x y : float) :
  float64_less x y = true <-> lex_lt (fkey x) (fkey y).
Proof.
  unfold float64_less.
  rewrite orb_true_iff, andb_true_iff, negb_true_iff, ltb_key, IsNaN_key.
  assert (Hx : IsNaN x = true <-> ~ is_number (fkey x)).
  { rewrite <- IsNaN_key. destruct (IsNaN x); intuition congruence. }
  rewrite Hx.
  unfold fkey, is_number, lex_lt in *.
  destruct (key_least (Prim2SF x)) as [Hkx | Hkx],
           (key_least (Prim2SF y)) as [Hky | Hky];
    unfold is_number in *;
    destruct (key (Prim2SF x)) as [[c1 e1] m1],
             (key (Prim2SF y)) as [[c2 e2] m2]; cbn in *;
    try (injection Hkx as -> -> ->); try (injection Hky as -> -> ->);
    lia.
Qed.

Lemma lex_lt_negtrans a b c : ~ lex_lt b a -> ~ lex_lt c b -> ~ lex_lt c a.
Proof.
  destruct a as [[? ?] ?], b as [[? ?] ?], c as [[? ?] ?]; cbn; lia.
Qed.

Lemma lex_lt_asym a b : lex_lt a b -> ~ lex_lt b a.
Proof. destruct a as [[? ?] ?], b as [[? ?] ?]; cbn; lia. Qed.

Lemma ltb_false_key (x y : float) :
  (x <? y) = false <->
  ~ (is_number (fkey x) /\ is_number (fkey y) /\ lex_lt (fkey x) (fkey y)).
Proof.
  rewrite <- ltb_key. destruct (x <? y); intuition congruence.
Qed.

Lemma leb_false_key (x y : float) :
  (x <=? y) = false <->
  ~ (is_number (fkey x) /\ is_number (fkey y) /\ ~ lex_lt (fkey y) (fkey x)).
Proof.
  rewrite <- leb_key. destruct (x <=? y); intuition congruence.
Qed.

(** Decides goals about [<?] and [<=?] on floats from hypotheses of the
    same kind, through the ranks. *)
Ltac float_order :=
  repeat match goal with
    | H : (_ <? _) = true |- _ => apply ltb_key in H
    | H : (_ <? _) = false |- _ => apply ltb_false_key in H
    | H : (_ <=? _) = true |- _ => apply leb_key in H
    | H : (_ <=? _) = false |- _ => apply leb_false_key in H
    end;
  try match goal with
    | |- (_ <? _) = true => apply ltb_key
    | |- (_ <? _) = false => apply ltb_false_key
    | |- (_ <=? _) = true => apply leb_key
    | |- (_ <=? _) = false => apply leb_false_key
    end;
  unfold is_number, lex_lt in *;
  repeat match goal with
    | |- context [fkey ?x] =>
        let c := fresh "c" in let e := fresh "e" in let m := fresh "m" in
        destruct (fkey x) as [[c e] m]
    | H : context [fkey ?x] |- _ =>
        let c := fresh "c" in let e := fresh "e" in let m := fresh "m" in
        destruct (fkey x) as [[c e] m]
    end;
  cbn [fst snd] in *; lia.

(** *** [sort.Float64s] sorts *)

Lemma not_after_trans x y z : not_after x y -> not_after y z -> not_after x z.
Proof.
  unfold not_after. intros Hxy Hyz.
  destruct (float64_less z x) eqn:E; [ | reflexivity ].
  exfalso. apply float64_less_key in E.
  assert (Hxy' : ~ lex_lt (fkey y) (fkey x)).
  { intro H. apply float64_less_key in H. congruence. }
  assert (Hyz' : ~ lex_lt (fkey z) (fkey y)).
  { intro H. apply float64_less_key in H. congruence. }
  exact (lex_lt_negtrans _ _ _ Hxy' Hyz' E).
Qed.

Lemma less_not_after x y : float64_less x y = true -> not_after x y.
Proof.
  unfold not_after. intros H.
  destruct (float64_less y x) eqn:E; [ | reflexivity ].
  exfalso. apply float64_less_key in H, E.
  exact (lex_lt_asym _ _ H E).
Qed.

Lemma not_after_refl x : not_after x x.
Proof.
  unfold not_after.
  destruct (float64_less x x) eqn:E; [ | reflexivity ].
  apply float64_less_key in E. exfalso. exact (lex_lt_asym _ _ E E).
Qed.

Lemma not_after_ltb x y : not_after x y -> (y <? x) = false.
Proof.
  unfold not_after, float64_less. intros H.
  apply orb_false_iff in H. tauto.
Qed.

Lemma insert_sorted_In x l z :
  In z (insert_sorted x l) <-> z = x \/ In z l.
Proof.
  induction l as [ | y l IH]; cbn.
  - intuition.
  - destruct (float64_less x y); cbn; rewrite ?IH; intuition.
Qed.

Lemma insert_sorted_perm x l : Permutation (x :: l) (insert_sorted x l).
Proof.
  induction l as [ | y l IH]; cbn.
  - reflexivity.
  - destruct (float64_less x y).
    + reflexivity.
    + rewrite perm_swap. now apply perm_skip.
Qed.

Lemma insert_sorted_sorted x l :
  StronglySorted not_after l -> StronglySorted not_after (insert_sorted x l).
Proof.
  induction 1 as [ | y l Hs IH Hy]; cbn.
  - repeat constructor.
  - destruct (float64_less x y) eqn:E.
    + constructor; [ now constructor | ].
      apply less_not_after in E.
      constructor; [ exact E | ].
      rewrite Forall_forall in *. intros z Hz.
      eapply not_after_trans; eauto.
    + constructor; [ exact IH | ].
      rewrite Forall_forall in *. intros z Hz.
      apply insert_sorted_In in Hz. destruct Hz as [-> | Hz]; auto.
Qed.

Lemma Float64s_sorted l : StronglySorted not_after (Float64s l).
Proof.
  induction l as [ | x l IH]; cbn.
  - constructor.
  - now apply insert_sorted_sorted.
Qed.

Lemma Float64s_perm l : Permutation l (Float64s l).
Proof.
  induction l as [ | x l IH]; cbn.
  - reflexivity.
  - rewrite <- insert_sorted_perm. now apply perm_skip.
Qed.

Lemma last_In (l : list float) (z d : float) : In (last (z :: l) d) (z :: l).
Proof.
  revert z. induction l as [ | w l IH]; intros z.
  - now left.
  - right. apply IH.
Qed.

(** In a sorted slice no element comes after the last one. *)
Lemma sorted_last l d :
  StronglySorted not_after l -> Forall (fun s => not_after s (last l d)) l.
Proof.
  induction 1 as [ | y l Hs IH Hy].
  - constructor.
  - destruct l as [ | z l'].
    + constructor; [ apply not_after_refl | constructor ].
    + change (last (y :: z :: l') d) with (last (z :: l') d).
      constructor; [ | exact IH ].
      rewrite Forall_forall in Hy. apply Hy, last_In.
Qed.

(** *** Slices *)

Lemma index_last (l : list float) : index l (len l - 1) = last l 0.
Proof.
  unfold index, len.
  destruct l as [ | x l]; [ reflexivity | ].
  replace (Z.to_nat (Z.of_nat (List.length (x :: l)) - 1))
    with (List.length l) by (cbn [List.length]; lia).
  revert x. induction l as [ | y l IH]; intros x; [ reflexivity | ].
  change (last (x :: y :: l) 0) with (last (y :: l) 0).
  rewrite <- IH. reflexivity.
Qed.


(** *** Signs of differences and quotients *)

Lemma digits2_pos_bounds (m : positive) :
  (2 ^ (Zpos (digits2_pos m) - 1) <= Zpos m < 2 ^ Zpos (digits2_pos m))%Z.
Proof.
  induction m as [p IH | p IH | ]; cbn [digits2_pos].
  - rewrite Pos2Z.inj_succ.
    replace (Z.succ (Zpos (digits2_pos p)) - 1)%Z
      with (Z.succ (Zpos (digits2_pos p) - 1)) by lia.
    rewrite !Z.pow_succ_r by lia. lia.
  - rewrite Pos2Z.inj_succ.
    replace (Z.succ (Zpos (digits2_pos p)) - 1)%Z
      with (Z.succ (Zpos (digits2_pos p) - 1)) by lia.
    rewrite !Z.pow_succ_r by lia. lia.
  - cbn. lia.
Qed.

Lemma shl_align_fst (mx : positive) (ex ez : Z) :
  (ez <= ex)%Z ->
  Zpos (fst (shl_align mx ex ez)) = (Zpos mx * 2 ^ (ex - ez))%Z.
Proof.
  intros H. unfold shl_align.
  destruct (ez - ex)%Z as [ | p | d] eqn:E; cbn [fst].
  - replace (ex - ez)%Z with 0%Z by lia. cbn. lia.
  - lia.
  - replace (ex - ez)%Z with (Zpos d) by lia.
    rewrite <- Z.shiftl_mul_pow2 by lia.
    apply (shift_equiv (Zpos d) mx). lia.
Qed.

(** What validity says of a finite binary64: at most 53 digits, and exactly
    53 above the smallest exponent. *)
Lemma bounded_digits (m : positive) (e : Z) :
  SpecFloat.bounded prec emax m e = true ->
  (emin <= e /\ Zpos m < 2 ^ 53 /\ (emin < e -> 2 ^ 52 <= Zpos m))%Z.
Proof.
  unfold SpecFloat.bounded, canonical_mantissa, fexp. intros H.
  apply andb_true_iff in H. destruct H as [H _].
  apply Z.eqb_eq in H.
  pose proof (digits2_pos_bounds m) as [Hlo Hhi].
  set (d := Zpos (digits2_pos m)) in *.
  change prec with 53%Z in *.
  assert (Hd : (d <= 53)%Z) by lia.
  repeat split.
  - lia.
  - eapply Z.lt_le_trans; [ exact Hhi | ].
    apply Z.pow_le_mono_r; lia.
  - intros He. assert (d = 53%Z) by lia.
    replace 52%Z with (d - 1)%Z by lia. exact Hlo.
Qed.

Lemma binary_round_aux_neg mx ex lx :
  SFltb (S754_zero false) (binary_round_aux prec emax true mx ex lx) = false.
Proof.
  unfold binary_round_aux.
  destruct (shr_fexp prec emax mx ex lx) as [mrs' e'].
  destruct (shr_fexp prec emax _ e' loc_Exact) as [mrs'' e''].
  destruct (shr_m mrs''); [ reflexivity | | reflexivity ].
  destruct (e'' <=? emax - prec)%Z; reflexivity.
Qed.

Lemma binary_normalize_nonpos (d e : Z) :
  (d <= 0)%Z ->
  SFltb (S754_zero false) (binary_normalize prec emax d e false) = false.
Proof.
  intros H. destruct d as [ | p | p]; cbn [binary_normalize].
  - reflexivity.
  - lia.
  - unfold binary_round.
    destruct (shl_align p e _) as [mz ez]. apply binary_round_aux_neg.
Qed.

Lemma aligned_le (mx my : positive) (ex ey : Z) :
  SpecFloat.bounded prec emax mx ex = true ->
  SpecFloat.bounded prec emax my ey = true ->
  (ex < ey \/ (ex = ey /\ Zpos mx <= Zpos my))%Z ->
  (Zpos (fst (shl_align mx ex (Z.min ex ey)))
   <= Zpos (fst (shl_align my ey (Z.min ex ey))))%Z.
Proof.
  intros Hx Hy H.
  rewrite !shl_align_fst by lia.
  apply bounded_digits in Hx, Hy.
  destruct H as [H | [-> H]].
  - replace (Z.min ex ey) with ex by lia.
    rewrite Z.sub_diag, Z.pow_0_r, Z.mul_1_r.
    assert (Hp : (2 ^ 1 <= 2 ^ (ey - ex))%Z)
      by (apply Z.pow_le_mono_r; lia).
    change (2 ^ 1)%Z with 2%Z in Hp.
    assert ((2 ^ 52 <= Zpos my)%Z) by (apply Hy; lia).
    change (2 ^ 53)%Z with (2 ^ 52 * 2)%Z in Hx.
    nia.
  - rewrite Z.min_id, Z.sub_diag, Z.pow_0_r. lia.
Qed.

Lemma SFsub_not_positive (a b : spec_float) :
  valid_binary a = true -> valid_binary b = true ->
  SFleb a b = true ->
  SFltb (S754_zero false) (SF64sub a b) = false.
Proof.
  intros Va Vb H.
  destruct a as [sa|sa| |sa ma ea], b as [sb|sb| |sb mb eb];
    try discriminate H;
    try (destruct sa; destruct sb; try discriminate H; reflexivity);
    try (destruct sa; try discriminate H; reflexivity);
    try (destruct sb; try discriminate H; reflexivity).
  (* two finite numbers *)
  cbn [SpecFloat.valid_binary] in Va, Vb.
  unfold SF64sub, SFsub.
  apply binary_normalize_nonpos.
  apply SFleb_key in H. destruct H as (_ & _ & H).
  unfold lex_lt in H.
  destruct sa, sb; cbn [key cond_Zopp] in *.
  - assert (L := aligned_le mb ma eb ea Vb Va).
    rewrite Z.min_comm in L. lia.
  - lia.
  - exfalso. lia.
  - assert (L := aligned_le ma mb ea eb Va Vb). lia.
Qed.

(** When [x <= y], the difference [x - y] is not positive. *)
Lemma sub_not_positive (x y : float) :
  (x <=? y) = true -> (0 <? x - y) = false.
Proof.
  intros H. rewrite ltb_spec, sub_spec.
  rewrite leb_spec in H.
  change (Prim2SF 0) with (S754_zero false).
  apply SFsub_not_positive; auto using Prim2SF_valid.
Qed.

(** Subtracting zero changes nothing. *)
Lemma sub_zero (x : float) : x - 0 = x.
Proof.
  apply Prim2SF_inj. rewrite sub_spec.
  change (Prim2SF 0) with (S754_zero false).
  destruct (Prim2SF x) as [s|s| |s m e]; try destruct s; reflexivity.
Qed.

(** The quotient of [x - x] by itself is NaN, whatever [x]. *)
Lemma self_quotient_nan (x : float) : (x - x) / (x - x) = nan.
Proof.
  apply Prim2SF_inj. rewrite div_spec, sub_spec.
  change (Prim2SF nan) with S754_nan.
  destruct (Prim2SF x) as [s|s| |s m e]; try (destruct s; reflexivity);
    try reflexivity.
  unfold SF64sub, SFsub. rewrite Z.sub_diag. reflexivity.
Qed.

(** *** Products by a factor below one *)

Section ProductRounding.
Local Open Scope Z_scope.

Lemma shr_1_m (mrs : shr_record) :
  0 <= shr_m mrs -> shr_m (shr_1 mrs) = shr_m mrs / 2.
Proof.
  destruct mrs as [m r s]. cbn [shr_m]. intros H.
  destruct m as [ | [p | p | ] | p]; cbn [shr_1 shr_m]; try lia;
    try reflexivity.
  - apply Z.div_unique with (r := 1); lia.
  - apply Z.div_unique with (r := 0); lia.
Qed.

Lemma pow2_xO (p : positive) : 2 ^ Zpos p~0 = 2 ^ Zpos p * 2 ^ Zpos p.
Proof. rewrite <- Z.pow_add_r by lia. f_equal. lia. Qed.

Lemma pow2_xI (p : positive) :
  2 ^ Zpos p~1 = 2 * (2 ^ Zpos p * 2 ^ Zpos p).
Proof.
  rewrite <- Z.pow_add_r, <- Z.pow_succ_r by lia. f_equal. lia.
Qed.

Lemma iter_shr_1_m (p : positive) (mrs : shr_record) :
  0 <= shr_m mrs ->
  shr_m (iter_pos shr_1 p mrs) = shr_m mrs / 2 ^ Zpos p.
Proof.
  revert mrs. induction p as [p IH | p IH | ]; intros mrs H; cbn [iter_pos].
  - assert (H1 : 0 <= shr_m (shr_1 mrs))
      by (rewrite shr_1_m by exact H; apply Z.div_pos; lia).
    assert (H2 : 0 <= shr_m (iter_pos shr_1 p (shr_1 mrs)))
      by (rewrite IH by exact H1; apply Z.div_pos; lia).
    rewrite IH, IH, shr_1_m by assumption.
    rewrite pow2_xI, !Z.div_div by lia. reflexivity.
  - assert (H1 : 0 <= shr_m (iter_pos shr_1 p mrs))
      by (rewrite IH by exact H; apply Z.div_pos; lia).
    rewrite IH, IH by assumption.
    rewrite pow2_xO, !Z.div_div by lia. reflexivity.
  - rewrite shr_1_m by exact H. reflexivity.
Qed.

Lemma round_nearest_even_bounds (m : Z) (l : location) :
  m <= round_nearest_even m l <= m + 1.
Proof.
  destruct l as [ | [ | | ]]; cbn [round_nearest_even];
    try destruct (Z.even m); lia.
Qed.

(** The number of digits, from bounds by powers of two. *)
Lemma digits2_pos_unique (p : positive) (d : Z) :
  2 ^ (d - 1) <= Zpos p < 2 ^ d -> 0 < d -> Zpos (digits2_pos p) = d.
Proof.
  intros [Hlo Hhi] Hd.
  pose proof (digits2_pos_bounds p) as [Blo Bhi].
  set (d' := Zpos (digits2_pos p)) in *.
  assert (Hd' : 0 < d') by (subst d'; lia).
  destruct (Z.lt_trichotomy d' d) as [Hlt | [Heq | Hgt]]; [ | exact Heq | ].
  - exfalso.
    assert (2 ^ d' <= 2 ^ (d - 1)) by (apply Z.pow_le_mono_r; lia). lia.
  - exfalso.
    assert (2 ^ d <= 2 ^ (d' - 1)) by (apply Z.pow_le_mono_r; lia). lia.
Qed.

(** The second rounding step of a product: a mantissa of 53 digits is kept,
    and the only one of 54 digits, [2 ^ 53], is halved. *)
Lemma renormalize (r e' : Z) :
  2 ^ 52 <= r <= 2 ^ 53 -> SpecFloat.emin prec emax <= e' ->
  (r < 2 ^ 53 /\ shr_m (fst (shr_fexp prec emax r e' loc_Exact)) = r
   /\ snd (shr_fexp prec emax r e' loc_Exact) = e')
  \/ (r = 2 ^ 53 /\ shr_m (fst (shr_fexp prec emax r e' loc_Exact)) = 2 ^ 52
      /\ snd (shr_fexp prec emax r e' loc_Exact) = e' + 1).
Proof.
  intros Hr He.
  destruct r as [ | r' | r']; try lia.
  unfold shr_fexp. cbn [Zdigits2 shr_record_of_loc].
  destruct (Z.eq_dec (Zpos r') (2 ^ 53)) as [E | E].
  - right. split; [ exact E | ].
    assert (D : Zpos (digits2_pos r') = 54)
      by (apply digits2_pos_unique; [ rewrite E; cbn; lia | lia ]).
    rewrite D.
    replace (fexp prec emax (54 + e') - e') with 1
      by (unfold fexp, SpecFloat.emin, prec, emax in *; lia).
    cbn [shr fst snd iter_pos]. rewrite shr_1_m by (cbn; lia).
    cbn [shr_m]. rewrite E. split; reflexivity.
  - left. split; [ lia | ].
    assert (D : Zpos (digits2_pos r') = 53)
      by (apply digits2_pos_unique; [ change (53 - 1) with 52; lia | lia ]).
    rewrite D.
    replace (fexp prec emax (53 + e') - e') with 0
      by (unfold fexp, SpecFloat.emin, prec, emax in *; lia).
    cbn [shr fst snd shr_m]. split; reflexivity.
Qed.

(** The first rounding step of a product: the high digits of the product
    and its rounding to nearest. *)
Lemma first_round (P : positive) (e0 : Z) (p : positive) :
  fexp prec emax (Zpos (digits2_pos P) + e0) - e0 = Zpos p ->
  let '(mrs', e') := shr_fexp prec emax (Zpos P) e0 loc_Exact in
  e' = e0 + Zpos p
  /\ Zpos P / 2 ^ Zpos p
     <= round_nearest_even (shr_m mrs') (loc_of_shr_record mrs')
     <= Zpos P / 2 ^ Zpos p + 1.
Proof.
  intros H. unfold shr_fexp. cbn [Zdigits2 shr_record_of_loc].
  rewrite H. cbn [shr]. split; [ reflexivity | ].
  assert (E : 0 <= shr_m (Build_shr_record (Zpos P) false false))
    by (cbn; lia).
  apply (iter_shr_1_m p) in E. cbn [shr_m] in E. rewrite <- E.
  apply round_nearest_even_bounds.
Qed.

(** Multiplying a positive number that is not subnormal by a factor of
    [0.5, 1 - 2^-51] gives a smaller number. *)
Lemma SFmul_factor_lt (m M : positive) (ex : Z) :
  SpecFloat.bounded prec emax m ex = true ->
  SpecFloat.emin prec emax < ex ->
  2 ^ 52 <= Zpos M <= 2 ^ 53 - 4 ->
  SFltb (SF64mul (S754_finite false m ex) (S754_finite false M (-53)))
        (S754_finite false m ex) = true.
Proof.
  intros Hb He HM.
  assert (Hex : ex <= emax - prec).
  { unfold SpecFloat.bounded in Hb. apply andb_true_iff in Hb.
    destruct Hb as [_ Hb]. now apply Z.leb_le in Hb. }
  apply bounded_digits in Hb. destruct Hb as (_ & Hhi & Hlo).
  specialize (Hlo He).
  unfold SF64mul, SFmul. cbn [xorb]. unfold binary_round_aux.
  set (P := (m * M)%positive).
  assert (HP : Zpos P = Zpos m * Zpos M) by (subst P; lia).
  assert (HPlo : 2 ^ 104 <= Zpos P)
    by (change (2 ^ 104) with (2 ^ 52 * 2 ^ 52); nia).
  assert (HPhi : Zpos P < 2 ^ 106)
    by (change (2 ^ 106) with (2 ^ 53 * 2 ^ 53); nia).
  destruct (Z_lt_le_dec (Zpos P) (2 ^ 105)) as [Hsmall | Hbig].
  - (* 105 digits: the exponent drops by one, unless rounding carries *)
    assert (D : Zpos (digits2_pos P) = 105)
      by (apply digits2_pos_unique; [ change (105 - 1) with 104; lia | lia ]).
    pose proof (first_round P (ex + -53) 52) as F.
    rewrite D in F.
    destruct (shr_fexp prec emax (Zpos P) (ex + -53) loc_Exact)
      as [mrs' e'].
    destruct F as (-> & Flo & Fhi);
      [ unfold fexp, SpecFloat.emin, prec, emax in *; lia | ].
    set (r := round_nearest_even (shr_m mrs') (loc_of_shr_record mrs')) in *.
    assert (Q1 : 2 ^ 52 <= Zpos P / 2 ^ 52)
      by (apply Z.div_le_lower_bound; [ lia | ];
          change (2 ^ 52 * 2 ^ 52) with (2 ^ 104); lia).
    assert (Q2 : Zpos P / 2 ^ 52 < 2 ^ 53)
      by (apply Z.div_lt_upper_bound; [ lia | ];
          change (2 ^ 52 * 2 ^ 53) with (2 ^ 105); lia).
    destruct (renormalize r (ex + -53 + 52)) as [(R1 & R2 & R3) | (R1 & R2 & R3)];
      [ lia | unfold SpecFloat.emin, prec, emax in *; lia | | ];
      destruct (shr_fexp prec emax r (ex + -53 + 52) loc_Exact)
        as [mrs'' e''];
      cbn [fst snd] in R2, R3; rewrite R2, R3.
    + destruct r as [ | r' | r']; try lia.
      replace (ex + -53 + 52 <=? emax - prec) with true
        by (symmetry; apply Z.leb_le; lia).
      apply SFltb_key. unfold is_number, lex_lt. cbn. lia.
    + change (2 ^ 52) with (Zpos (2 ^ 52)%positive).
      replace (ex + -53 + 52 + 1 <=? emax - prec) with true
        by (symmetry; apply Z.leb_le; lia).
      apply SFltb_key. unfold is_number, lex_lt. cbn.
      assert (Zpos m <> 2 ^ 52).
      { intros Em.
        assert (Hq : 2 ^ 52 * (Zpos P / 2 ^ 52) <= Zpos P)
          by (apply Z.mul_div_le; lia).
        rewrite HP, Em in *. nia. }
      change (Z.pow_pos 2 52) with (2 ^ 52). lia.
  - (* 106 digits: the exponent is kept and the mantissa shrinks *)
    assert (D : Zpos (digits2_pos P) = 106)
      by (apply digits2_pos_unique; [ change (106 - 1) with 105; lia | lia ]).
    pose proof (first_round P (ex + -53) 53) as F.
    rewrite D in F.
    destruct (shr_fexp prec emax (Zpos P) (ex + -53) loc_Exact)
      as [mrs' e'].
    destruct F as (-> & Flo & Fhi);
      [ unfold fexp, SpecFloat.emin, prec, emax in *; lia | ].
    set (r := round_nearest_even (shr_m mrs') (loc_of_shr_record mrs')) in *.
    assert (Q1 : 2 ^ 52 <= Zpos P / 2 ^ 53)
      by (apply Z.div_le_lower_bound; [ lia | ];
          change (2 ^ 53 * 2 ^ 52) with (2 ^ 105); lia).
    assert (Q2 : Zpos P / 2 ^ 53 < Zpos m - 1)
      by (apply Z.div_lt_upper_bound; [ lia | ]; nia).
    destruct (renormalize r (ex + -53 + 53)) as [(R1 & R2 & R3) | (R1 & R2 & R3)];
      [ lia | unfold SpecFloat.emin, prec, emax in *; lia | | lia ].
    destruct (shr_fexp prec emax r (ex + -53 + 53) loc_Exact)
      as [mrs'' e''].
    cbn [fst snd] in R2, R3. rewrite R2, R3.
    destruct r as [ | r' | r']; try lia.
    replace (ex + -53 + 53 <=? emax - prec) with true
      by (symmetry; apply Z.leb_le; lia).
    apply SFltb_key. unfold is_number, lex_lt. cbn. lia.
Qed.

End ProductRounding.

Lemma normalPositive_spec (x : float) :
  normalPositive x = true ->
  exists m e,
    Prim2SF x = S754_finite false m e
    /\ SpecFloat.bounded prec emax m e = true
    /\ (SpecFloat.emin prec emax < e)%Z.
Proof.
  unfold normalPositive. intros H.
  apply andb_true_iff in H. destruct H as [Hlo Hhi].
  apply leb_key in Hlo. apply ltb_key in Hhi.
  pose proof (Prim2SF_valid x) as V.
  unfold fkey in *.
  change (Prim2SF 0x1p-1021)
    with (S754_finite false 4503599627370496 (-1073)) in Hlo.
  change (Prim2SF infinity) with (S754_infinity false) in Hhi.
  unfold is_number, lex_lt in *.
  destruct (Prim2SF x) as [s | s | | s m e]; try destruct s;
    cbn [key fst snd] in *; try (exfalso; lia).
  exists m, e. cbn [SpecFloat.valid_binary] in V.
  repeat split; [ exact V | ].
  unfold SpecFloat.emin, prec, emax. lia.
Qed.

Lemma mul_factor_lt (x f : float) (M : positive) :
  Prim2SF f = S754_finite false M (-53) ->
  (2 ^ 52 <= Zpos M <= 2 ^ 53 - 4)%Z ->
  normalPositive x = true ->
  (x * f <? x) = true.
Proof.
  intros Hf HM Hx.
  apply normalPositive_spec in Hx. destruct Hx as (m & e & Ex & Hb & He).
  rewrite ltb_spec, mul_spec, Hf, Ex.
  now apply SFmul_factor_lt.
Qed.

(** Two percent, or one percent, under a normal positive price is below
    that price. *)
Lemma mul_098_lt (x : float) : normalPositive x = true -> (x * 0.98 <? x) = true.
Proof.
  apply (mul_factor_lt x 0.98 8827055269646172); [ reflexivity | cbn; lia ].
Qed.

Lemma mul_099_lt (x : float) : normalPositive x = true -> (x * 0.99 <? x) = true.
Proof.
  apply (mul_factor_lt x 0.99 8917127262193582); [ reflexivity | cbn; lia ].
Qed.

(* ===================================================================== *)
(** ** The risk-reward plan                                               *)
(* ===================================================================== *)

Lemma range_from_zero {A} (l : list A) :
  range 0 (len l) = map Z.of_nat (seq 0 (List.length l)).
Proof.
  unfold range, len.
  replace (Z.to_nat (Z.of_nat (List.length l) - 0)) with (List.length l)
    by lia.
  apply map_ext. intros k. lia.
Qed.

(** From the fourth resistance level on, the loop changes nothing. *)
Lemma adjustTargets_beyond resistances (ks : list nat) targets :
  Forall (fun k => (3 <= k)%nat) ks ->
  fold_left (fun s i => adjustTargets resistances i s) (map Z.of_nat ks)
            targets
  = targets.
Proof.
  induction 1 as [ | k ks Hk _ IH]; cbn [map fold_left]; [ reflexivity | ].
  rewrite <- IH at 2. f_equal.
  unfold adjustTargets. destruct targets as [[t1 t2] t3].
  replace (Z.of_nat k =? 0)%Z with false by (symmetry; apply Z.eqb_neq; lia).
  replace (Z.of_nat k =? 1)%Z with false by (symmetry; apply Z.eqb_neq; lia).
  replace (Z.of_nat k =? 2)%Z with false by (symmetry; apply Z.eqb_neq; lia).
  reflexivity.
Qed.

Lemma seq_from_3 n : Forall (fun k => (3 <= k)%nat) (seq 3 n).
Proof.
  apply Forall_forall. intros k Hk. apply in_seq in Hk. lia.
Qed.

Ltac step_targets :=
  repeat (cbn -[ltb mul]; unfold index, adjustTargets; cbn -[ltb mul];
          change (Pos.to_nat 1) with 1%nat;
          change (Pos.to_nat 2) with 2%nat;
          cbn -[ltb mul];
          try match goal with
            | |- context [if (?a <? ?b) then _ else _] => destruct (a <? b)
            end);
  reflexivity.

(** The loop caps each target by the resistance level of the same rank. *)
Lemma adjustTargets_loop resistances t1 t2 t3 :
  (if (len resistances >? 0)%Z
   then for_loop 0 (len resistances) (adjustTargets resistances) (t1, t2, t3)
   else (t1, t2, t3))
  = (capped t1 (nth_error resistances 0),
     capped t2 (nth_error resistances 1),
     capped t3 (nth_error resistances 2)).
Proof.
  unfold for_loop. rewrite range_from_zero.
  destruct resistances as [ | r0 [ | r1 [ | r2 rest]]].
  - reflexivity.
  - step_targets.
  - step_targets.
  - replace (len (r0 :: r1 :: r2 :: rest) >? 0)%Z with true
      by (unfold len; cbn [List.length]; symmetry; apply Z.gtb_lt; lia).
    cbn [List.length seq map fold_left].
    rewrite adjustTargets_beyond by apply seq_from_3.
    step_targets.
Qed.

Lemma supportStop_eq currentPrice technical :
  (if (len (Support technical) >? 0)%Z
   then index (Support technical) (len (Support technical) - 1) * 0.99
   else currentPrice * 0.98) = supportStop currentPrice technical.
Proof.
  unfold supportStop. rewrite index_last.
  destruct (Support technical) as [ | s l]; reflexivity.
Qed.

(** The plan, field by field, from the chosen stop. *)
Lemma calculateRiskReward_eq currentPrice technical capital maxRiskPercent :
  let stopLoss :=
    if (0 <? ATR technical)
       && (supportStop currentPrice technical
           <? atrStop currentPrice technical)
    then atrStop currentPrice technical
    else supportStop currentPrice technical in
  let risk := currentPrice - stopLoss in
  let target1 :=
    capped (currentPrice + risk * 2) (nth_error (Resistance technical) 0) in
  let target2 :=
    capped (currentPrice + risk * 3) (nth_error (Resistance technical) 1) in
  let target3 :=
    capped (currentPrice + risk * 5) (nth_error (Resistance technical) 2) in
  let size :=
    if 0 <? risk
    then int_of_float (capital * (maxRiskPercent / 100) / risk) else 0%Z in
  calculateRiskReward currentPrice technical capital maxRiskPercent =
  {| EntryPrice := currentPrice;
     StopLoss := stopLoss;
     Target1 := target1; Target2 := target2; Target3 := target3;
     RiskAmount := risk;
     RewardAmount := target1 - currentPrice;
     RiskRewardRatio := if 0 <? risk then (target1 - currentPrice) / risk
                        else 0;
     PositionSize := size;
     MaxLoss := risk * float64 size;
     MaxProfit := (target3 - currentPrice) * float64 size |}.
Proof.
  intros stopLoss risk target1 target2 target3 size.
  unfold calculateRiskReward.
  rewrite supportStop_eq.
  fold (atrStop currentPrice technical).
  replace (if 0 <? ATR technical
           then if supportStop currentPrice technical
                   <? atrStop currentPrice technical
                then atrStop currentPrice technical
                else supportStop currentPrice technical
           else supportStop currentPrice technical) with stopLoss
    by (subst stopLoss; destruct (0 <? ATR technical); reflexivity).
  fold risk.
  pose proof (adjustTargets_loop (Resistance technical)
                (currentPrice + risk * 2) (currentPrice + risk * 3)
                (currentPrice + risk * 5)) as L.
  unfold adjustTargets in L. rewrite L.
  reflexivity.
Qed.

Lemma StopLoss_calculateRiskReward currentPrice technical capital maxRisk :
  StopLoss (calculateRiskReward currentPrice technical capital maxRisk) =
  if (0 <? ATR technical)
     && (supportStop currentPrice technical <? atrStop currentPrice technical)
  then atrStop currentPrice technical
  else supportStop currentPrice technical.
Proof. rewrite calculateRiskReward_eq. reflexivity. Qed.

Lemma PositionSize_calculateRiskReward currentPrice technical capital maxRisk :
  let rr := calculateRiskReward currentPrice technical capital maxRisk in
  PositionSize rr =
  if 0 <? currentPrice - StopLoss rr
  then int_of_float (capital * (maxRisk / 100) / (currentPrice - StopLoss rr))
  else 0%Z.
Proof. cbv zeta. rewrite calculateRiskReward_eq. reflexivity. Qed.

Lemma findSupportResistance_sorted prices :
  StronglySorted not_after (fst (findSupportResistance prices)).
Proof.
  unfold findSupportResistance.
  destruct (len prices <? 20)%Z; [ constructor | ].
  destruct (for_loop _ _ _ _) as [support resistance].
  cbn [fst]. apply Float64s_sorted.
Qed.

Lemma Support_CalculateTechnicalIndicators prices volumes :
  Support (CalculateTechnicalIndicators prices volumes) =
  if (len prices <? 200)%Z then [] else fst (findSupportResistance prices).
Proof.
  unfold CalculateTechnicalIndicators.
  destruct (len prices <? 200)%Z; [ reflexivity | ].
  destruct (findSupportResistance prices) as [support resistance].
  destruct (determineTrend _ _) as [trend strength]. reflexivity.
Qed.

(** C1 (as amended).  The stop-loss of a risk-reward computation is 0.99
    times the last element of the support slice when there is one, and 0.98
    times the entry price otherwise; when ATR > 0 and the ATR stop
    (entry - 1.5 * ATR) is higher than that, the ATR stop replaces it.  The
    support slice computed by the indicator library is sorted in ascending
    order, so its last element is the highest detected support level: no
    detected level is greater. *)
Theorem stop_loss_from_highest_support :
  (forall currentPrice technical capital maxRiskPercent,
     StopLoss (calculateRiskReward currentPrice technical capital
                                   maxRiskPercent) =
     if (0 <? ATR technical)
        && (supportStop currentPrice technical
            <? atrStop currentPrice technical)
     then atrStop currentPrice technical
     else supportStop currentPrice technical)
  /\
  (forall prices volumes,
     let support := Support (CalculateTechnicalIndicators prices volumes) in
     Forall (fun s => (last support 0 <? s) = false) support).
Proof.
  split.
  - apply StopLoss_calculateRiskReward.
  - intros prices volumes support.
    assert (Hs : StronglySorted not_after support).
    { subst support. rewrite Support_CalculateTechnicalIndicators.
      destruct (len prices <? 200)%Z;
        [ constructor | apply findSupportResistance_sorted ]. }
    apply (sorted_last _ 0) in Hs.
    eapply Forall_impl; [ | exact Hs ].
    intros s. apply not_after_ltb.
Qed.

(** C1 (as stated) fails.  With support levels 90 and 99.5, an entry at
    100 and no ATR, the stop is 0.99 * 99.5, under the highest level, and not
    0.99 * 90.  So it is on the saw-tooth series, whose detected support
    levels are 90, 90 and 99.5: the engine puts the stop at 0.99 * 99.5,
    where the rule on the lowest level (0.99 * 90, raised to the ATR stop)
    gives another value. *)
Lemma stop_loss_not_from_lowest_support :
  (let rr := calculateRiskReward 100 (sampleTechnical [90; 99.5] [] 0)
                                 50000 2 in
   StopLoss rr = 99.5 * 0.99
   /\ (StopLoss rr =? 0.99 * 90) = false)
  /\
  (let technical :=
     CalculateTechnicalIndicators sawtoothPrices sawtoothVolumes in
   let rr := calculateRiskReward 100 technical 50000 2 in
   Support technical = [90; 90; 99.5]
   /\ lowest (Support technical) = 90
   /\ StopLoss rr = 99.5 * 0.99
   /\ specifiedStopLoss 100 technical = 100 - ATR technical * 1.5
   /\ (StopLoss rr =? specifiedStopLoss 100 technical) = false).
Proof. vm_compute. repeat split. Qed.

Lemma supportStop_below_entry currentPrice technical :
  entryCoversSupport currentPrice technical ->
  (supportStop currentPrice technical <? currentPrice) = true.
Proof.
  unfold entryCoversSupport, supportStop.
  destruct (Support technical) as [ | s l].
  - apply mul_098_lt.
  - intros [Hn Hle]. apply mul_099_lt in Hn.
    set (top := last (s :: l) 0) in *. float_order.
Qed.

(** C3 (as amended).  The stop-loss is strictly below the entry price when
    the stops it is chosen from are: the support-based stop (0.99 times the
    highest support level, or 0.98 times the entry price when no level was
    detected) and, when ATR > 0, the ATR stop (entry - 1.5 * ATR).  When the
    support-based stop is at or above the entry price, so is the stop-loss,
    whatever the ATR, and the position size is 0.  The support-based stop is
    below the entry price whenever no support level was detected and the
    entry price is a normal positive number, and whenever the highest
    detected support level is a normal positive number at most equal to the
    entry price. *)
Theorem stop_loss_below_entry :
  forall currentPrice technical capital maxRiskPercent,
    let rr := calculateRiskReward currentPrice technical capital
                                  maxRiskPercent in
    ((supportStop currentPrice technical <? currentPrice) = true ->
     ((0 <? ATR technical) = true ->
      (atrStop currentPrice technical <? currentPrice) = true) ->
     (StopLoss rr <? currentPrice) = true)
    /\
    ((currentPrice <=? supportStop currentPrice technical) = true ->
     (currentPrice <=? StopLoss rr) = true /\ PositionSize rr = 0%Z)
    /\
    (entryCoversSupport currentPrice technical ->
     (supportStop currentPrice technical <? currentPrice) = true).
Proof.
  intros currentPrice technical capital maxRiskPercent rr.
  assert (Hhigh : (currentPrice <=? supportStop currentPrice technical) = true
                  -> (currentPrice <=? StopLoss rr) = true).
  { subst rr. rewrite StopLoss_calculateRiskReward. intros Hs.
    destruct (0 <? ATR technical); cbn [andb]; [ | exact Hs ].
    destruct (supportStop currentPrice technical
              <? atrStop currentPrice technical) eqn:E; [ | exact Hs ].
    float_order. }
  split; [ | split ].
  - subst rr. rewrite StopLoss_calculateRiskReward. intros Hs Ha.
    destruct (0 <? ATR technical); cbn [andb]; [ | exact Hs ].
    destruct (supportStop currentPrice technical
              <? atrStop currentPrice technical); auto.
  - intros Hs. split; [ auto | ].
    subst rr. rewrite PositionSize_calculateRiskReward.
    rewrite sub_not_positive by auto. reflexivity.
  - apply supportStop_below_entry.
Qed.

(** The amended C3 at an entry of 100 with no indicators, at an entry of
    100 over a support level of 95 with an ATR of 2, and at an entry of 95
    under a support level of 99.5. *)
Lemma stop_loss_below_entry_witness :
  (StopLoss (calculateRiskReward 100 zeroTechnicalIndicators 50000 2)
   <? 100) = true
  /\ (StopLoss (calculateRiskReward 100 (sampleTechnical [95] [] 2) 50000 2)
      <? 100) = true
  /\ ((95 <=? StopLoss (calculateRiskReward 95 (sampleTechnical [99.5] [] 2)
                                            50000 2)) = true
      /\ PositionSize (calculateRiskReward 95 (sampleTechnical [99.5] [] 2)
                                           50000 2) = 0%Z).
Proof.
  split; [ | split ].
  - apply (proj1 (stop_loss_below_entry 100 zeroTechnicalIndicators 50000 2)).
    + apply (proj2 (proj2 (stop_loss_below_entry
                             100 zeroTechnicalIndicators 50000 2))).
      reflexivity.
    + discriminate.
  - apply (proj1 (stop_loss_below_entry
                    100 (sampleTechnical [95] [] 2) 50000 2)).
    + apply (proj2 (proj2 (stop_loss_below_entry
                             100 (sampleTechnical [95] [] 2) 50000 2))).
      split; reflexivity.
    + reflexivity.
  - apply (proj1 (proj2 (stop_loss_below_entry
                           95 (sampleTechnical [99.5] [] 2) 50000 2))).
    reflexivity.
Defined.

(** C3 (as stated) fails.  With a support level of 99.5 and a positive
    entry price of 95 the stop-loss is 0.99 * 99.5, above the entry, with or
    without an ATR.  The handler reaches this case on the saw-tooth series,
    whose highest support level is 99.5, when the quote is at 95: the plan of
    its answer has that stop, and a position size of 0. *)
Lemma stop_loss_above_entry :
  (0 <? 95) = true
  /\
  (let rr := calculateRiskReward 95 (sampleTechnical [99.5] [] 0) 50000 2 in
   StopLoss rr = 99.5 * 0.99 /\ (StopLoss rr <? 95) = false)
  /\
  (let rr := calculateRiskReward 95 (sampleTechnical [99.5] [] 2) 50000 2 in
   StopLoss rr = 99.5 * 0.99 /\ (StopLoss rr <? 95) = false)
  /\
  (exists analysis,
     analyzeTradeOpportunity "INFY" "NSE" "swing" "moderate" 50000 2
       (QuoteFound (sampleQuote 95)) (candles sawtoothPrices) 0
     = ToolResultResponse analysis
     /\ StopLoss (RiskReward analysis) = 99.5 * 0.99
     /\ (StopLoss (RiskReward analysis) <? 95) = false
     /\ (95 <? StopLoss (RiskReward analysis)) = true
     /\ PositionSize (RiskReward analysis) = 0%Z).
Proof.
  split; [ reflexivity | ].
  split; [ vm_compute; repeat split | ].
  split; [ vm_compute; repeat split | ].
  eexists. split; [ reflexivity | ].
  vm_compute. repeat split.
Qed.

(** C7.  With the entry above the stop-loss, the targets are the entry plus
    2, 3 and 5 times the risk (entry minus stop), each capped to 99.5% of the
    resistance level of the same rank when that level is below the raw
    target.  With an entry of 100, a stop of 98 and no resistance level the
    targets are 104, 106 and 110. *)
Theorem targets_from_risk :
  (forall currentPrice technical capital maxRiskPercent,
     let rr := calculateRiskReward currentPrice technical capital
                                   maxRiskPercent in
     let risk := currentPrice - StopLoss rr in
     (StopLoss rr <? currentPrice) = true ->
     Target1 rr = capped (currentPrice + risk * 2)
                         (nth_error (Resistance technical) 0)
     /\ Target2 rr = capped (currentPrice + risk * 3)
                            (nth_error (Resistance technical) 1)
     /\ Target3 rr = capped (currentPrice + risk * 5)
                            (nth_error (Resistance technical) 2))
  /\
  (forall technical capital maxRiskPercent,
     let rr := calculateRiskReward 100 technical capital maxRiskPercent in
     Resistance technical = [] ->
     StopLoss rr = 98 ->
     Target1 rr = 104 /\ Target2 rr = 106 /\ Target3 rr = 110).
Proof.
  split.
  - intros currentPrice technical capital maxRiskPercent rr risk _.
    subst risk rr. rewrite calculateRiskReward_eq. cbn. auto.
  - intros technical capital maxRiskPercent rr Hres Hstop.
    subst rr. rewrite calculateRiskReward_eq in *. cbn in *.
    rewrite Hres, Hstop. cbn. auto.
Qed.

(** C7 at an entry of 100 with no indicators: the stop is 98 and the targets
    are 104, 106 and 110; and with resistance levels 103 and 120, of which
    only the first is below its target. *)
Lemma targets_from_risk_witness :
  (let rr := calculateRiskReward 100 zeroTechnicalIndicators 50000 2 in
   Target1 rr = 104 /\ Target2 rr = 106 /\ Target3 rr = 110)
  /\
  (let rr := calculateRiskReward 100 (sampleTechnical [] [103; 120] 0)
                                 50000 2 in
   Target1 rr = 103 * 0.995 /\ Target2 rr = 106 /\ Target3 rr = 110).
Proof.
  split.
  - exact (proj2 targets_from_risk zeroTechnicalIndicators 50000 2
                 eq_refl eq_refl).
  - exact (proj1 targets_from_risk 100 (sampleTechnical [] [103; 120] 0)
                 50000 2 eq_refl).
Defined.

(** C2 (the code departs from it).  The plan of [calculateRiskReward] has no
    cap on the invested value: its position size is the risked amount
    divided by the risk per unit, truncated, whatever the capital.  With an
    entry of 100, no indicators (stop 98), a capital of 50000 and 2% of risk,
    the position is 500 units, which is the whole capital, and the maximal
    loss is 1000.  The position-sizing tool, on the same entry, stop and
    capital, shrinks the position to 165 units and recomputes the risk amount
    as 330. *)
Theorem position_size_not_capped :
  (forall currentPrice technical capital maxRiskPercent,
     let rr := calculateRiskReward currentPrice technical capital
                                   maxRiskPercent in
     PositionSize rr =
     if 0 <? currentPrice - StopLoss rr
     then int_of_float (capital * (maxRiskPercent / 100)
                        / (currentPrice - StopLoss rr))
     else 0%Z)
  /\
  (let rr := calculateRiskReward 100 zeroTechnicalIndicators 50000 2 in
   let position := calculateOptimalPosition 50000 100 98 "swing" 70 false in
   StopLoss rr = 98
   /\ PositionSize rr = 500%Z
   /\ MaxLoss rr = 1000
   /\ (50000 * 0.33 <? float64 (PositionSize rr) * 100) = true
   /\ PositionSize
        (RiskReward
           (performComprehensiveAnalysis
              {| InstrumentToken := 408065; LastPrice := 100;
                 AveragePrice := 100; Volume := 1000; NetChange := 0;
                 OI := 0; LowerCircuitLimit := 90; UpperCircuitLimit := 110;
                 Tradingsymbol := "INFY"; High := 101; Low := 99;
                 Open := 100; VolumeTraded := 1000 |}
              [] "swing" "moderate" 50000 2 0)) = 500%Z
   /\ recommended_position_size position = 165%Z
   /\ risk_amount position = 330
   /\ (investment_amount position <=? 50000 * 0.33) = true).
Proof.
  split.
  - apply PositionSize_calculateRiskReward.
  - vm_compute. repeat split.
Qed.

(* ===================================================================== *)
(** ** Indicators                                                         *)
(* ===================================================================== *)

(** C4 (as amended).  For a price series of fewer than 200 points, and any
    volume series, the indicator computation returns the zero value of the
    record: every number is 0 (the RSI too), every flag is false, every
    label is the empty string (the trend too), and there is no support or
    resistance level. *)
Theorem short_series_gives_zero_value :
  forall prices volumes : list float,
    (List.length prices < 200)%nat ->
    let indicators := CalculateTechnicalIndicators prices volumes in
    indicators = zeroTechnicalIndicators
    /\ RSI indicators = 0
    /\ Trend indicators = "".
Proof.
  intros prices volumes H indicators. subst indicators.
  unfold CalculateTechnicalIndicators.
  replace (len prices <? 200)%Z with true
    by (symmetry; apply Z.ltb_lt; unfold len; lia).
  repeat split.
Qed.

(** The amended C4 on 199 closes at 100. *)
Lemma short_series_gives_zero_value_witness :
  (List.length (repeat 100 199) < 200)%nat
  /\ CalculateTechnicalIndicators (repeat 100 199) (repeat 1000 199)
     = zeroTechnicalIndicators.
Proof.
  split.
  - vm_compute. lia.
  - apply (short_series_gives_zero_value (repeat 100 199) (repeat 1000 199)).
    vm_compute. lia.
Defined.

(** C4 (as stated) fails: on 199 closes the RSI is 0, not the neutral 50 of
    the RSI routine, and the trend label is empty, not "neutral". *)
Lemma short_series_not_neutral :
  let indicators :=
    CalculateTechnicalIndicators (repeat 100 199) (repeat 1000 199) in
  (RSI indicators =? 50) = false
  /\ (Trend indicators =? "neutral")%string = false
  /\ calculateRSI [] 14 = 50
  /\ determineTrend [] zeroTechnicalIndicators = ("neutral", 0).
Proof. vm_compute. repeat split. Qed.

Lemma slice_suffix {A} (earlier window : list A) :
  slice (earlier ++ window)
        (len (earlier ++ window) - len window) (len (earlier ++ window))
  = window.
Proof.
  unfold slice, len. rewrite length_app.
  replace (Z.to_nat (Z.of_nat (List.length earlier + List.length window)
                     - Z.of_nat (List.length window)))
    with (List.length earlier) by lia.
  replace (Z.to_nat (Z.of_nat (List.length earlier + List.length window)
                     - (Z.of_nat (List.length earlier + List.length window)
                        - Z.of_nat (List.length window))))
    with (List.length window) by lia.
  rewrite skipn_app, skipn_all, Nat.sub_diag. cbn [skipn app].
  apply firstn_all.
Qed.

(** The lowest and the highest of a window of equal closes. *)
Lemma flat_window_extremes (p : float) (n : nat) :
  for_range (repeat p n)
    (fun p '(lowest, highest) =>
       let lowest := if p <? lowest then p else lowest in
       let highest := if highest <? p then p else highest in
       (lowest, highest))
    (p, p) = (p, p).
Proof.
  unfold for_range. induction n as [ | n IH]; [ reflexivity | ].
  cbn [repeat fold_left]. destruct (p <? p); exact IH.
Qed.

(** C5 (the code departs from it).  When the last 14 closes are all equal,
    whatever comes before them and whatever their value, the highest and the
    lowest of the window coincide and %K is 0/0: NaN, which is no number of
    [0, 100].  So it is on the flat market of 200 closes at 100. *)
Theorem stochastic_flat_window_is_nan :
  (forall (earlier : list float) (p : float),
     K (calculateStochastic (earlier ++ repeat p 14) 14 3 3) = nan)
  /\ K (Stochastic (CalculateTechnicalIndicators flatPrices flatVolumes)) = nan
  /\ (0 <=? nan) = false
  /\ (nan <=? 100) = false.
Proof.
  split; [ | vm_compute; repeat split ].
  intros earlier p.
  unfold calculateStochastic.
  replace (len (earlier ++ repeat p 14) <? 14)%Z with false
    by (symmetry; apply Z.ltb_ge; unfold len;
        rewrite length_app, repeat_length; lia).
  rewrite index_last.
  pose proof (slice_suffix earlier (repeat p 14)) as S.
  change (len (repeat p 14)) with 14%Z in S. rewrite S.
  change (index (repeat p 14) 0) with p.
  rewrite flat_window_extremes.
  cbn [K].
  replace (last (earlier ++ repeat p 14) 0) with p.
  - rewrite self_quotient_nan. reflexivity.
  - change (repeat p 14) with (p :: repeat p 13).
    rewrite repeat_cons, app_assoc. symmetry. apply last_last.
Qed.

Lemma calculateEMA_single (x : float) : calculateEMA [x] 9 = 0.
Proof. reflexivity. Qed.

(** C6 (as amended).  For a price series of at least 26 points the MACD
    line is EMA(12) - EMA(26); the signal value is 0, because the 9-period
    EMA of the one-element slice holding the MACD value falls under the
    guard for fewer than 9 points; the histogram therefore equals the MACD
    line. *)
Theorem macd_signal_is_zero :
  forall prices : list float,
    (26 <= List.length prices)%nat ->
    let macd := calculateMACD prices in
    Signal macd = 0
    /\ MACD_ macd = calculateEMA prices 12 - calculateEMA prices 26
    /\ Histogram macd = MACD_ macd.
Proof.
  intros prices H macd. subst macd.
  unfold calculateMACD.
  replace (len prices <? 26)%Z with false
    by (symmetry; apply Z.ltb_ge; unfold len; lia).
  rewrite calculateEMA_single. cbn [Signal MACD_ Histogram].
  rewrite sub_zero. repeat split.
Qed.

(** The amended C6 on the closes 1, ..., 26. *)
Lemma macd_signal_is_zero_witness :
  (26 <= List.length risingPrices)%nat
  /\ Signal (calculateMACD risingPrices) = 0
  /\ Histogram (calculateMACD risingPrices)
     = MACD_ (calculateMACD risingPrices).
Proof.
  assert (H : (26 <= List.length risingPrices)%nat) by (vm_compute; lia).
  split; [ exact H | ].
  pose proof (macd_signal_is_zero risingPrices H) as (Hs & _ & Hh).
  split; assumption.
Defined.

(** C6 (as stated) fails: on the closes 1, ..., 26 the MACD line is 7 and
    the signal value is 0. *)
Lemma macd_signal_differs_from_macd :
  let macd := calculateMACD risingPrices in
  MACD_ macd = 7
  /\ Signal macd = 0
  /\ (Signal macd =? MACD_ macd) = false.
Proof. vm_compute. repeat split. Qed.

(* ===================================================================== *)
(** ** Trade signal                                                       *)
(* ===================================================================== *)

(** On the analysis it is handed, the signal generator applies the decision
    table over the bullish score, the bearish score and the confidence:
    BUY/strong when bullish > 70 and confidence > 75; otherwise BUY/moderate
    when bullish > 60 and confidence > 65; otherwise SELL/strong when
    bearish > 70 and confidence > 75; otherwise HOLD/weak. *)
Lemma GenerateTradeSignal_decisionTable :
  forall (analysis : MarketAnalysis) (riskTolerance : string),
    let signal := GenerateTradeSignal analysis riskTolerance in
    (Action signal, Strength signal) =
    decisionTable (BullishScore (Technical analysis))
                  (BearishScore (Technical analysis))
                  (Confidence analysis).
Proof.
  intros analysis riskTolerance signal. subst signal.
  unfold GenerateTradeSignal, decisionTable.
  destruct ((70 <? BullishScore (Technical analysis))
            && (75 <? Confidence analysis)); [ reflexivity | ].
  destruct ((60 <? BullishScore (Technical analysis))
            && (65 <? Confidence analysis)); [ reflexivity | ].
  destruct ((70 <? BearishScore (Technical analysis))
            && (75 <? Confidence analysis)); reflexivity.
Qed.

(** In the analysis pipeline the signal is generated while the confidence
    of the analysis is still 0 (it is assigned on the next line), so the
    decision table always lands on its last row there. *)
Remark pipeline_signal_is_hold :
  forall (quoteData : QuoteData)
         (historicalData : list kiteconnect.HistoricalData)
         (timeframe riskTolerance : string) (capital maxRiskPercent : float)
         (now : Z),
    let analysis :=
      performComprehensiveAnalysis quoteData historicalData timeframe
        riskTolerance capital maxRiskPercent now in
    Action (TradeSignal_ analysis) = "HOLD"
    /\ Strength (TradeSignal_ analysis) = "weak".
Proof.
  intros. subst analysis.
  unfold performComprehensiveAnalysis, GenerateTradeSignal.
  cbn [TradeSignal_ Confidence].
  change (75 <? 0) with false. change (65 <? 0) with false.
  rewrite !andb_false_r. split; reflexivity.
Qed.

(** C8 (the code departs from it).  [GenerateTradeSignal] applies the
    decision table to the analysis it is handed, but the analysis pipeline,
    its only caller, hands it the analysis before the overall confidence is
    assigned (the confidence is computed and stored on the lines that
    follow): the table is read with a confidence of 0, and the signal of
    every emitted analysis is HOLD/weak, whatever the scores and the
    confidence that the same analysis carries.  On the rising market of 220
    candles the emitted analysis has a bullish score of 75, a bearish score
    of 25 and a confidence of 75, for which the decision table gives
    BUY/moderate; its signal is HOLD/weak. *)
Theorem emitted_signal_ignores_confidence :
  (forall (analysis : MarketAnalysis) (riskTolerance : string),
     let signal := GenerateTradeSignal analysis riskTolerance in
     (Action signal, Strength signal) =
     decisionTable (BullishScore (Technical analysis))
                   (BearishScore (Technical analysis))
                   (Confidence analysis))
  /\
  (forall (quoteData : QuoteData)
          (historicalData : list kiteconnect.HistoricalData)
          (timeframe riskTolerance : string) (capital maxRiskPercent : float)
          (now : Z),
     let analysis :=
       performComprehensiveAnalysis quoteData historicalData timeframe
         riskTolerance capital maxRiskPercent now in
     (Action (TradeSignal_ analysis), Strength (TradeSignal_ analysis))
     = ("HOLD", "weak")
     /\ (Action (TradeSignal_ analysis), Strength (TradeSignal_ analysis))
        = decisionTable (BullishScore (Technical analysis))
                        (BearishScore (Technical analysis)) 0)
  /\
  (let analysis :=
     performComprehensiveAnalysis risingQuote risingHistory "swing"
       "moderate" 100000 2 0 in
   BullishScore (Technical analysis) = 75
   /\ BearishScore (Technical analysis) = 25
   /\ Confidence analysis = 75
   /\ decisionTable (BullishScore (Technical analysis))
                    (BearishScore (Technical analysis))
                    (Confidence analysis) = ("BUY", "moderate")
   /\ (Action (TradeSignal_ analysis), Strength (TradeSignal_ analysis))
      = ("HOLD", "weak")).
Proof.
  split; [ exact GenerateTradeSignal_decisionTable | ].
  split.
  - intros quoteData historicalData timeframe riskTolerance capital
           maxRiskPercent now analysis.
    destruct (pipeline_signal_is_hold quoteData historicalData timeframe
                riskTolerance capital maxRiskPercent now) as [Ha Hs].
    fold analysis in Ha, Hs. rewrite Ha, Hs.
    split; [ reflexivity | ].
    unfold decisionTable.
    change (75 <? 0) with false. change (65 <? 0) with false.
    rewrite !andb_false_r. reflexivity.
  - vm_compute. repeat split.
Qed.


Lemma calculatePriority_range (signal : TradeSignal)
  (analysis : MarketAnalysis) :
  (3 <= calculatePriority signal analysis <= 10)%Z.
Proof.
  unfold calculatePriority.
  destruct (Strength signal =? "strong")%string,
           (Strength signal =? "moderate")%string,
           (80 <? Confidence analysis), (70 <? Confidence analysis),
           (3 <? RiskRewardRatio (RiskReward analysis)),
           (len (Warnings signal) >? 2)%Z, (len (Warnings signal) >? 0)%Z;
    cbn; lia.
Qed.

Lemma Priority_GenerateTradeSignal (analysis : MarketAnalysis)
  (riskTolerance : string) :
  exists signal,
    Priority (GenerateTradeSignal analysis riskTolerance)
    = calculatePriority signal analysis.
Proof.
  unfold GenerateTradeSignal.
  destruct ((70 <? BullishScore (Technical analysis))
            && (75 <? Confidence analysis));
    [ | destruct ((60 <? BullishScore (Technical analysis))
                  && (65 <? Confidence analysis));
        [ | destruct ((70 <? BearishScore (Technical analysis))
                      && (75 <? Confidence analysis)) ] ];
    cbn [Priority]; eexists; reflexivity.
Qed.

(** C10.  The priority computed for a signal lies between 3 and 10: from
    the base of 5 at most 2 is taken away, so the lower clamp to 1 is never
    reached.  This holds for [calculatePriority] on any signal and analysis,
    and so for the priority of every generated trade signal. *)
Theorem priority_between_3_and_10 :
  (forall (signal : TradeSignal) (analysis : MarketAnalysis),
     (3 <= calculatePriority signal analysis <= 10)%Z)
  /\
  (forall (analysis : MarketAnalysis) (riskTolerance : string),
     (3 <= Priority (GenerateTradeSignal analysis riskTolerance) <= 10)%Z).
Proof.
  split.
  - apply calculatePriority_range.
  - intros analysis riskTolerance.
    destruct (Priority_GenerateTradeSignal analysis riskTolerance)
      as [signal ->].
    apply calculatePriority_range.
Qed.

(* ===================================================================== *)
(** ** The handler                                                        *)
(* ===================================================================== *)

(** C9 (as amended).  Once the arguments are read, the handler fails only
    when the quote cannot be fetched or is missing.  Whenever a quote is
    found it answers with the analysis, whatever the capital and the entry
    price (negative, zero or positive): the risk-reward plan of the answer
    is the one computed from the quote's last price and the capital as they
    are, and the trade signal is the one generated from it. *)
Theorem analysis_without_validation :
  forall (symbol exchange timeframe riskTolerance : string)
         (capital maxRiskPercent : float) (lookup : QuoteLookup)
         (historicalData : list kiteconnect.HistoricalData) (now : Z),
    match lookup with
    | QuoteFound quote =>
        exists analysis,
          analyzeTradeOpportunity symbol exchange timeframe riskTolerance
            capital maxRiskPercent lookup historicalData now
          = ToolResultResponse analysis
          /\ RiskReward analysis
             = calculateRiskReward (kiteconnect.LastPrice quote)
                 (Technical analysis) capital maxRiskPercent
          /\ exists before,
               TradeSignal_ analysis = GenerateTradeSignal before riskTolerance
               /\ RiskReward before = RiskReward analysis
    | GetQuoteFailed | NoQuote =>
        exists text,
          analyzeTradeOpportunity symbol exchange timeframe riskTolerance
            capital maxRiskPercent lookup historicalData now
          = ToolResultError text
    end.
Proof.
  intros symbol exchange timeframe riskTolerance capital maxRiskPercent
         lookup historicalData now.
  destruct lookup as [ | | quote]; cbn [analyzeTradeOpportunity].
  - eexists; reflexivity.
  - eexists; reflexivity.
  - eexists. split; [ reflexivity | ].
    unfold performComprehensiveAnalysis.
    cbn [RiskReward Technical TradeSignal_ LastPrice].
    split; [ reflexivity | ].
    eexists. split; reflexivity.
Qed.

(** C9 (as stated) fails: with a capital of -50000 and an entry price of
    100 the handler answers with a plan whose position size is -500, and
    with an entry price of -5 and a capital of 50000 it answers with a plan
    whose stop-loss is above the entry; both answers carry a trade
    signal. *)
Lemma negative_inputs_are_analysed :
  exists negativeCapital negativeEntry : MarketAnalysis,
    analyzeTradeOpportunity "INFY" "NSE" "swing" "moderate" (-50000) 2
      (QuoteFound (sampleQuote 100)) [] 0
    = ToolResultResponse negativeCapital
    /\ PositionSize (RiskReward negativeCapital) = (-500)%Z
    /\ Action (TradeSignal_ negativeCapital) = "HOLD"
    /\ analyzeTradeOpportunity "INFY" "NSE" "swing" "moderate" 50000 2
         (QuoteFound (sampleQuote (-5))) [] 0
       = ToolResultResponse negativeEntry
    /\ EntryPrice (RiskReward negativeEntry) = -5
    /\ StopLoss (RiskReward negativeEntry) = -5 * 0.98
    /\ (EntryPrice (RiskReward negativeEntry)
        <? StopLoss (RiskReward negativeEntry)) = true
    /\ Action (TradeSignal_ negativeEntry) = "HOLD".
Proof.
  eexists. eexists.
  split; [ reflexivity | ].
  vm_compute. repeat split.
Qed.

(* ===================================================================== *)
(** ** Further properties of the signal generator                         *)
(* ===================================================================== *)

(** Case analysis on the first test of the goal; a test between constants
    keeps only the branch it evaluates to. *)
Ltac break_if :=
  match goal with
  | |- context [if ?c then _ else _] =>
      let E := fresh "E" in
      destruct c eqn:E;
      try solve [ vm_compute in E; discriminate E ];
      clear E
  end.

(** X1.  Whatever the analysis, a generated signal has one of three
    shapes.  A BUY carries a timeframe among intraday, swing and positional,
    the holding period of that timeframe (never the default "5-7 days"), at
    least one reason and at most two warnings.  A SELL or a HOLD carries the
    strategy "Wait for better entry", no expected return, no timeframe and no
    holding period; a SELL has exactly one reason and at most three warnings,
    a HOLD no reason and at most two warnings. *)
Theorem signal_shapes :
  forall (analysis : MarketAnalysis) (riskTolerance : string),
    let signal := GenerateTradeSignal analysis riskTolerance in
    (Action signal = "BUY"
     /\ In (Timeframe signal) ["intraday"; "swing"; "positional"]
     /\ In (HoldingPeriod signal) ["1-2 days"; "3-10 days"; "2-4 weeks"]
     /\ HoldingPeriod signal = estimateHoldingPeriod (Timeframe signal)
     /\ (1 <= List.length (Reasons signal))%nat
     /\ (List.length (Warnings signal) <= 2)%nat)
    \/
    (Action signal = "SELL"
     /\ Strategy signal = "Wait for better entry"
     /\ ExpectedReturn signal = 0
     /\ Timeframe signal = "" /\ HoldingPeriod signal = ""
     /\ List.length (Reasons signal) = 1%nat
     /\ (List.length (Warnings signal) <= 3)%nat)
    \/
    (Action signal = "HOLD"
     /\ Strategy signal = "Wait for better entry"
     /\ ExpectedReturn signal = 0
     /\ Timeframe signal = "" /\ HoldingPeriod signal = ""
     /\ Reasons signal = []
     /\ (List.length (Warnings signal) <= 2)%nat).
Proof.
  intros analysis riskTolerance signal. subst signal.
  unfold GenerateTradeSignal.
  destruct ((70 <? BullishScore (Technical analysis))
            && (75 <? Confidence analysis));
    [ | destruct ((60 <? BullishScore (Technical analysis))
                  && (65 <? Confidence analysis));
        [ | destruct ((70 <? BearishScore (Technical analysis))
                      && (75 <? Confidence analysis)) ] ].
  - left. unfold determineTimeframe.
    repeat break_if; cbn; rewrite ?length_app; cbn;
      repeat split; auto 6; lia.
  - left. unfold determineTimeframe.
    repeat break_if; cbn; repeat split; auto 6.
  - right; left.
    repeat break_if; cbn; repeat split; lia.
  - right; right.
    repeat break_if; cbn; repeat split; lia.
Qed.

(** With a confidence of 0 no row of the decision chain that needs a
    confidence above 65 can fire. *)
Lemma GenerateTradeSignal_zero_confidence (analysis : MarketAnalysis)
  (riskTolerance : string) :
  Confidence analysis = 0 ->
  let signal := GenerateTradeSignal analysis riskTolerance in
  Action signal = "HOLD"
  /\ Strength signal = "weak"
  /\ Strategy signal = "Wait for better entry"
  /\ Reasons signal = []
  /\ ExpectedReturn signal = 0
  /\ Timeframe signal = "" /\ HoldingPeriod signal = ""
  /\ (4 <= Priority signal <= 6)%Z.
Proof.
  intros H signal. subst signal.
  unfold GenerateTradeSignal. rewrite H.
  change (75 <? 0) with false. change (65 <? 0) with false.
  rewrite !andb_false_r.
  cbn [Action Strength Strategy Reasons ExpectedReturn Timeframe
       HoldingPeriod Priority].
  repeat split; try reflexivity;
    unfold calculatePriority; cbn [Strength Warnings]; rewrite H;
    change (80 <? 0) with false; change (70 <? 0) with false;
    destruct (5 <? Width (BollingerBands (Technical analysis))),
             (RiskRewardRatio (RiskReward analysis) <? 2),
             (3 <? RiskRewardRatio (RiskReward analysis));
    vm_compute; discriminate.
Qed.

(** X2.  The analysis pipeline generates the signal while the confidence of
    the analysis is still 0, so whatever the quote, the candles, the capital
    and the risk percentage, the signal of a comprehensive analysis is a
    HOLD of weak strength with the strategy "Wait for better entry", no
    reason, no expected return, no timeframe and no holding period, and a
    priority between 4 and 6. *)
Theorem pipeline_signal_never_trades :
  forall (quoteData : QuoteData)
         (historicalData : list kiteconnect.HistoricalData)
         (timeframe riskTolerance : string) (capital maxRiskPercent : float)
         (now : Z),
    let signal :=
      TradeSignal_
        (performComprehensiveAnalysis quoteData historicalData timeframe
           riskTolerance capital maxRiskPercent now) in
    Action signal = "HOLD"
    /\ Strength signal = "weak"
    /\ Strategy signal = "Wait for better entry"
    /\ Reasons signal = []
    /\ ExpectedReturn signal = 0
    /\ Timeframe signal = "" /\ HoldingPeriod signal = ""
    /\ (4 <= Priority signal <= 6)%Z.
Proof.
  intros. subst signal.
  unfold performComprehensiveAnalysis. cbn [TradeSignal_].
  apply GenerateTradeSignal_zero_confidence. reflexivity.
Qed.

(** X3.  The overall confidence is always between 50 and 100 (the bonuses
    add up to 50 at most, so the clamp at 100 is never needed); in the
    analysis pipeline, whose fundamental score is 70 and sentiment score 60,
    neither of which exceeds 70, it is at most 85. *)
Theorem confidence_range :
  (forall analysis : MarketAnalysis,
     (50 <=? calculateConfidence analysis) = true
     /\ (calculateConfidence analysis <=? 100) = true)
  /\
  (forall (quoteData : QuoteData)
          (historicalData : list kiteconnect.HistoricalData)
          (timeframe riskTolerance : string) (capital maxRiskPercent : float)
          (now : Z),
     let analysis :=
       performComprehensiveAnalysis quoteData historicalData timeframe
         riskTolerance capital maxRiskPercent now in
     (50 <=? Confidence analysis) = true
     /\ (Confidence analysis <=? 85) = true).
Proof.
  split.
  - intros analysis. unfold calculateConfidence.
    destruct (70 <? BullishScore (Technical analysis)),
             (60 <? BullishScore (Technical analysis)),
             ((Trend (Technical analysis) =? "bullish")%string
              && (60 <? TrendStrength (Technical analysis))),
             (3 <? RiskRewardRatio (RiskReward analysis)),
             (2 <? RiskRewardRatio (RiskReward analysis)),
             (70 <? FundamentalScore (Fundamental analysis)),
             (70 <? SentimentScore (Sentiment analysis));
      vm_compute; split; reflexivity.
  - intros. subst analysis.
    unfold performComprehensiveAnalysis. cbn [Confidence].
    unfold calculateConfidence.
    cbn [Technical RiskReward Fundamental Sentiment FundamentalScore
         SentimentScore].
    change (70 <? 70) with false. change (70 <? 60) with false.
    match goal with
    | |- context [calculateRiskReward ?p ?t ?c ?m] =>
        generalize (calculateRiskReward p t c m)
    end.
    match goal with
    | |- context [set_VWAP ?t ?v] => generalize (set_VWAP t v)
    end.
    intros technical rr.
    destruct (70 <? BullishScore technical),
             (60 <? BullishScore technical),
             ((Trend technical =? "bullish")%string
              && (60 <? TrendStrength technical)),
             (3 <? RiskRewardRatio rr),
             (2 <? RiskRewardRatio rr);
      vm_compute; split; reflexivity.
Qed.

(* ===================================================================== *)
(** ** Further properties of the indicators                               *)
(* ===================================================================== *)

(** The trend is one of three labels. *)
Lemma determineTrend_labels :
  forall (prices : list float) (indicators : TechnicalIndicators),
    In (fst (determineTrend prices indicators))
       ["bullish"; "bearish"; "neutral"].
Proof.
  intros prices indicators. unfold determineTrend.
  destruct (len prices <? 50)%Z; [ cbn; auto | ].
  cbv zeta. repeat break_if; cbn; auto.
Qed.

(** X4.  Whatever the prices and the indicators, the trend comes with a
    strength between 0 and 100: a bullish or a bearish trend has a strength
    of at least 50, a neutral one a strength of at most 34. *)
Theorem trend_strength_range :
  forall (prices : list float) (indicators : TechnicalIndicators),
    let trend := fst (determineTrend prices indicators) in
    let strength := snd (determineTrend prices indicators) in
    ((trend = "bullish" \/ trend = "bearish")
     /\ (50 <=? strength) = true /\ (strength <=? 100) = true)
    \/
    (trend = "neutral"
     /\ (0 <=? strength) = true /\ (strength <=? 34) = true).
Proof.
  intros prices indicators trend strength. subst trend strength.
  unfold determineTrend.
  destruct (len prices <? 50)%Z.
  - right. vm_compute. repeat split.
  - destruct ((SMA20 indicators <? index prices (len prices - 1))
              && (SMA50 indicators <? SMA20 indicators)
              && (SMA200 indicators <? SMA50 indicators)),
             ((index prices (len prices - 1) <? SMA20 indicators)
              && (SMA20 indicators <? SMA50 indicators)
              && (SMA50 indicators <? SMA200 indicators)),
             (calculateSMA (slice prices (len prices - 40) (len prices - 20))
                           20
              <? calculateSMA (slice prices (len prices - 20) (len prices))
                              20),
             (0 <? Histogram (MACD indicators));
      cbv zeta; cbn [fst snd];
      first [ left; split; [ (left; reflexivity) || (right; reflexivity)
                           | vm_compute; split; reflexivity ]
            | right; split; [ reflexivity
                            | vm_compute; split; reflexivity ] ].
Qed.


(** X5.  For a series of at least 200 points every label of the indicators
    is one of its documented values: the trend is bullish, bearish or
    neutral, the MACD crossover bullish, bearish or none, the candlestick
    pattern bullish_engulfing, bearish_engulfing, doji or none, and the chart
    pattern triangle, channel or none. *)
Theorem labels_of_long_series :
  forall prices volumes : list float,
    (200 <= List.length prices)%nat ->
    let indicators := CalculateTechnicalIndicators prices volumes in
    In (Trend indicators) ["bullish"; "bearish"; "neutral"]
    /\ In (Crossover (MACD indicators)) ["bullish"; "bearish"; "none"]
    /\ In (CandlePattern indicators)
          ["bullish_engulfing"; "bearish_engulfing"; "doji"; "none"]
    /\ In (ChartPattern indicators) ["triangle"; "channel"; "none"].
Proof.
  intros prices volumes H indicators. subst indicators.
  unfold CalculateTechnicalIndicators.
  replace (len prices <? 200)%Z with false
    by (symmetry; apply Z.ltb_ge; unfold len; lia).
  destruct (findSupportResistance prices) as [support resistance].
  match goal with
  | |- context [determineTrend prices ?i] =>
      pose proof (determineTrend_labels prices i) as T;
      destruct (determineTrend prices i) as [trend strength]
  end.
  cbn [fst snd] in T.
  cbn [set_Trend set_CandlePattern set_ChartPattern set_VolumeProfile
       set_BullishScore set_BearishScore Trend MACD CandlePattern
       ChartPattern].
  repeat split.
  - destruct T as [<- | [<- | [<- | []]]]; cbn; auto.
  - unfold calculateMACD.
    replace (len prices <? 26)%Z with false
      by (symmetry; apply Z.ltb_ge; unfold len; lia).
    cbn [Crossover]. repeat break_if; cbn; auto.
  - unfold detectCandlePattern. repeat break_if; cbn; auto.
  - unfold detectChartPattern.
    destruct (len prices <? 50)%Z; [ cbn; auto | ].
    destruct (for_range _ _ _) as [highs lows].
    repeat break_if; cbn; auto.
Qed.

(** X5 on the saw-tooth series. *)
Lemma labels_of_long_series_witness :
  (200 <= List.length sawtoothPrices)%nat
  /\ In (Trend (CalculateTechnicalIndicators sawtoothPrices sawtoothVolumes))
        ["bullish"; "bearish"; "neutral"].
Proof.
  assert (H : (200 <= List.length sawtoothPrices)%nat) by (vm_compute; lia).
  split; [ exact H | ].
  apply (labels_of_long_series sawtoothPrices sawtoothVolumes H).
Defined.

Lemma ltb_neg_zero (x : float) : (x <? -0) = (x <? 0).
Proof.
  rewrite !ltb_spec.
  change (Prim2SF (-0)) with (S754_zero true).
  change (Prim2SF 0) with (S754_zero false).
  destruct (Prim2SF x) as [s | s | | s m e]; reflexivity.
Qed.

(** X6.  For a series of at least 26 points the MACD crossover label is the
    sign of the MACD line: bullish when the line is above 0, bearish when it
    is below 0, none otherwise.  (The signal value being 0, the comparison of
    the histogram with 1% of the signal compares the line with 0.) *)
Theorem macd_crossover_is_sign :
  forall prices : list float,
    (26 <= List.length prices)%nat ->
    let macd := calculateMACD prices in
    Crossover macd =
    if 0 <? MACD_ macd then "bullish"
    else if MACD_ macd <? 0 then "bearish"
    else "none".
Proof.
  intros prices H macd. subst macd.
  unfold calculateMACD.
  replace (len prices <? 26)%Z with false
    by (symmetry; apply Z.ltb_ge; unfold len; lia).
  rewrite calculateEMA_single. cbn [Crossover MACD_].
  rewrite sub_zero.
  change (0 * 0.01) with 0. change (0 * -0.01) with (-0).
  rewrite ltb_neg_zero.
  set (line := calculateEMA prices 12 - calculateEMA prices 26).
  destruct (0 <? line), (line <? 0); reflexivity.
Qed.

(** X6 on the closes 1, ..., 26, whose MACD line is 7. *)
Lemma macd_crossover_is_sign_witness :
  (26 <= List.length risingPrices)%nat
  /\ Crossover (calculateMACD risingPrices) = "bullish".
Proof.
  assert (H : (26 <= List.length risingPrices)%nat) by (vm_compute; lia).
  split; [ exact H | ].
  exact (macd_crossover_is_sign risingPrices H).
Defined.

(* ===================================================================== *)
(** ** Loops and moving averages                                          *)
(* ===================================================================== *)

Lemma range_shift (lo hi d : Z) :
  range (lo + d) (hi + d) = map (fun i => (i + d)%Z) (range lo hi).
Proof.
  unfold range. rewrite map_map.
  replace (hi + d - (lo + d))%Z with (hi - lo)%Z by lia.
  apply map_ext. intros k. lia.
Qed.

Lemma range_snoc (lo hi : Z) :
  (lo <= hi)%Z -> range lo (hi + 1) = (range lo hi ++ [hi])%list.
Proof.
  intros H. unfold range.
  replace (Z.to_nat (hi + 1 - lo)) with (Z.to_nat (hi - lo) + 1)%nat by lia.
  rewrite seq_app, map_app. cbn [seq map]. do 2 f_equal. lia.
Qed.

Lemma range_bounds (lo hi i : Z) : In i (range lo hi) -> (lo <= i < hi)%Z.
Proof.
  unfold range. intros H. apply in_map_iff in H.
  destruct H as (k & <- & Hk). apply in_seq in Hk. lia.
Qed.

Lemma for_loop_shift {S} (lo hi d : Z) (body : Z -> S -> S) (s : S) :
  for_loop (lo + d) (hi + d) body s
  = for_loop lo hi (fun i => body (i + d)%Z) s.
Proof.
  unfold for_loop. rewrite range_shift.
  generalize (range lo hi). intros l. revert s.
  induction l as [ | i l IH]; intros s; cbn; [ reflexivity | apply IH ].
Qed.

Lemma for_loop_snoc {S} (lo hi : Z) (body : Z -> S -> S) (s : S) :
  (lo <= hi)%Z ->
  for_loop lo (hi + 1) body s = body hi (for_loop lo hi body s).
Proof.
  intros H. unfold for_loop. rewrite range_snoc by exact H.
  rewrite fold_left_app. reflexivity.
Qed.

Lemma for_loop_ext {S} (lo hi : Z) (body1 body2 : Z -> S -> S) (s : S) :
  (forall i s', (lo <= i < hi)%Z -> body1 i s' = body2 i s') ->
  for_loop lo hi body1 s = for_loop lo hi body2 s.
Proof.
  intros H. unfold for_loop.
  assert (B : forall i, In i (range lo hi) -> (lo <= i < hi)%Z)
    by apply range_bounds.
  revert s B. generalize (range lo hi). intros l.
  induction l as [ | i l IH]; intros s B; cbn; [ reflexivity | ].
  rewrite H by (apply B; now left).
  apply IH. intros j Hj. apply B. now right.
Qed.

(** A property kept by every turn of a loop holds when the loop ends. *)
Lemma for_loop_invariant {S} (P : S -> Prop) (lo hi : Z)
  (body : Z -> S -> S) (s : S) :
  P s ->
  (forall i s', (lo <= i < hi)%Z -> P s' -> P (body i s')) ->
  P (for_loop lo hi body s).
Proof.
  intros H0 Hstep. unfold for_loop.
  assert (B : forall i, In i (range lo hi) -> (lo <= i < hi)%Z)
    by apply range_bounds.
  revert s H0 B. generalize (range lo hi). intros l.
  induction l as [ | i l IH]; intros s H0 B; cbn; [ exact H0 | ].
  apply IH.
  - apply Hstep; [ apply B; now left | exact H0 ].
  - intros j Hj. apply B. now right.
Qed.

Lemma for_range_invariant {A S} (P : S -> Prop) (l : list A)
  (body : A -> S -> S) (s : S) :
  P s ->
  (forall x s', In x l -> P s' -> P (body x s')) ->
  P (for_range l body s).
Proof.
  unfold for_range. revert s.
  induction l as [ | x l IH]; intros s H0 Hstep; cbn; [ exact H0 | ].
  apply IH.
  - apply Hstep; [ now left | exact H0 ].
  - intros y s' Hy. apply Hstep. now right.
Qed.

Lemma len_app {A} (l1 l2 : list A) : len (l1 ++ l2) = (len l1 + len l2)%Z.
Proof. unfold len. rewrite length_app. lia. Qed.

Lemma len_nonneg {A} (l : list A) : (0 <= len l)%Z.
Proof. unfold len. lia. Qed.

Lemma index_app_right (earlier window : list float) (k : Z) :
  (0 <= k)%Z -> index (earlier ++ window) (k + len earlier) = index window k.
Proof.
  intros H. unfold index, len.
  rewrite app_nth2 by lia. f_equal. lia.
Qed.

Lemma index_app_left (l1 l2 : list float) (i : Z) :
  (0 <= i < len l1)%Z -> index (l1 ++ l2) i = index l1 i.
Proof.
  intros H. unfold index, len in *. apply app_nth1. lia.
Qed.

Lemma index_In (l : list float) (i : Z) :
  (0 <= i < len l)%Z -> In (index l i) l.
Proof.
  intros H. unfold index, len in *. apply nth_In. lia.
Qed.

(** X7.  The simple moving average of period N reads only the last N
    points: whatever precedes them does not change it. *)
Theorem sma_reads_last_points :
  forall earlier window : list float,
    calculateSMA (earlier ++ window) (len window)
    = calculateSMA window (len window).
Proof.
  intros earlier window. unfold calculateSMA.
  pose proof (len_nonneg earlier) as He.
  replace (len (earlier ++ window) <? len window)%Z with false
    by (symmetry; apply Z.ltb_ge; rewrite len_app; lia).
  rewrite Z.ltb_irrefl. f_equal.
  rewrite len_app.
  replace (len earlier + len window - len window)%Z
    with (0 + len earlier)%Z by lia.
  rewrite (Z.add_comm (len earlier) (len window)).
  rewrite for_loop_shift, Z.sub_diag.
  apply for_loop_ext. intros i s Hi.
  rewrite index_app_right by lia. reflexivity.
Qed.

(** X8.  Appending a close to a series of at least N points updates the
    exponential moving average of period N by one smoothing step with the
    multiplier 2 / (N + 1); on exactly N points the average is their simple
    moving average. *)
Theorem ema_update :
  (forall (prices : list float) (period : Z) (close : float),
     (1 <= period <= len prices)%Z ->
     calculateEMA (prices ++ [close]) period
     = (close - calculateEMA prices period) * (2 / float64 (period + 1))
       + calculateEMA prices period)
  /\
  (forall prices : list float,
     calculateEMA prices (len prices) = calculateSMA prices (len prices)).
Proof.
  split.
  - intros prices period close H. unfold calculateEMA.
    replace (len (prices ++ [close]) <? period)%Z with false
      by (symmetry; apply Z.ltb_ge; rewrite len_app; cbn; lia).
    replace (len prices <? period)%Z with false
      by (symmetry; apply Z.ltb_ge; lia).
    assert (Hs : slice (prices ++ [close]) 0 period = slice prices 0 period).
    { unfold slice. cbn [skipn Z.to_nat].
      rewrite firstn_app.
      replace (Z.to_nat (period - 0) - List.length prices)%nat with 0%nat
        by (unfold len in H; lia).
      cbn [firstn]. apply app_nil_r. }
    rewrite Hs, len_app.
    change (len [close]) with 1%Z.
    rewrite for_loop_snoc by lia.
    replace (index (prices ++ [close]) (len prices)) with close.
    + f_equal; [ f_equal; f_equal | ];
        apply for_loop_ext; intros i s Hi;
        rewrite index_app_left by lia; reflexivity.
    + unfold index, len. rewrite Nat2Z.id.
      rewrite app_nth2 by lia. rewrite Nat.sub_diag. reflexivity.
  - intros prices. unfold calculateEMA.
    rewrite Z.ltb_irrefl.
    unfold for_loop, range. rewrite Z.sub_diag. cbn [Z.to_nat seq map fold_left].
    f_equal. unfold slice, len.
    rewrite Z.sub_0_r, Nat2Z.id. cbn [Z.to_nat skipn]. apply firstn_all.
Qed.

(** X8 on the closes 1, ..., 26 followed by a close of 30, with period 12. *)
Lemma ema_update_witness :
  calculateEMA (risingPrices ++ [30]) 12%Z
  = (30 - calculateEMA risingPrices 12%Z) * (2 / float64 (12 + 1))
    + calculateEMA risingPrices 12%Z.
Proof.
  apply (proj1 ema_update risingPrices 12%Z 30). vm_compute. split; discriminate.
Defined.

(* ===================================================================== *)
(** ** Position sizing                                                    *)
(* ===================================================================== *)

(** The ranks of the float constants that the tools compare with. *)
Lemma fkey_zero :
  fkey (0) = ltac:(let k := eval vm_compute in (fkey (0)) in exact k).
Proof. reflexivity. Qed.

Lemma fkey_2 :
  fkey (2) = ltac:(let k := eval vm_compute in (fkey (2)) in exact k).
Proof. reflexivity. Qed.

Lemma fkey_3 :
  fkey (3) = ltac:(let k := eval vm_compute in (fkey (3)) in exact k).
Proof. reflexivity. Qed.

Lemma fkey_4 :
  fkey (4) = ltac:(let k := eval vm_compute in (fkey (4)) in exact k).
Proof. reflexivity. Qed.

Lemma fkey_5 :
  fkey (5) = ltac:(let k := eval vm_compute in (fkey (5)) in exact k).
Proof. reflexivity. Qed.

Lemma fkey_10 :
  fkey (10) = ltac:(let k := eval vm_compute in (fkey (10)) in exact k).
Proof. reflexivity. Qed.

Lemma fkey_15 :
  fkey (15) = ltac:(let k := eval vm_compute in (fkey (15)) in exact k).
Proof. reflexivity. Qed.

Lemma fkey_20 :
  fkey (20) = ltac:(let k := eval vm_compute in (fkey (20)) in exact k).
Proof. reflexivity. Qed.

Lemma fkey_80 :
  fkey (80) = ltac:(let k := eval vm_compute in (fkey (80)) in exact k).
Proof. reflexivity. Qed.

Lemma fkey_30 :
  fkey (30) = ltac:(let k := eval vm_compute in (fkey (30)) in exact k).
Proof. reflexivity. Qed.

Lemma fkey_40 :
  fkey (40) = ltac:(let k := eval vm_compute in (fkey (40)) in exact k).
Proof. reflexivity. Qed.

Lemma fkey_60 :
  fkey (60) = ltac:(let k := eval vm_compute in (fkey (60)) in exact k).
Proof. reflexivity. Qed.

Lemma fkey_70 :
  fkey (70) = ltac:(let k := eval vm_compute in (fkey (70)) in exact k).
Proof. reflexivity. Qed.

Lemma fkey_100 :
  fkey (100) = ltac:(let k := eval vm_compute in (fkey (100)) in exact k).
Proof. reflexivity. Qed.

Lemma fkey_minus_2 :
  fkey (-2) = ltac:(let k := eval vm_compute in (fkey (-2)) in exact k).
Proof. reflexivity. Qed.

Lemma fkey_minus_3 :
  fkey (-3) = ltac:(let k := eval vm_compute in (fkey (-3)) in exact k).
Proof. reflexivity. Qed.

Lemma fkey_minus_5 :
  fkey (-5) = ltac:(let k := eval vm_compute in (fkey (-5)) in exact k).
Proof. reflexivity. Qed.

Lemma fkey_infinity :
  fkey (infinity) = ltac:(let k := eval vm_compute in (fkey (infinity)) in exact k).
Proof. reflexivity. Qed.

Lemma fkey_neg_infinity :
  fkey (neg_infinity) = ltac:(let k := eval vm_compute in (fkey (neg_infinity)) in exact k).
Proof. reflexivity. Qed.

Lemma fkey_nan :
  fkey (nan) = ltac:(let k := eval vm_compute in (fkey (nan)) in exact k).
Proof. reflexivity. Qed.

Create Rewrite HintDb fkeys.
#[global] Hint Rewrite fkey_20 fkey_80 fkey_zero fkey_2 fkey_3 fkey_4 fkey_5 fkey_10 fkey_15 fkey_30 fkey_40 fkey_60 fkey_70 fkey_100 fkey_minus_2 fkey_minus_3 fkey_minus_5 fkey_infinity fkey_neg_infinity fkey_nan : fkeys.

Ltac const_keys := autorewrite with fkeys in *.

(** Decides goals about [<?] and [<=?] between floats and float constants
    from hypotheses of the same kind. *)
Ltac float_order_const :=
  repeat match goal with
    | H : (_ <? _) = true |- _ => apply ltb_key in H
    | H : (_ <? _) = false |- _ => apply ltb_false_key in H
    | H : (_ <=? _) = true |- _ => apply leb_key in H
    | H : (_ <=? _) = false |- _ => apply leb_false_key in H
    end;
  try match goal with
    | |- (_ <? _) = true => apply ltb_key
    | |- (_ <? _) = false => apply ltb_false_key
    | |- (_ <=? _) = true => apply leb_key
    | |- (_ <=? _) = false => apply leb_false_key
    end;
  repeat match goal with
    | H : @eq bool _ _ |- _ => clear H
    end;
  const_keys;
  unfold is_number, lex_lt in *;
  repeat match goal with
    | |- context [fkey ?x] =>
        let c := fresh "c" in let e := fresh "e" in let m := fresh "m" in
        destruct (fkey x) as [[c e] m]
    | H : context [fkey ?x] |- _ =>
        let c := fresh "c" in let e := fresh "e" in let m := fresh "m" in
        destruct (fkey x) as [[c e] m]
    end;
  cbn [fst snd] in *; lia.

(** The fields of a position, once the test of the 33% limit is decided. *)
Ltac position_fields :=
  unfold calculateOptimalPosition; cbv zeta;
  match goal with
  | |- context [if ?c then (?a, ?b, ?d) else ?e] => destruct c
  end;
  cbn [risk_percentage recommended_position_size].

Lemma risk_percentage_range capital entryPrice stopLoss strategy confidence
  povertyEscapeMode :
  let risk :=
    risk_percentage
      (calculateOptimalPosition capital entryPrice stopLoss strategy
         confidence povertyEscapeMode) in
  (0.4 <=? risk) = true /\ (risk <=? 5) = true.
Proof.
  position_fields;
    destruct (strategy =? "scalping")%string,
             (strategy =? "intraday")%string,
             (strategy =? "swing")%string,
             (strategy =? "positional")%string,
             povertyEscapeMode,
             (capital <? 50000), (capital <? 100000),
             (80 <? confidence), (confidence <? 60);
    vm_compute; split; reflexivity.
Qed.

Lemma risk_percentage_scalping capital entryPrice stopLoss confidence
  povertyEscapeMode :
  (risk_percentage
     (calculateOptimalPosition capital entryPrice stopLoss "scalping"
        confidence povertyEscapeMode) <? 2) = true.
Proof.
  position_fields;
    destruct povertyEscapeMode,
             (capital <? 50000), (capital <? 100000),
             (80 <? confidence), (confidence <? 60);
    vm_compute; reflexivity.
Qed.

(** X9.  The risk percentage of a sized position lies between 0.4 and 5,
    whatever the capital, the prices, the strategy and the confidence;
    without the poverty-escape mode it is the base risk of the strategy,
    0.5, 1, 2 or 3.  A scalping position is always announced as
    CONSERVATIVE, also in poverty-escape mode. *)
Theorem position_risk_percentage :
  (forall capital entryPrice stopLoss strategy confidence povertyEscapeMode,
     let risk :=
       risk_percentage
         (calculateOptimalPosition capital entryPrice stopLoss strategy
            confidence povertyEscapeMode) in
     (0.4 <=? risk) = true /\ (risk <=? 5) = true)
  /\
  (forall capital entryPrice stopLoss strategy confidence,
     In (risk_percentage
           (calculateOptimalPosition capital entryPrice stopLoss strategy
              confidence false))
        [0.5; 1; 2; 3])
  /\
  (forall capital entryPrice stopLoss confidence povertyEscapeMode,
     let position :=
       calculateOptimalPosition capital entryPrice stopLoss "scalping"
         confidence povertyEscapeMode in
     generatePositionRecommendation (recommended_position_size position)
       (risk_percentage position) povertyEscapeMode
     = Format "CONSERVATIVE POSITION: %d shares. Low risk approach with %.1f%% capital at risk."
         [ArgInt (recommended_position_size position);
          ArgFloat (risk_percentage position)]).
Proof.
  split; [ | split ].
  - exact risk_percentage_range.
  - intros. position_fields;
      destruct (strategy =? "scalping")%string,
               (strategy =? "intraday")%string,
               (strategy =? "swing")%string,
               (strategy =? "positional")%string;
      vm_compute; auto 6.
  - intros capital entryPrice stopLoss confidence povertyEscapeMode position.
    pose proof (risk_percentage_scalping capital entryPrice stopLoss
                  confidence povertyEscapeMode) as H.
    fold position in H.
    generalize dependent (risk_percentage position).
    generalize (recommended_position_size position).
    intros size risk H.
    unfold generatePositionRecommendation.
    destruct povertyEscapeMode; [ | reflexivity ].
    replace (4 <=? risk) with false by (symmetry; float_order_const).
    replace (2 <=? risk) with false by (symmetry; float_order_const).
    reflexivity.
Qed.

(* ===================================================================== *)
(** ** Support and resistance levels                                      *)
(* ===================================================================== *)

(** What the scan of [findSupportResistance] keeps true of the two slices it
    builds: at most three levels each, all of them prices of the series. *)
Lemma levels_of_scan (prices : list float) :
  (fun state : list float * list float =>
     (List.length (fst state) <= 3)%nat
     /\ (List.length (snd state) <= 3)%nat
     /\ Forall (fun level => In level prices) (fst state)
     /\ Forall (fun level => In level prices) (snd state))
    (for_loop 10 (len prices - 10)
       (fun i '(support, resistance) =>
          let '(isSupport, isResistance) :=
            for_loop (i - 5) (i + 5 + 1)
              (fun j '(isSupport, isResistance) =>
                 let isSupport :=
                   if negb (j =? i)%Z && (index prices j <? index prices i)
                   then false else isSupport in
                 let isResistance :=
                   if negb (j =? i)%Z && (index prices i <? index prices j)
                   then false else isResistance in
                 (isSupport, isResistance))
              (true, true) in
          let support :=
            if isSupport && (len support <? 3)%Z
            then (support ++ [index prices i])%list else support in
          let resistance :=
            if isResistance && (len resistance <? 3)%Z
            then (resistance ++ [index prices i])%list else resistance in
          (support, resistance))
       ([], [])).
Proof.
  apply for_loop_invariant.
  - cbn. repeat split; auto with arith.
  - intros i [support resistance] Hi (Hs & Hr & Fs & Fr). cbn [fst snd] in *.
    destruct (for_loop _ _ _ _) as [isSupport isResistance].
    assert (Hin : In (index prices i) prices) by (apply index_In; lia).
    cbn [fst snd].
    repeat split.
    + destruct (isSupport && (len support <? 3)%Z) eqn:E; [ | exact Hs ].
      apply andb_true_iff in E. destruct E as [_ E].
      apply Z.ltb_lt in E. unfold len in E.
      rewrite length_app. cbn. lia.
    + destruct (isResistance && (len resistance <? 3)%Z) eqn:E; [ | exact Hr ].
      apply andb_true_iff in E. destruct E as [_ E].
      apply Z.ltb_lt in E. unfold len in E.
      rewrite length_app. cbn. lia.
    + destruct (isSupport && (len support <? 3)%Z); [ | exact Fs ].
      apply Forall_app. split; [ exact Fs | now constructor ].
    + destruct (isResistance && (len resistance <? 3)%Z); [ | exact Fr ].
      apply Forall_app. split; [ exact Fr | now constructor ].
Qed.

Lemma Float64s_Forall (P : float -> Prop) (l : list float) :
  Forall P l -> Forall P (Float64s l).
Proof.
  intros H. rewrite Forall_forall in *. intros x Hx.
  apply H. apply Permutation_in with (l := Float64s l); [ | exact Hx ].
  symmetry. apply Float64s_perm.
Qed.

Lemma Float64s_length (l : list float) :
  List.length (Float64s l) = List.length l.
Proof. symmetry. apply Permutation_length, Float64s_perm. Qed.

(** X10.  Whatever the series, the indicator library reports at most three
    support and at most three resistance levels; each level is one of the
    prices of the series; both slices are in ascending order; and a series
    of 20 points or fewer has no level at all. *)
Theorem support_resistance_levels :
  forall prices : list float,
    let support := fst (findSupportResistance prices) in
    let resistance := snd (findSupportResistance prices) in
    (List.length support <= 3)%nat
    /\ (List.length resistance <= 3)%nat
    /\ Forall (fun level => In level prices) support
    /\ Forall (fun level => In level prices) resistance
    /\ StronglySorted not_after support
    /\ StronglySorted not_after resistance
    /\ findSupportResistance (firstn 20 prices) = ([], []).
Proof.
  intros prices support resistance. subst support resistance.
  assert (Hshort : findSupportResistance (firstn 20 prices) = ([], [])).
  { unfold findSupportResistance.
    destruct (len (firstn 20 prices) <? 20)%Z; [ reflexivity | ].
    assert (Hlen : (len (firstn 20 prices) <= 20)%Z).
    { unfold len. pose proof (firstn_le_length 20 prices). lia. }
    unfold for_loop, range.
    replace (Z.to_nat (len (firstn 20 prices) - 10 - 10)) with 0%nat by lia.
    reflexivity. }
  revert Hshort. generalize (findSupportResistance (firstn 20 prices)).
  intros short Hshort.
  unfold findSupportResistance.
  destruct (len prices <? 20)%Z.
  - cbn. repeat split; auto; constructor.
  - pose proof (levels_of_scan prices) as H. cbv beta in H.
    destruct (for_loop _ _ _ _) as [support resistance].
    destruct H as (Hs & Hr & Fs & Fr). cbn [fst snd] in *.
    rewrite !Float64s_length.
    repeat split; auto using Float64s_Forall, Float64s_sorted.
Qed.

(* ===================================================================== *)
(** ** The quick scan of [get_wealth_builder_signals]                     *)
(* ===================================================================== *)

Lemma generateQuickSignal_cases quoteData scanType minReturn riskTolerance :
  let signal := generateQuickSignal quoteData scanType minReturn riskTolerance in
  (Action signal = "HOLD" /\ Strength signal = "weak"
   /\ ExpectedReturn signal = 0 /\ Priority signal = 1%Z
   /\ Reasons signal = [])
  \/ (scanType = "momentum" /\ Action signal = "BUY"
      /\ Strength signal = "moderate" /\ ExpectedReturn signal = 15
      /\ Priority signal = 7%Z /\ List.length (Reasons signal) = 2%nat)
  \/ (scanType = "oversold_bounce" /\ Action signal = "BUY"
      /\ Strength signal = "moderate" /\ ExpectedReturn signal = 12
      /\ Priority signal = 6%Z /\ List.length (Reasons signal) = 1%nat)
  \/ (scanType = "breakout" /\ Action signal = "BUY"
      /\ Strength signal = "strong" /\ ExpectedReturn signal = 20
      /\ Priority signal = 8%Z /\ List.length (Reasons signal) = 2%nat).
Proof.
  unfold generateQuickSignal. cbv zeta.
  destruct (String.eqb_spec scanType "momentum") as [E1 | _].
  { match goal with
    | |- context [if ?c then (?a, ?b) else ?d] => destruct c
    end; cbn; auto 10. }
  destruct (String.eqb_spec scanType "oversold_bounce") as [E2 | _].
  { match goal with
    | |- context [if ?c then (?a, ?b) else ?d] => destruct c
    end; cbn; auto 10. }
  destruct (String.eqb_spec scanType "breakout") as [E3 | _].
  { match goal with
    | |- context [if ?c then (?a, ?b) else ?d] => destruct c
    end; cbn; auto 10. }
  cbn. auto 10.
Qed.

(** X11.  A quick signal is a HOLD of weak strength with no expected
    return, priority 1 and no reason, or the BUY of one of three scan types:
    momentum (moderate, 15%, priority 7, two reasons), oversold_bounce
    (moderate, 12%, priority 6, one reason) or breakout (strong, 20%,
    priority 8, two reasons).  Its timeframe is always swing, its holding
    period "3-5 days", its strategy the scan type followed by " strategy",
    and it carries at most two warnings.  The minimum return and the risk
    tolerance it is given play no part. *)
Theorem quick_signal_shapes :
  forall (quoteData : QuickSignal.quoteData) (scanType : string)
         (minReturn : float) (riskTolerance : string),
    let signal := generateQuickSignal quoteData scanType minReturn riskTolerance in
    ((Action signal = "HOLD" /\ Strength signal = "weak"
      /\ ExpectedReturn signal = 0 /\ Priority signal = 1%Z
      /\ Reasons signal = [])
     \/ (scanType = "momentum" /\ Action signal = "BUY"
         /\ Strength signal = "moderate" /\ ExpectedReturn signal = 15
         /\ Priority signal = 7%Z /\ List.length (Reasons signal) = 2%nat)
     \/ (scanType = "oversold_bounce" /\ Action signal = "BUY"
         /\ Strength signal = "moderate" /\ ExpectedReturn signal = 12
         /\ Priority signal = 6%Z /\ List.length (Reasons signal) = 1%nat)
     \/ (scanType = "breakout" /\ Action signal = "BUY"
         /\ Strength signal = "strong" /\ ExpectedReturn signal = 20
         /\ Priority signal = 8%Z /\ List.length (Reasons signal) = 2%nat))
    /\ Timeframe signal = "swing"
    /\ HoldingPeriod signal = "3-5 days"
    /\ Strategy signal = scanType ++ " strategy"
    /\ (List.length (Warnings signal) <= 2)%nat
    /\ (forall minReturn' riskTolerance',
          generateQuickSignal quoteData scanType minReturn' riskTolerance'
          = signal).
Proof.
  intros quoteData scanType minReturn riskTolerance signal.
  split; [ apply generateQuickSignal_cases | ].
  subst signal. unfold generateQuickSignal. cbv zeta.
  match goal with
  | |- context [let '(_, _) := ?c in _] => destruct c as [[[[a s] e] p] r]
  end.
  cbn [Timeframe HoldingPeriod Strategy Warnings].
  repeat split; try reflexivity.
  destruct (_ <? QuickSignal.LastPrice quoteData), (_ <? _ * 0.5); cbn; lia.
Qed.

(** An accepted signal of a scan: a BUY with the return and the priority of
    the scan type. *)
Lemma accepted_signal quoteData scanType minReturn riskTolerance :
  let signal := generateQuickSignal quoteData scanType minReturn riskTolerance in
  ((minReturn <=? ExpectedReturn signal)
   && (Action signal =? "BUY")%string) = true ->
  Action signal = "BUY"
  /\ (minReturn <=? ExpectedReturn signal) = true
  /\ ((scanType = "momentum" /\ ExpectedReturn signal = 15
       /\ Priority signal = 7%Z)
      \/ (scanType = "oversold_bounce" /\ ExpectedReturn signal = 12
          /\ Priority signal = 6%Z)
      \/ (scanType = "breakout" /\ ExpectedReturn signal = 20
          /\ Priority signal = 8%Z)).
Proof.
  intros signal H. apply andb_true_iff in H. destruct H as [Hr Ha].
  apply String.eqb_eq in Ha.
  destruct (generateQuickSignal_cases quoteData scanType minReturn
              riskTolerance) as [H | [H | [H | H]]];
    fold signal in H; intuition congruence.
Qed.

Section ScanProperties.

Variable getQuote : string -> QuoteLookup.
Variables (scanType : string) (minReturn : float) (maxSignals : Z)
          (riskTolerance : string).

Lemma scanStocks_accepted (stockList : list string)
  (signals : list TradeSignal) :
  Forall (acceptedSignal scanType minReturn) signals ->
  Forall (acceptedSignal scanType minReturn)
    (scanStocks getQuote scanType minReturn maxSignals riskTolerance
       stockList signals).
Proof.
  revert signals.
  induction stockList as [ | symbol stockList IH]; intros signals H;
    cbn [scanStocks]; [ exact H | ].
  destruct (getQuote symbol) as [ | | quote]; try (apply IH; exact H).
  cbv zeta.
  match goal with
  | |- context [generateQuickSignal ?q _ _ _] =>
      pose proof (accepted_signal q scanType minReturn riskTolerance) as Hq;
      cbv zeta in Hq;
      destruct ((minReturn <=? ExpectedReturn (generateQuickSignal q _ _ _))
                && (Action (generateQuickSignal q _ _ _) =? "BUY")%string)
  end.
  - assert (H' : Forall (acceptedSignal scanType minReturn)
                   (signals
                    ++ [generateQuickSignal
                          {| QuickSignal.Tradingsymbol :=
                               decimal (kiteconnect.InstrumentToken quote);
                             QuickSignal.LastPrice := kiteconnect.LastPrice quote;
                             QuickSignal.NetChange := kiteconnect.NetChange quote;
                             QuickSignal.Volume := kiteconnect.Volume quote;
                             QuickSignal.VolumeTraded :=
                               Z.quot (kiteconnect.Volume quote) 2;
                             QuickSignal.High :=
                               kiteconnect.High (kiteconnect.OHLC_ quote);
                             QuickSignal.UpperCircuitLimit :=
                               kiteconnect.UpperCircuitLimit quote |}
                          scanType minReturn riskTolerance])%list).
    { apply Forall_app. split; [ exact H | constructor; [ | constructor ] ].
      apply Hq. reflexivity. }
    destruct (len _ >=? maxSignals)%Z; [ exact H' | apply IH; exact H' ].
  - destruct (len signals >=? maxSignals)%Z; [ exact H | apply IH; exact H ].
Qed.

Lemma scanStocks_length (stockList : list string)
  (signals : list TradeSignal) :
  (List.length
     (scanStocks getQuote scanType minReturn maxSignals riskTolerance
        stockList signals)
   <= List.length signals + List.length stockList)%nat.
Proof.
  revert signals.
  induction stockList as [ | symbol stockList IH]; intros signals;
    cbn [scanStocks List.length]; [ lia | ].
  destruct (getQuote symbol) as [ | | quote];
    try (specialize (IH signals); lia).
  cbv zeta.
  destruct (_ && _).
  - destruct (len _ >=? maxSignals)%Z.
    + rewrite length_app. cbn. lia.
    + match goal with
      | |- context [scanStocks _ _ _ _ _ _ ?s] => specialize (IH s)
      end.
      rewrite length_app in IH. cbn in IH. lia.
  - destruct (len signals >=? maxSignals)%Z; [ | specialize (IH signals) ];
      lia.
Qed.

Lemma scanStocks_limit (stockList : list string)
  (signals : list TradeSignal) :
  (len signals < maxSignals)%Z \/ signals = [] ->
  (len (scanStocks getQuote scanType minReturn maxSignals riskTolerance
          stockList signals)
   <= Z.max 1 maxSignals)%Z.
Proof.
  revert signals.
  induction stockList as [ | symbol stockList IH]; intros signals H;
    cbn [scanStocks].
  - destruct H as [H | ->]; [ lia | cbn; lia ].
  - destruct (getQuote symbol) as [ | | quote]; try (apply IH; exact H).
    cbv zeta.
    destruct (_ && _).
    + destruct (len (signals ++ _) >=? maxSignals)%Z eqn:E.
      * rewrite len_app. change (len [_]) with 1%Z.
        destruct H as [H | ->]; [ lia | cbn; lia ].
      * apply IH. left. lia.
    + destruct (len signals >=? maxSignals)%Z eqn:E.
      * destruct H as [H | ->]; [ lia | cbn; lia ].
      * apply IH. left. lia.
Qed.

End ScanProperties.

Lemma sink_no_less {A} (less : A -> A -> bool) (x : A) (before : list A) :
  (forall y, In y before -> less x y = false) ->
  sink less x before = x :: before.
Proof.
  destruct before as [ | y before]; [ reflexivity | ].
  intros H. cbn. rewrite H by now left. reflexivity.
Qed.

(** A slice no element of which is less than another is left as it is. *)
Lemma sortSlice_no_less {A} (less : A -> A -> bool) (l : list A) :
  (forall x y, In x l -> In y l -> less x y = false) ->
  sortSlice less l = l.
Proof.
  intros H. unfold sortSlice.
  assert (G : forall before,
             (forall x y, In x (l ++ before) -> In y (l ++ before) ->
                          less x y = false) ->
             fold_left (fun before x => sink less x before) l before
             = (rev l ++ before)%list).
  { clear H. induction l as [ | x l IH]; intros before H; [ reflexivity | ].
    cbn [fold_left rev]. rewrite sink_no_less.
    - rewrite IH.
      + rewrite <- app_assoc. reflexivity.
      + intros a b Ha Hb. apply H.
        * apply in_app_or in Ha. cbn. cbn in Ha.
          destruct Ha as [Ha | [Ha | Ha]]; auto using in_or_app.
        * apply in_app_or in Hb. cbn. cbn in Hb.
          destruct Hb as [Hb | [Hb | Hb]]; auto using in_or_app.
    - intros y Hy. apply H; cbn; auto using in_or_app. }
  rewrite G.
  - rewrite app_nil_r. apply rev_involutive.
  - rewrite app_nil_r. exact H.
Qed.

Lemma getStockListForScan_length (scanType : string) :
  List.length (getStockListForScan scanType) = 5%nat.
Proof.
  unfold getStockListForScan.
  destruct (scanType =? "momentum")%string,
           (scanType =? "breakout")%string,
           (scanType =? "oversold_bounce")%string,
           (scanType =? "high_volume")%string; reflexivity.
Qed.

(** X12.  Whatever the quotes, the signals returned by the scan are BUY
    signals whose expected return is at least the requested minimum; all of
    them carry the return and the priority of the scan type (momentum 15%
    and 7, oversold_bounce 12% and 6, breakout 20% and 8), so that the final
    sort by priority leaves them in the order of the stock list.  There are
    at most five of them, and at most max(1, max_signals).  The advertised
    scan types trend_following, value_picks, high_volume and
    insider_activity never return a signal. *)
Theorem wealth_builder_signals :
  forall (getQuote : string -> QuoteLookup) (scanType : string)
         (minReturn : float) (maxSignals : Z) (riskTolerance : string),
    let signals :=
      getWealthBuilderSignals getQuote scanType minReturn maxSignals
        riskTolerance in
    Forall (fun signal =>
              Action signal = "BUY"
              /\ (minReturn <=? ExpectedReturn signal) = true
              /\ ((scanType = "momentum" /\ ExpectedReturn signal = 15
                   /\ Priority signal = 7%Z)
                  \/ (scanType = "oversold_bounce"
                      /\ ExpectedReturn signal = 12
                      /\ Priority signal = 6%Z)
                  \/ (scanType = "breakout" /\ ExpectedReturn signal = 20
                      /\ Priority signal = 8%Z)))
           signals
    /\ signals
       = scanStocks getQuote scanType minReturn maxSignals riskTolerance
           (getStockListForScan scanType) []
    /\ (List.length signals <= 5)%nat
    /\ (len signals <= Z.max 1 maxSignals)%Z
    /\ Forall (fun scanType' =>
                 getWealthBuilderSignals getQuote scanType' minReturn
                   maxSignals riskTolerance = [])
              ["trend_following"; "value_picks"; "high_volume";
               "insider_activity"].
Proof.
  intros getQuote scanType minReturn maxSignals riskTolerance signals.
  assert (Hacc : forall scanType',
            Forall (fun signal =>
              Action signal = "BUY"
              /\ (minReturn <=? ExpectedReturn signal) = true
              /\ ((scanType' = "momentum" /\ ExpectedReturn signal = 15
                   /\ Priority signal = 7%Z)
                  \/ (scanType' = "oversold_bounce"
                      /\ ExpectedReturn signal = 12
                      /\ Priority signal = 6%Z)
                  \/ (scanType' = "breakout" /\ ExpectedReturn signal = 20
                      /\ Priority signal = 8%Z)))
              (scanStocks getQuote scanType' minReturn maxSignals
                 riskTolerance (getStockListForScan scanType') [])).
  { intros scanType'. apply scanStocks_accepted. constructor. }
  assert (Hsort : forall scanType',
            getWealthBuilderSignals getQuote scanType' minReturn maxSignals
              riskTolerance
            = scanStocks getQuote scanType' minReturn maxSignals
                riskTolerance (getStockListForScan scanType') []).
  { intros scanType'. unfold getWealthBuilderSignals. cbv zeta.
    apply sortSlice_no_less. intros x y Hx Hy.
    specialize (Hacc scanType'). rewrite Forall_forall in Hacc.
    destruct (Hacc x Hx) as (_ & _ & Px), (Hacc y Hy) as (_ & _ & Py).
    rewrite Z.gtb_ltb. apply Z.ltb_ge.
    destruct Px as [(Ex & _ & Px) | [(Ex & _ & Px) | (Ex & _ & Px)]],
             Py as [(Ey & _ & Py) | [(Ey & _ & Py) | (Ey & _ & Py)]];
      rewrite Px, Py; try lia; rewrite Ex in Ey; discriminate Ey. }
  assert (Hnone : forall scanType',
            (scanType' =? "momentum")%string = false ->
            (scanType' =? "oversold_bounce")%string = false ->
            (scanType' =? "breakout")%string = false ->
            getWealthBuilderSignals getQuote scanType' minReturn maxSignals
              riskTolerance = []).
  { intros scanType' H1 H2 H3. rewrite Hsort.
    specialize (Hacc scanType').
    destruct (scanStocks _ _ _ _ _ _ _) as [ | signal l]; [ reflexivity | ].
    exfalso. inversion Hacc as [ | ? ? (_ & _ & P) _]; subst.
    destruct P as [(E & _) | [(E & _) | (E & _)]]; subst scanType';
      discriminate. }
  subst signals. rewrite Hsort.
  repeat split.
  - apply Hacc.
  - pose proof (scanStocks_length getQuote scanType minReturn maxSignals
                  riskTolerance (getStockListForScan scanType) []) as H.
    rewrite getStockListForScan_length in H. exact H.
  - apply scanStocks_limit. now right.
  - repeat constructor; apply Hnone; reflexivity.
Qed.

(* ===================================================================== *)
(** ** The recommendation of an analysis report                           *)
(* ===================================================================== *)

(** X13.  Because the signal of a comprehensive analysis is never a BUY,
    the recommendation of every analysis report is the sentence asking to
    wait for a better entry; the entry, stop-loss, target and position size
    that the analysis computed are never written into it. *)
Theorem report_recommendation_is_wait :
  forall (quoteData : QuoteData)
         (historicalData : list kiteconnect.HistoricalData)
         (timeframe riskTolerance : string) (capital maxRiskPercent : float)
         (now : Z),
    generateRecommendation
      (performComprehensiveAnalysis quoteData historicalData timeframe
         riskTolerance capital maxRiskPercent now)
    = [Text "Wait for better entry opportunity. Current setup does not meet minimum criteria."].
Proof.
  intros.
  pose proof (pipeline_signal_is_hold quoteData historicalData timeframe
                riskTolerance capital maxRiskPercent now) as [H _].
  unfold generateRecommendation. rewrite H. reflexivity.
Qed.

(* ===================================================================== *)
(** ** Sector scores                                                      *)
(* ===================================================================== *)

Lemma SFeqb_key (a b : spec_float) :
  SFeqb a b = true <->
  is_number (key a) /\ is_number (key b)
  /\ ~ lex_lt (key a) (key b) /\ ~ lex_lt (key b) (key a).
Proof.
  unfold SFeqb, is_number, lex_lt.
  destruct a as [sa|sa| |sa ma ea], b as [sb|sb| |sb mb eb];
    try destruct sa; try destruct sb; cbn; cmp_cases; cbn;
    split; intros; try discriminate; try reflexivity; try lia.
Qed.

Lemma eqb_key (x y : float) :
  (x =? y) = true <->
  is_number (fkey x) /\ is_number (fkey y)
  /\ ~ lex_lt (fkey x) (fkey y) /\ ~ lex_lt (fkey y) (fkey x).
Proof. rewrite eqb_spec. apply SFeqb_key. Qed.

Lemma eqb_false_key (x y : float) :
  (x =? y) = false <->
  ~ (is_number (fkey x) /\ is_number (fkey y)
     /\ ~ lex_lt (fkey x) (fkey y) /\ ~ lex_lt (fkey y) (fkey x)).
Proof.
  rewrite <- eqb_key. destruct (x =? y); intuition congruence.
Qed.

Lemma IsNaN_true_key (x : float) : IsNaN x = true <-> ~ is_number (fkey x).
Proof.
  rewrite <- IsNaN_key. destruct (IsNaN x); intuition congruence.
Qed.

(** Hypotheses on conjunctions and disjunctions of tests, test by test. *)
Ltac split_tests :=
  repeat match goal with
    | H : (_ || _) = true |- _ => apply orb_true_iff in H; destruct H as [H | H]
    | H : (_ || _) = false |- _ =>
        apply orb_false_iff in H;
        let H' := fresh H in destruct H as [H H']
    | H : (_ && _) = true |- _ =>
        apply andb_true_iff in H;
        let H' := fresh H in destruct H as [H H']
    | H : (_ && _) = false |- _ =>
        apply andb_false_iff in H; destruct H as [H | H]
    end.

(** Decides goals about the comparisons [<?], [<=?], [=?] and [IsNaN] of
    floats and float constants from hypotheses of the same kind. *)
Ltac float_cmp :=
  cbn [orb andb negb];
  repeat match goal with
    | H : (_ <? _) = true |- _ => apply ltb_key in H
    | H : (_ <? _) = false |- _ => apply ltb_false_key in H
    | H : (_ <=? _) = true |- _ => apply leb_key in H
    | H : (_ <=? _) = false |- _ => apply leb_false_key in H
    | H : (_ =? _) = true |- _ => apply eqb_key in H
    | H : (_ =? _) = false |- _ => apply eqb_false_key in H
    | H : IsNaN _ = true |- _ => apply IsNaN_true_key in H
    | H : IsNaN _ = false |- _ => apply IsNaN_key in H
    end;
  try match goal with
    | |- (_ <? _) = true => apply ltb_key
    | |- (_ <? _) = false => apply ltb_false_key
    | |- (_ <=? _) = true => apply leb_key
    | |- (_ <=? _) = false => apply leb_false_key
    | |- (_ =? _) = true => apply eqb_key
    | |- (_ =? _) = false => apply eqb_false_key
    | |- IsNaN _ = true => apply IsNaN_true_key
    | |- IsNaN _ = false => apply IsNaN_key
    end;
  repeat match goal with
    | H : @eq bool _ _ |- _ => clear H
    end;
  const_keys;
  unfold is_number, lex_lt in *;
  repeat match goal with
    | |- context [fkey ?x] =>
        let c := fresh "c" in let e := fresh "e" in let m := fresh "m" in
        destruct (fkey x) as [[c e] m]
    | H : context [fkey ?x] |- _ =>
        let c := fresh "c" in let e := fresh "e" in let m := fresh "m" in
        destruct (fkey x) as [[c e] m]
    end;
  cbn [fst snd] in *; lia.

(** [math.Max(x, 0)] is NaN or at least 0. *)
Lemma Max_zero (x : float) :
  IsNaN (Max x 0) = true \/ (0 <=? Max x 0) = true.
Proof.
  unfold Max.
  destruct ((x =? infinity) || (0 =? infinity)) eqn:E1;
    [ right; reflexivity | ].
  destruct (IsNaN x || IsNaN 0) eqn:E2; [ left; reflexivity | ].
  destruct ((x =? 0) && (x =? 0)) eqn:E3.
  - right. destruct (Signbit x); [ reflexivity | ].
    split_tests. float_cmp.
  - destruct (0 <? x) eqn:E4; right; [ | reflexivity ].
    float_cmp.
Qed.

(** [math.Min(x, 100)] is NaN when [x] is, and otherwise at most 100 and no
    lower than a bound under [x] and 100. *)
Lemma Min_hundred_nan (x : float) :
  IsNaN x = true -> IsNaN (Min x 100) = true.
Proof.
  intros H. unfold Min.
  replace (x =? neg_infinity) with false by (symmetry; float_cmp).
  rewrite H. reflexivity.
Qed.

Lemma Min_hundred_le (x : float) :
  IsNaN x = false -> (Min x 100 <=? 100) = true.
Proof.
  intros H. unfold Min. rewrite H.
  change (100 =? neg_infinity) with false. change (IsNaN 100) with false.
  cbn [orb].
  destruct (x =? neg_infinity) eqn:E1; [ reflexivity | ].
  destruct ((x =? 0) && (x =? 100)) eqn:E2.
  - split_tests. destruct (Signbit x); [ float_cmp | reflexivity ].
  - destruct (x <? 100) eqn:E3; [ float_cmp | reflexivity ].
Qed.

Lemma Min_hundred_ge (x : float) :
  (0 <=? x) = true -> (0 <=? Min x 100) = true.
Proof.
  intros H. unfold Min.
  replace (x =? neg_infinity) with false by (symmetry; float_cmp).
  replace (IsNaN x) with false by (symmetry; float_cmp).
  change (100 =? neg_infinity) with false. change (IsNaN 100) with false.
  cbn [orb].
  destruct ((x =? 0) && (x =? 100)) eqn:E2.
  - destruct (Signbit x); [ exact H | reflexivity ].
  - destruct (x <? 100); [ exact H | reflexivity ].
Qed.

(** A score clamped by [math.Min(math.Max(score, 0), 100)]. *)
Lemma clamp_range (x : float) :
  IsNaN (Min (Max x 0) 100) = true
  \/ ((0 <=? Min (Max x 0) 100) = true
      /\ (Min (Max x 0) 100 <=? 100) = true).
Proof.
  destruct (Max_zero x) as [H | H].
  - left. now apply Min_hundred_nan.
  - right. split; [ now apply Min_hundred_ge | ].
    apply Min_hundred_le. float_cmp.
Qed.

(** Case analysis on a test of the goal. *)
Ltac destruct_test :=
  match goal with
  | |- context [if ?c then _ else _] => destruct c
  end.

Lemma calculateRelativeStrength_range quoteData :
  (30 <=? calculateRelativeStrength quoteData) = true
  /\ (calculateRelativeStrength quoteData <=? 100) = true.
Proof.
  unfold calculateRelativeStrength. cbv zeta.
  repeat destruct_test; vm_compute; split; reflexivity.
Qed.

Lemma estimateInstitutionalFlow_values quoteData :
  In (estimateInstitutionalFlow quoteData) [50; 70; 80; 100].
Proof.
  unfold estimateInstitutionalFlow. cbv zeta.
  repeat destruct_test; vm_compute; auto 6.
Qed.

Lemma checkSectorBreakout_values quoteData :
  In (checkSectorBreakout quoteData) [0; 20; 30; 50; 70; 80; 100].
Proof.
  unfold checkSectorBreakout. cbv zeta.
  repeat destruct_test; vm_compute; auto 10.
Qed.

(** X14.  The relative-strength score of a sector lies between 30 and 100;
    the institutional-flow score is 50, 70, 80 or 100 and the breakout score
    0, 20, 30, 50, 70, 80 or 100, so that none of the three is ever changed
    by the clamp to [0, 100]; the momentum score is within 0 and 100 or is
    NaN. *)
Theorem sector_scores :
  forall quoteData : SectorScan.quoteData,
    ((30 <=? calculateRelativeStrength quoteData) = true
     /\ (calculateRelativeStrength quoteData <=? 100) = true)
    /\ In (estimateInstitutionalFlow quoteData) [50; 70; 80; 100]
    /\ In (checkSectorBreakout quoteData) [0; 20; 30; 50; 70; 80; 100]
    /\ (IsNaN (calculateSectorMomentum quoteData) = true
        \/ ((0 <=? calculateSectorMomentum quoteData) = true
            /\ (calculateSectorMomentum quoteData <=? 100) = true)).
Proof.
  intros quoteData.
  split; [ apply calculateRelativeStrength_range | ].
  split; [ apply estimateInstitutionalFlow_values | ].
  split; [ apply checkSectorBreakout_values | ].
  apply clamp_range.
Qed.

(** The recommendation that [analyzeSector] draws from a score. *)
Lemma recommendation_cases (score : float) :
  let recommendation :=
    if 70 <? score then "Strong BUY - Sector showing excellent strength"
    else if 60 <? score then "BUY - Positive sector momentum"
    else if 40 <? score then "HOLD - Neutral sector performance"
    else "AVOID - Weak sector, look elsewhere" in
  In recommendation
     ["Strong BUY - Sector showing excellent strength";
      "BUY - Positive sector momentum";
      "HOLD - Neutral sector performance";
      "AVOID - Weak sector, look elsewhere"]
  /\ (IsNaN score = false
      \/ recommendation = "AVOID - Weak sector, look elsewhere").
Proof.
  cbv zeta. split.
  - repeat destruct_test; cbn; auto 6.
  - destruct (IsNaN score) eqn:E; [ right | now left ].
    replace (70 <? score) with false by (symmetry; float_cmp).
    replace (60 <? score) with false by (symmetry; float_cmp).
    replace (40 <? score) with false by (symmetry; float_cmp).
    reflexivity.
Qed.

(** X15.  A sector analysis recommends one of four texts, and AVOID when
    its score is NaN.  An analysis type other than relative_strength,
    momentum, institutional_flow and breakout gives the score 0 and hence
    AVOID; the institutional-flow analysis never gives AVOID, since its
    score is at least 50.  The volume change is always 0 and the list of top
    stocks empty, and the number of lookback days plays no part. *)
Theorem sector_recommendation :
  forall (name : string) (quoteData : SectorScan.quoteData)
         (analysisType : string) (lookbackDays : Z),
    let analysis := analyzeSector name quoteData analysisType lookbackDays in
    In (SectorAnalysis.Recommendation analysis)
       ["Strong BUY - Sector showing excellent strength";
        "BUY - Positive sector momentum";
        "HOLD - Neutral sector performance";
        "AVOID - Weak sector, look elsewhere"]
    /\ (IsNaN (SectorAnalysis.StrengthScore analysis) = false
        \/ SectorAnalysis.Recommendation analysis
           = "AVOID - Weak sector, look elsewhere")
    /\ (In analysisType
           ["relative_strength"; "momentum"; "institutional_flow"; "breakout"]
        \/ (SectorAnalysis.StrengthScore analysis = 0
            /\ SectorAnalysis.Recommendation analysis
               = "AVOID - Weak sector, look elsewhere"))
    /\ In (SectorAnalysis.Recommendation
             (analyzeSector name quoteData "institutional_flow" lookbackDays))
          ["Strong BUY - Sector showing excellent strength";
           "BUY - Positive sector momentum";
           "HOLD - Neutral sector performance"]
    /\ SectorAnalysis.VolumeChange analysis = 0
    /\ SectorAnalysis.TopStocks analysis = []
    /\ (forall lookbackDays',
          analyzeSector name quoteData analysisType lookbackDays' = analysis).
Proof.
  intros name quoteData analysisType lookbackDays analysis. subst analysis.
  unfold analyzeSector. cbv zeta.
  cbn [SectorAnalysis.Recommendation SectorAnalysis.StrengthScore
       SectorAnalysis.VolumeChange SectorAnalysis.TopStocks].
  split; [ apply recommendation_cases | ].
  split; [ apply recommendation_cases | ].
  split.
  { destruct (String.eqb_spec analysisType "relative_strength");
      [ left; subst; cbn; auto | ].
    destruct (String.eqb_spec analysisType "momentum");
      [ left; subst; cbn; auto | ].
    destruct (String.eqb_spec analysisType "institutional_flow");
      [ left; subst; cbn; auto | ].
    destruct (String.eqb_spec analysisType "breakout");
      [ left; subst; cbn; auto 6 | ].
    right. split; reflexivity. }
  split.
  { change ("institutional_flow" =? "relative_strength")%string with false.
    change ("institutional_flow" =? "momentum")%string with false.
    change ("institutional_flow" =? "institutional_flow")%string with true.
    cbv iota.
    destruct (estimateInstitutionalFlow_values quoteData)
      as [E | [E | [E | [E | []]]]]; rewrite <- E; cbn; auto. }
  repeat split.
Qed.

(* ===================================================================== *)
(** ** Sector rotation                                                    *)
(* ===================================================================== *)

(** A loop that appends one element per turn builds the image of its
    range. *)
Lemma for_loop_append {A} (lo hi : Z) (f : Z -> A) (acc : list A) :
  for_loop lo hi (fun i acc => (acc ++ [f i])%list) acc
  = (acc ++ map f (range lo hi))%list.
Proof.
  unfold for_loop. generalize (range lo hi). intros l. revert acc.
  induction l as [ | i l IH]; intros acc; cbn [fold_left map].
  - now rewrite app_nil_r.
  - rewrite IH, <- app_assoc. reflexivity.
Qed.

Lemma skipn_cons_nth {A} (d : A) (l : list A) (a : nat) :
  (a < List.length l)%nat -> skipn a l = nth a l d :: skipn (S a) l.
Proof.
  revert a. induction l as [ | x l IH]; intros a H; cbn in H; [ lia | ].
  destruct a as [ | a]; [ reflexivity | ].
  cbn [skipn nth]. rewrite IH by lia. reflexivity.
Qed.

Lemma map_nth_seq {A} (d : A) (l : list A) (n a : nat) :
  (a + n <= List.length l)%nat ->
  map (fun k => nth (a + k) l d) (seq 0 n) = firstn n (skipn a l).
Proof.
  revert a. induction n as [ | n IH]; intros a H; [ reflexivity | ].
  rewrite <- cons_seq, <- seq_shift, map_cons, map_map.
  rewrite (skipn_cons_nth d l a) by lia.
  cbn [firstn]. rewrite Nat.add_0_r. f_equal.
  rewrite <- IH by lia.
  apply map_ext. intros k. f_equal. lia.
Qed.

(** The elements at the indices of a range are a slice. *)
Lemma map_nth_range {A} (d : A) (l : list A) (lo hi : Z) :
  (0 <= lo)%Z -> (hi <= len l)%Z ->
  map (fun i => nth (Z.to_nat i) l d) (range lo hi) = slice l lo hi.
Proof.
  intros Hlo Hhi. unfold range, slice, len in *. rewrite map_map.
  destruct (Z.le_gt_cases lo hi) as [H | H].
  - rewrite <- (map_nth_seq d) by lia.
    apply map_ext. intros k. f_equal. lia.
  - replace (Z.to_nat (hi - lo)) with 0%nat by lia. reflexivity.
Qed.

Lemma sector_names (sectors : list SectorAnalysis.t) (lo hi : Z) :
  (0 <= lo)%Z -> (hi <= len sectors)%Z ->
  map (fun i => SectorAnalysis.Sector (sector_at sectors i)) (range lo hi)
  = slice (map SectorAnalysis.Sector sectors) lo hi.
Proof.
  intros Hlo Hhi. unfold sector_at.
  rewrite <- (map_nth_range "" (map SectorAnalysis.Sector sectors))
    by (unfold len in *; rewrite ?length_map; lia).
  apply map_ext. intros i.
  change "" with (SectorAnalysis.Sector zeroSectorAnalysis).
  now rewrite map_nth.
Qed.

Lemma getTopSectors_names (sectors : list SectorAnalysis.t) (count : Z) :
  map entry_sector (getTopSectors sectors count)
  = firstn (Z.to_nat count) (map SectorAnalysis.Sector sectors).
Proof.
  unfold getTopSectors.
  rewrite for_loop_append, app_nil_l, map_map. cbn [entry_sector].
  pose proof (len_nonneg sectors) as Hn.
  rewrite sector_names by (unfold min; destruct (count <? len sectors)%Z eqn:E;
                           lia).
  unfold slice. cbn [Z.to_nat skipn]. rewrite Z.sub_0_r.
  unfold min. destruct (count <? len sectors)%Z eqn:E; [ reflexivity | ].
  apply Z.ltb_ge in E. unfold len in *.
  rewrite Nat2Z.id.
  rewrite !firstn_all2 by (rewrite length_map; lia). reflexivity.
Qed.

Lemma getWeakSectors_names (sectors : list SectorAnalysis.t) (count : Z) :
  map entry_sector (getWeakSectors sectors count)
  = skipn (Z.to_nat (len sectors - count))
          (map SectorAnalysis.Sector sectors).
Proof.
  unfold getWeakSectors. cbv zeta.
  rewrite for_loop_append, app_nil_l, map_map. cbn [entry_sector].
  pose proof (len_nonneg sectors) as Hn.
  destruct (len sectors - count <? 0)%Z eqn:E.
  - apply Z.ltb_lt in E.
    rewrite sector_names by lia.
    unfold slice. replace (Z.to_nat (len sectors - count)) with 0%nat by lia.
    cbn [Z.to_nat skipn]. apply firstn_all2.
    rewrite length_map. unfold len. lia.
  - apply Z.ltb_ge in E.
    destruct (Z.le_gt_cases count 0) as [Hc | Hc].
    + unfold range.
      replace (Z.to_nat (len sectors - (len sectors - count))) with 0%nat
        by lia.
      cbn [seq map]. symmetry. apply skipn_all2.
      rewrite length_map. unfold len in *. lia.
    + rewrite sector_names by lia.
      unfold slice. apply firstn_all2.
      rewrite length_skipn, length_map. unfold len. lia.
Qed.

(** X16.  The top sectors are the first [count] analysed sectors and the
    weak sectors the last [count], in the order of the analysed list; every
    weak sector carries the warning "Avoid or exit positions".  The rotation
    strength is weak, moderate or strong, and with fewer than two sectors
    the rotation is from "none" to "none" with strength weak. *)
Theorem sector_rotation_lists :
  forall (sectors : list SectorAnalysis.t) (count : Z),
    map entry_sector (getTopSectors sectors count)
    = firstn (Z.to_nat count) (map SectorAnalysis.Sector sectors)
    /\ map entry_sector (getWeakSectors sectors count)
       = skipn (Z.to_nat (len sectors - count))
               (map SectorAnalysis.Sector sectors)
    /\ Forall (fun entry => entry_advice entry = "Avoid or exit positions")
              (getWeakSectors sectors count)
    /\ In (strength (identifySectorRotation sectors))
          ["weak"; "moderate"; "strong"]
    /\ identifySectorRotation (firstn 1 sectors)
       = {| rotating_from := "none"; rotating_to := "none";
            strength := "weak" |}.
Proof.
  intros sectors count.
  split; [ apply getTopSectors_names | ].
  split; [ apply getWeakSectors_names | ].
  split; [ | split ].
  - unfold getWeakSectors. cbv zeta. rewrite for_loop_append, app_nil_l.
    apply Forall_forall. intros entry H. apply in_map_iff in H.
    destruct H as (i & <- & _). reflexivity.
  - unfold identifySectorRotation.
    destruct (len sectors <? 2)%Z; cbn [strength]; [ cbn; auto | ].
    repeat destruct_test; cbn; auto.
  - unfold identifySectorRotation.
    replace (len (firstn 1 sectors) <? 2)%Z with true; [ reflexivity | ].
    symmetry. apply Z.ltb_lt. unfold len.
    pose proof (firstn_le_length 1 sectors). lia.
Qed.

(** X17.  The handler asks for three top and three weak sectors.  When
    between one and five sectors were analysed, the two lists overlap: some
    sector is reported both with its recommendation and with the warning to
    avoid it or exit. *)
Theorem top_and_weak_sectors_overlap :
  forall sectors : list SectorAnalysis.t,
    (1 <= List.length sectors <= 5)%nat ->
    exists name : string,
      In name (map entry_sector (getTopSectors sectors 3))
      /\ In name (map entry_sector (getWeakSectors sectors 3)).
Proof.
  intros sectors H.
  rewrite getTopSectors_names, getWeakSectors_names.
  destruct sectors as [ | a [ | b [ | c [ | d [ | e [ | f l]]]]]];
    cbn [List.length] in H; try lia.
  - exists (SectorAnalysis.Sector a). vm_compute. auto.
  - exists (SectorAnalysis.Sector a). vm_compute. auto.
  - exists (SectorAnalysis.Sector a). vm_compute. auto.
  - exists (SectorAnalysis.Sector b). vm_compute. auto.
  - exists (SectorAnalysis.Sector c). vm_compute. auto 6.
Qed.

(** X17 on a single analysed sector. *)
Lemma top_and_weak_sectors_overlap_witness :
  exists name : string,
    In name (map entry_sector (getTopSectors [zeroSectorAnalysis] 3))
    /\ In name (map entry_sector (getWeakSectors [zeroSectorAnalysis] 3)).
Proof.
  apply (top_and_weak_sectors_overlap [zeroSectorAnalysis]). cbn [List.length]. lia.
Defined.

(* ===================================================================== *)
(** ** Position monitoring                                                *)
(* ===================================================================== *)

(** The alerts and the action that [analyzePosition] draws from the return
    of a holding and its change of the day. *)
Lemma holding_alerts (pnlPercent dayChange : float) (alertOnRisk : bool) :
  let alerts : list message := [] in
  let action := "" in
  let result :=
    if alertOnRisk then
      let '(alerts, action) :=
        if pnlPercent <? -5
        then ((alerts ++ [Sprintf "⚠️ Loss exceeds 5%%: %.2f%%" pnlPercent])%list,
              "Consider exit or averaging")
        else (alerts, action) in
      let '(alerts, action) :=
        if 15 <? pnlPercent
        then ((alerts ++ [Sprintf "✅ Good profit: %.2f%%, consider partial booking"
                            pnlPercent])%list,
              "Book partial profits")
        else (alerts, action) in
      let alerts :=
        if 5 <? Abs dayChange
        then (alerts ++ [Sprintf "📊 High volatility today: %.2f%%" dayChange])%list
        else alerts in
      (alerts, action)
    else (alerts, action) in
  let action :=
    if (snd result =? "")%string then
      if 0 <? pnlPercent then "Hold with trailing stop" else "Monitor closely"
    else snd result in
  (List.length (fst result) <= 2)%nat
  /\ In action ["Consider exit or averaging"; "Book partial profits";
                "Hold with trailing stop"; "Monitor closely"]
  /\ (alertOnRisk = true \/ fst result = [])
  /\ (pnlPercent = 0 -> action = "Monitor closely").
Proof.
  cbv zeta.
  destruct alertOnRisk.
  - destruct (pnlPercent <? -5) eqn:E1, (15 <? pnlPercent) eqn:E2.
    + exfalso. float_cmp.
    + destruct (5 <? Abs dayChange); cbn; repeat split; auto;
        intros ->; discriminate E1.
    + destruct (5 <? Abs dayChange); cbn; repeat split; auto;
        intros ->; discriminate E2.
    + destruct (5 <? Abs dayChange), (0 <? pnlPercent) eqn:E3; cbn;
        repeat split; auto 6; intros ->; discriminate E3.
  - destruct (0 <? pnlPercent) eqn:E3; cbn; repeat split; auto 6;
      intros ->; discriminate E3.
Qed.

(** X18.  The status of a holding always suggests one of four actions and
    carries at most two alerts (the loss alert and the profit alert exclude
    each other), none when alerts are switched off; a holding whose invested
    amount is not positive has a return of 0 and is to be monitored closely.
    An intraday position gets one of three actions and at most one alert
    when alerts are on, and an empty action and no alert when they are off;
    its change of the day is always 0. *)
Theorem position_status_actions :
  forall (holding : Holding.t) (position : Position.t) (alertOnRisk : bool),
    let held := analyzePosition holding alertOnRisk in
    let intraday := analyzeIntradayPosition position alertOnRisk in
    In (PositionStatus.Action held)
       ["Consider exit or averaging"; "Book partial profits";
        "Hold with trailing stop"; "Monitor closely"]
    /\ (List.length (PositionStatus.Alerts held) <= 2)%nat
    /\ (alertOnRisk = true \/ PositionStatus.Alerts held = [])
    /\ ((0 <? PositionStatus.Invested held) = true
        \/ (PositionStatus.PnLPercent held = 0
            /\ PositionStatus.Action held = "Monitor closely"))
    /\ In (PositionStatus.Action intraday)
          (if alertOnRisk
           then ["Exit immediately"; "Trail stop-loss or book";
                 "Monitor with strict stop"]
           else [""])
    /\ (List.length (PositionStatus.Alerts intraday) <= 1)%nat
    /\ (alertOnRisk = true \/ PositionStatus.Alerts intraday = [])
    /\ PositionStatus.DayChange intraday = 0.
Proof.
  intros holding position alertOnRisk held intraday.
  assert (Hheld :
    In (PositionStatus.Action held)
       ["Consider exit or averaging"; "Book partial profits";
        "Hold with trailing stop"; "Monitor closely"]
    /\ (List.length (PositionStatus.Alerts held) <= 2)%nat
    /\ (alertOnRisk = true \/ PositionStatus.Alerts held = [])
    /\ ((0 <? PositionStatus.Invested held) = true
        \/ (PositionStatus.PnLPercent held = 0
            /\ PositionStatus.Action held = "Monitor closely"))).
  { subst held. unfold analyzePosition. cbv zeta.
    match goal with
    | |- context [if alertOnRisk then ?a else ?b] =>
        match a with
        | context [?p <? -5] =>
            match a with
            | context [Abs ?d] =>
                pose proof (holding_alerts p d alertOnRisk) as H
            end
        end
    end.
    cbv zeta in H.
    match type of H with
    | context [fst ?r] => destruct r as [alerts action]
    end.
    cbn [fst snd] in H.
    cbn [PositionStatus.Action PositionStatus.Alerts PositionStatus.Invested
         PositionStatus.PnLPercent].
    destruct H as (H1 & H2 & H3 & H4).
    repeat split; auto.
    destruct (0 <? Holding.AveragePrice holding
                   * float64 (Holding.Quantity holding)) eqn:E;
      [ now left | right ].
    split; [ reflexivity | apply H4; reflexivity ]. }
  destruct Hheld as (H1 & H2 & H3 & H4).
  repeat split; auto;
    subst intraday; unfold analyzeIntradayPosition; cbv zeta;
    destruct alertOnRisk; repeat destruct_test;
    cbn; auto; lia.
Qed.

Lemma generateMonitoringRecommendations_length
  (monitoring : PositionMonitoring.t) :
  (List.length (generateMonitoringRecommendations monitoring) <= 4)%nat.
Proof.
  unfold generateMonitoringRecommendations. cbv zeta.
  destruct (for_range _ _ _) as [winnersCount losersCount].
  repeat destruct_test; cbn; lia.
Qed.

(** The loop over the holdings: one status per holding; no alert is
    collected when alerts are off. *)
Lemma holdings_loop (alertOnRisk : bool) (holdings : list Holding.t)
  (state : list PositionStatus.t * float * float * list message) :
  let result :=
    for_range holdings
      (fun holding '(statuses, totalPnL, totalInvested, riskAlerts) =>
         let status := analyzePosition holding alertOnRisk in
         ((statuses ++ [status])%list,
          totalPnL + PositionStatus.PnL status,
          totalInvested + PositionStatus.Invested status,
          if (len (PositionStatus.Alerts status) >? 0)%Z
          then (riskAlerts ++ PositionStatus.Alerts status)%list
          else riskAlerts))
      state in
  List.length (fst (fst (fst result)))
  = (List.length (fst (fst (fst state))) + List.length holdings)%nat
  /\ (alertOnRisk = true \/ snd result = snd state).
Proof.
  unfold for_range. revert state.
  induction holdings as [ | holding holdings IH];
    intros [[[statuses totalPnL] totalInvested] riskAlerts];
    cbn [fold_left List.length fst snd].
  - split; [ lia | now right ].
  - match goal with
    | |- context [fold_left _ _ ?s] => destruct (IH s) as [H1 H2]
    end.
    cbv zeta in H1, H2. cbn [fst snd] in H1, H2.
    split.
    + rewrite H1, length_app. cbn [List.length]. lia.
    + destruct alertOnRisk; [ now left | right ].
      destruct H2 as [H2 | H2]; [ discriminate H2 | ].
      rewrite H2. reflexivity.
Qed.

(** The loop over the net positions: one status per position; the invested
    total is not touched; no alert is collected when alerts are off. *)
Lemma positions_loop (alertOnRisk : bool) (positions : list Position.t)
  (state : list PositionStatus.t * float * float * list message) :
  let result :=
    for_range positions
      (fun position '(statuses, totalPnL, totalInvested, riskAlerts) =>
         let status := analyzeIntradayPosition position alertOnRisk in
         ((statuses ++ [status])%list,
          totalPnL + PositionStatus.PnL status,
          totalInvested,
          if (len (PositionStatus.Alerts status) >? 0)%Z
          then (riskAlerts ++ PositionStatus.Alerts status)%list
          else riskAlerts))
      state in
  List.length (fst (fst (fst result)))
  = (List.length (fst (fst (fst state))) + List.length positions)%nat
  /\ snd (fst result) = snd (fst state)
  /\ (alertOnRisk = true \/ snd result = snd state).
Proof.
  unfold for_range. revert state.
  induction positions as [ | position positions IH];
    intros [[[statuses totalPnL] totalInvested] riskAlerts];
    cbn [fold_left List.length fst snd].
  - repeat split; [ lia | now right ].
  - match goal with
    | |- context [fold_left _ _ ?s] => destruct (IH s) as (H1 & H2 & H3)
    end.
    cbv zeta in H1, H2, H3. cbn [fst snd] in H1, H2, H3.
    repeat split.
    + rewrite H1, length_app. cbn [List.length]. lia.
    + exact H2.
    + destruct alertOnRisk; [ now left | right ].
      destruct H3 as [H3 | H3]; [ discriminate H3 | ].
      rewrite H3. reflexivity.
Qed.

(** X19.  The monitoring data hold one status per holding and per net
    position that was read.  Only holdings add to the invested total: when
    the holdings are left out or could not be read, the invested total and
    the total return are 0, whatever the profit and loss of the positions.
    With alerts switched off no risk alert is collected.  At most four
    recommendations are given. *)
Theorem monitoring_totals :
  forall (includeHoldings includePositions alertOnRisk : bool)
         (holdings : option (list Holding.t))
         (positions : option (list Position.t)) (now : Z),
    let monitoring :=
      monitorPositions includeHoldings includePositions alertOnRisk
        holdings positions now in
    List.length (PositionMonitoring.Positions monitoring)
    = (match includeHoldings, holdings with
       | true, Some holdings => List.length holdings
       | _, _ => 0
       end
       + match includePositions, positions with
         | true, Some positions => List.length positions
         | _, _ => 0
         end)%nat
    /\ ((exists read, includeHoldings = true /\ holdings = Some read)
        \/ (PositionMonitoring.TotalInvested monitoring = 0
            /\ PositionMonitoring.TotalReturn monitoring = 0))
    /\ (alertOnRisk = true \/ PositionMonitoring.RiskAlerts monitoring = [])
    /\ (List.length (PositionMonitoring.Recommendations monitoring) <= 4)%nat.
Proof.
  intros includeHoldings includePositions alertOnRisk holdings positions now
         monitoring.
  subst monitoring. unfold monitorPositions. cbv zeta.
  set (init := (@nil PositionStatus.t, 0, 0, @nil message)).
  assert (Hfinal : forall state,
    List.length (fst (fst (fst state)))
    = (match includeHoldings, holdings with
       | true, Some holdings => List.length holdings
       | _, _ => 0
       end
       + match includePositions, positions with
         | true, Some positions => List.length positions
         | _, _ => 0
         end)%nat ->
    ((exists read, includeHoldings = true /\ holdings = Some read)
     \/ snd (fst state) = 0) ->
    (alertOnRisk = true \/ snd state = []) ->
    let monitoring :=
      let '(statuses, totalPnL, totalInvested, riskAlerts) := state in
      {| PositionMonitoring.Timestamp := now;
         PositionMonitoring.Positions := statuses;
         PositionMonitoring.TotalPnL := totalPnL;
         PositionMonitoring.TotalInvested := totalInvested;
         PositionMonitoring.TotalReturn :=
           if 0 <? totalInvested then totalPnL / totalInvested * 100 else 0;
         PositionMonitoring.RiskAlerts := riskAlerts;
         PositionMonitoring.Recommendations :=
           generateMonitoringRecommendations
             {| PositionMonitoring.Timestamp := now;
                PositionMonitoring.Positions := statuses;
                PositionMonitoring.TotalPnL := totalPnL;
                PositionMonitoring.TotalInvested := totalInvested;
                PositionMonitoring.TotalReturn :=
                  if 0 <? totalInvested
                  then totalPnL / totalInvested * 100 else 0;
                PositionMonitoring.RiskAlerts := riskAlerts;
                PositionMonitoring.Recommendations := [] |} |} in
    List.length (PositionMonitoring.Positions monitoring)
    = (match includeHoldings, holdings with
       | true, Some holdings => List.length holdings
       | _, _ => 0
       end
       + match includePositions, positions with
         | true, Some positions => List.length positions
         | _, _ => 0
         end)%nat
    /\ ((exists read, includeHoldings = true /\ holdings = Some read)
        \/ (PositionMonitoring.TotalInvested monitoring = 0
            /\ PositionMonitoring.TotalReturn monitoring = 0))
    /\ (alertOnRisk = true \/ PositionMonitoring.RiskAlerts monitoring = [])
    /\ (List.length (PositionMonitoring.Recommendations monitoring) <= 4)%nat).
  { intros [[[statuses totalPnL] totalInvested] riskAlerts] H1 H2 H3.
    cbn [fst snd] in H1, H2, H3. cbv zeta.
    cbn [PositionMonitoring.Positions PositionMonitoring.TotalInvested
         PositionMonitoring.TotalReturn PositionMonitoring.RiskAlerts
         PositionMonitoring.Recommendations].
    repeat split; auto using generateMonitoringRecommendations_length.
    destruct H2 as [H2 | H2]; [ now left | right ].
    subst totalInvested. split; reflexivity. }
  apply Hfinal; clear Hfinal.
  - destruct includeHoldings, holdings as [held | ],
             includePositions, positions as [net | ];
      repeat match goal with
        | |- context [for_range net ?b ?s] =>
            pose proof (positions_loop alertOnRisk net s) as H;
            cbv zeta in H; destruct H as (-> & _ & _)
        | |- context [for_range held ?b ?s] =>
            pose proof (holdings_loop alertOnRisk held s) as H;
            cbv zeta in H; destruct H as (-> & _)
        end; cbn; lia.
  - destruct includeHoldings, holdings as [held | ];
      try (left; eexists; split; reflexivity); right;
      destruct includePositions, positions as [net | ];
      try reflexivity;
      match goal with
      | |- context [for_range net ?b ?s] =>
          pose proof (positions_loop alertOnRisk net s) as H;
          cbv zeta in H; destruct H as (_ & -> & _)
      end; reflexivity.
  - destruct alertOnRisk; [ now left | right ].
    destruct includeHoldings, holdings as [held | ],
             includePositions, positions as [net | ];
      repeat match goal with
        | |- context [for_range net ?b ?s] =>
            pose proof (positions_loop false net s) as H;
            cbv zeta in H; destruct H as (_ & _ & [H | ->]);
            [ discriminate H | ]
        | |- context [for_range held ?b ?s] =>
            pose proof (holdings_loop false held s) as H;
            cbv zeta in H; destruct H as (_ & [H | ->]);
            [ discriminate H | ]
        end; reflexivity.
Qed.

(* ===================================================================== *)
(** ** Emergency exit                                                     *)
(* ===================================================================== *)







(* ===================================================================== *)
(** ** Momentum score                                                     *)
(* ===================================================================== *)

(** X21.  The momentum score of a stock is NaN or at most 100.  When the
    price change does not exceed the requested minimum the score is one of
    50, 60, 65, 70, 75, 80, 85 and 95.  A stock carries at most four
    signals, its exchange is always NSE, and its volume multiple is 0
    unless the traded volume is positive. *)
Theorem momentum_score_capped :
  forall (quoteData : MomentumScan.quoteData)
         (minVolumeSurge minPriceChange : float),
    let momentum :=
      calculateMomentumScore quoteData minVolumeSurge minPriceChange in
    (IsNaN (MomentumStock.Score momentum) = true
     \/ (MomentumStock.Score momentum <=? 100) = true)
    /\ ((minPriceChange <? MomentumStock.PriceChange momentum) = true
        \/ In (MomentumStock.Score momentum)
              [50; 60; 65; 70; 75; 80; 85; 95])
    /\ (List.length (MomentumStock.Signals momentum) <= 4)%nat
    /\ MomentumStock.Exchange momentum = "NSE"
    /\ ((MomentumScan.VolumeTraded quoteData >? 0)%Z = true
        \/ MomentumStock.VolumeMultiple momentum = 0).
Proof.
  intros quoteData minVolumeSurge minPriceChange momentum. subst momentum.
  unfold calculateMomentumScore. cbv zeta.
  set (priceChange :=
         MomentumScan.NetChange quoteData / MomentumScan.LastPrice quoteData
         * 100).
  set (volumeMultiple :=
         if (MomentumScan.VolumeTraded quoteData >? 0)%Z
         then float64 (MomentumScan.Volume quoteData)
              / float64 (MomentumScan.VolumeTraded quoteData)
         else 0).
  destruct (minPriceChange <? priceChange) eqn:E1,
           (minVolumeSurge / 100 <? volumeMultiple),
           (MomentumScan.High quoteData * 0.98
            <=? MomentumScan.LastPrice quoteData),
           ((MomentumScan.AveragePrice quoteData
             <? MomentumScan.LastPrice quoteData)
            && (MomentumScan.Open quoteData
                <? MomentumScan.AveragePrice quoteData));
    cbn [MomentumStock.Score MomentumStock.PriceChange
         MomentumStock.Signals MomentumStock.Exchange
         MomentumStock.VolumeMultiple];
    (split;
     [ match goal with
       | |- context [Min ?s 100] =>
           destruct (IsNaN s) eqn:E;
           [ left; now apply Min_hundred_nan
           | right; now apply Min_hundred_le ]
       end
     | split;
       [ first [ left; exact E1 | right; vm_compute; auto 10 ]
       | split; [ cbn; lia | split; [ reflexivity | ] ] ] ]);
    subst volumeMultiple;
    (destruct (MomentumScan.VolumeTraded quoteData >? 0)%Z;
     [ now left | now right ]).
Qed.

(* ===================================================================== *)
(** ** Indicators on degenerate series                                    *)
(* ===================================================================== *)

(** X22.  When every volume is 0 the volume-weighted average price is 0:
    the division by the total volume is not attempted. *)
Theorem vwap_without_volume :
  forall prices volumes : list float,
    Forall (fun volume => volume = 0) volumes ->
    calculateVWAP prices volumes = 0.
Proof.
  intros prices volumes H. unfold calculateVWAP.
  destruct ((len prices =? 0)%Z || (len volumes =? 0)%Z
            || negb (len prices =? len volumes)%Z) eqn:E; [ reflexivity | ].
  apply orb_false_iff in E. destruct E as [_ E].
  apply negb_false_iff, Z.eqb_eq in E.
  assert (Hsum : snd (for_loop 0 (len prices)
                        (fun i '(totalPV, totalVolume) =>
                           (totalPV + index prices i * index volumes i,
                            totalVolume + index volumes i))
                        (0, 0)) = 0).
  { apply (for_loop_invariant (fun state : float * float => snd state = 0));
      [ reflexivity | ].
    intros i [totalPV totalVolume] Hi Hs. cbn [snd] in *. subst totalVolume.
    rewrite Forall_forall in H. rewrite (H (index volumes i)).
    - reflexivity.
    - apply index_In. lia. }
  destruct (for_loop _ _ _ _) as [totalPV totalVolume].
  cbn [snd] in Hsum. subst totalVolume. reflexivity.
Qed.

(** X22 on two closes without volume. *)
Lemma vwap_without_volume_witness : calculateVWAP [100; 101] [0; 0] = 0.
Proof.
  apply (vwap_without_volume [100; 101] [0; 0]).
  repeat constructor.
Defined.

(** The difference of a finite float and itself is [+0]. *)
Lemma sub_self (x : float) : finite x = true -> x - x = 0.
Proof.
  unfold finite. intros H.
  apply Prim2SF_inj. rewrite sub_spec.
  rewrite ltb_spec, abs_spec in H.
  change (Prim2SF infinity) with (S754_infinity false) in H.
  change (Prim2SF 0) with (S754_zero false).
  destruct (Prim2SF x) as [s | s | | s m e]; try discriminate H.
  - destruct s; reflexivity.
  - unfold SF64sub, SFsub. rewrite Z.sub_diag. reflexivity.
Qed.

Lemma index_flat_suffix (earlier : list float) (p : float) (n : nat)
  (i : Z) :
  (len earlier <= i < len earlier + Z.of_nat n)%Z ->
  index (earlier ++ repeat p n) i = p.
Proof.
  intros H.
  replace i with ((i - len earlier) + len earlier)%Z by lia.
  rewrite index_app_right by lia.
  apply (repeat_spec n p). apply index_In.
  unfold len in *. rewrite repeat_length. lia.
Qed.

(** X23.  When the last 15 closes are one and the same finite price, the
    14-period RSI is 100, whatever the earlier closes: without any loss in
    the window the average loss is 0, and the code then returns 100. *)
Theorem rsi_of_flat_window :
  forall (earlier : list float) (p : float),
    finite p = true ->
    calculateRSI (earlier ++ repeat p 15) 14 = 100.
Proof.
  intros earlier p Hp. unfold calculateRSI.
  pose proof (len_nonneg earlier) as He.
  assert (Hlen : len (earlier ++ repeat p 15) = (len earlier + 15)%Z).
  { rewrite len_app. unfold len. rewrite repeat_length. reflexivity. }
  rewrite Hlen.
  replace (len earlier + 15 <? 14 + 1)%Z with false
    by (symmetry; apply Z.ltb_ge; lia).
  match goal with
  | |- context [for_loop ?lo ?hi ?body ?init] =>
      assert (Hloop : for_loop lo hi body init = (0, 0))
  end.
  { apply (for_loop_invariant (fun state : float * float => state = (0, 0)));
      [ reflexivity | ].
    intros i state Hi ->.
    rewrite !index_flat_suffix by (cbn; lia).
    rewrite (sub_self p Hp). reflexivity. }
  rewrite Hloop. reflexivity.
Qed.

(** X23 on a window of closes at 100 after two closes at 90 and 95. *)
Lemma rsi_of_flat_window_witness :
  calculateRSI ([90; 95] ++ repeat 100 15) 14 = 100.
Proof.
  apply (rsi_of_flat_window [90; 95] 100). reflexivity.
Defined.


(* ===================================================================== *)
(** ** The analysis of a short history                                    *)
(* ===================================================================== *)

Lemma technical_of_short_history
  (historicalData : list kiteconnect.HistoricalData) :
  (List.length historicalData < 200)%nat ->
  (if (len (map kiteconnect.CandleClose historicalData) >? 0)%Z
   then CalculateTechnicalIndicators
          (map kiteconnect.CandleClose historicalData)
          (map (fun candle => float64 (kiteconnect.CandleVolume candle))
               historicalData)
   else zeroTechnicalIndicators) = zeroTechnicalIndicators.
Proof.
  intros H. destruct (_ >? 0)%Z; [ | reflexivity ].
  unfold CalculateTechnicalIndicators.
  replace (len (map kiteconnect.CandleClose historicalData) <? 200)%Z
    with true; [ reflexivity | ].
  symmetry. apply Z.ltb_lt. unfold len. rewrite length_map. lia.
Qed.

(** X25.  With fewer than 200 candles the analysis runs on the zero value
    of the indicators, in which only the VWAP is set (to the average price
    of the quote): the stop-loss is 0.98 times the last price, the three
    targets are the last price plus 2, 3 and 5 times the distance to that
    stop, and the confidence is 50, 55 or 60. *)
Theorem short_history_analysis :
  forall (quoteData : QuoteData)
         (historicalData : list kiteconnect.HistoricalData)
         (timeframe riskTolerance : string) (capital maxRiskPercent : float)
         (now : Z),
    (List.length historicalData < 200)%nat ->
    let analysis :=
      performComprehensiveAnalysis quoteData historicalData timeframe
        riskTolerance capital maxRiskPercent now in
    let price := LastPrice quoteData in
    Technical analysis
    = set_VWAP zeroTechnicalIndicators (AveragePrice quoteData)
    /\ StopLoss (RiskReward analysis) = price * 0.98
    /\ Target1 (RiskReward analysis) = price + (price - price * 0.98) * 2
    /\ Target2 (RiskReward analysis) = price + (price - price * 0.98) * 3
    /\ Target3 (RiskReward analysis) = price + (price - price * 0.98) * 5
    /\ In (Confidence analysis) [50; 55; 60].
Proof.
  intros quoteData historicalData timeframe riskTolerance capital
         maxRiskPercent now H analysis price.
  subst analysis price. unfold performComprehensiveAnalysis. cbv zeta.
  rewrite (technical_of_short_history historicalData H).
  cbn [Technical RiskReward Confidence].
  pose proof (calculateRiskReward_eq (LastPrice quoteData)
                (set_VWAP zeroTechnicalIndicators (AveragePrice quoteData))
                capital maxRiskPercent) as E.
  cbv zeta in E. rewrite E. clear E.
  cbn [StopLoss Target1 Target2 Target3].
  split; [ reflexivity | ].
  split; [ reflexivity | ].
  split; [ reflexivity | ].
  split; [ reflexivity | ].
  split; [ reflexivity | ].
  unfold calculateConfidence.
  cbn [Technical RiskReward Fundamental Sentiment FundamentalScore
       SentimentScore RiskRewardRatio].
  match goal with
  | |- context [3 <? ?r] =>
      destruct (3 <? r), (2 <? r)
  end; vm_compute; auto.
Qed.

(** X25 on a quote at 100 without any candle. *)
Lemma short_history_analysis_witness :
  StopLoss
    (RiskReward
       (performComprehensiveAnalysis
          {| InstrumentToken := 408065; LastPrice := 100;
             AveragePrice := 100; Volume := 1000; NetChange := 0; OI := 0;
             LowerCircuitLimit := 0; UpperCircuitLimit := 0;
             Tradingsymbol := "INFY"; High := 100; Low := 100; Open := 100;
             VolumeTraded := 1000 |}
          [] "swing" "moderate" 100000 2 0))
  = 100 * 0.98.
Proof.
  apply (proj1 (proj2
    (short_history_analysis
       {| InstrumentToken := 408065; LastPrice := 100;
          AveragePrice := 100; Volume := 1000; NetChange := 0; OI := 0;
          LowerCircuitLimit := 0; UpperCircuitLimit := 0;
          Tradingsymbol := "INFY"; High := 100; Low := 100; Open := 100;
          VolumeTraded := 1000 |}
       [] "swing" "moderate" 100000 2 0 ltac:(cbn; lia)))).
Defined.
